(** * Nyponbackens Äggtracker: access control, entry repository and aggregation

    A shallow embedding of the TypeScript sources

      - [src/utils/adminHelpers.ts]      (admin set, allow-list check)
      - [src/utils/firestoreHelpers.ts]  (entry helpers)
      - [src/components/EggTracker.tsx]  (form validation, create, edit, delete)
      - [src/components/AdminPanel.tsx]  (allow-list and bulk operations)
      - [src/App.tsx]                    (farm statistics)
      - [src/config/firebase.ts]         (date helpers of [firestoreUtils])

    followed by the properties the specification states about them, each
    proved of the embedding or, where the code does otherwise, settled on a
    concrete run: refuted and proved in the form the code satisfies where
    the code does so by design, evaluated where the code misses what it
    aims at; and by further
    properties of the same code: what the handlers do when the store fails,
    what they leave alone, round trips, and the tables, pages and chart
    built from the entries.

    Modelling conventions.
    - JavaScript strings are byte strings; [toLowerCase], [trim] and the
      whitespace class of the address pattern act on ASCII, every other byte
      is left as it is.
    - A [Date] is its time value, milliseconds since the epoch, as a [Z]; the
      time zone of the host is a parameter of the code, the offset of local
      time from UTC as a function of the time. The properties that compare
      calendar days are stated for a zone with a fixed offset [tza] (no
      daylight saving transitions); the concrete runs of the edit limit and
      of the year statistics are made in Europe/Stockholm. An invalid date
      is [None] where the code tests for it.
    - Integral JavaScript numbers (counts, totals) are [Z]; where the code
      divides, for the percentage of the farm total and the average per
      day, the result is computed on IEEE 754 binary64 numbers as the engine
      does.
    - Firestore is a state: two collections as finite maps from document id
      to document, a server clock, the trace of the requests received and an
      oracle telling which request is rejected. A document id is one opaque
      key: the paths that the client library builds from an id containing a
      slash are not modelled. An [async] function is a function from this
      state to a settled promise and the next state.
    - React state is a record; a handler maps the record before the event to
      the record after it. Timers that clear a banner later, console output
      and scrolling are not modelled. *)

From Stdlib Require Import ZArith Lia Bool String Ascii List.
From Stdlib Require Import Floats.PrimFloat Floats.SpecFloat Floats.FloatOps.
From Stdlib Require Import Numbers.Cyclic.Int63.Uint63.
From Stdlib Require Import Sorting.Permutation Sorting.Sorted.
From Stdlib Require DecimalString.
From stdpp Require Import base gmap strings list fin_maps.

Local Open Scope string_scope.
Local Open Scope Z_scope.

(* ===================================================================== *)
(** ** JavaScript strings *)
(* ===================================================================== *)

Module JsString.

(** [String.prototype.toLowerCase], on the ASCII letters. *)
Definition lowerChar (c : ascii) : ascii :=
  let n := nat_of_ascii c in
  if ((65 <=? n)%nat && (n <=? 90)%nat)%bool then ascii_of_nat (n + 32) else c.

Fixpoint toLowerCase (s : string) : string :=
  match s with
  | EmptyString => EmptyString
  | String c r => String (lowerChar c) (toLowerCase r)
  end.

(** White space and line terminators below U+0080: TAB, LF, VT, FF, CR, SP. *)
Definition isWhiteSpace (c : ascii) : bool :=
  let n := nat_of_ascii c in
  ((9 <=? n)%nat && (n <=? 13)%nat)%bool || (n =? 32)%nat.

Fixpoint trimStart (s : string) : string :=
  match s with
  | EmptyString => EmptyString
  | String c r => if isWhiteSpace c then trimStart r else s
  end.

Fixpoint trimEnd (s : string) : string :=
  match s with
  | EmptyString => EmptyString
  | String c r =>
      match trimEnd r with
      | EmptyString => if isWhiteSpace c then EmptyString else String c EmptyString
      | r' => String c r'
      end
  end.

(** No character of [s] is white space. *)
Fixpoint noWhiteSpace (s : string) : bool :=
  match s with
  | EmptyString => true
  | String c r => negb (isWhiteSpace c) && noWhiteSpace r
  end.

(** [String.prototype.trim]. *)
Definition trim (s : string) : string := trimEnd (trimStart s).

(** [s.split(sep)] for a one-character separator: always at least one
    piece, empty pieces are kept. *)
Fixpoint split (sep : ascii) (s : string) : list string :=
  match s with
  | EmptyString => [EmptyString]
  | String c r =>
      if Ascii.eqb c sep then EmptyString :: split sep r
      else match split sep r with
           | h :: t => String c h :: t
           | [] => [String c EmptyString]
           end
  end.

(** The part of [s] before the first [sep] (all of [s] when there is none):
    [s.split(sep)[0]]. *)
Definition beforeFirst (sep : ascii) (s : string) : string :=
  match split sep s with
  | h :: _ => h
  | [] => EmptyString
  end.

(** [s.startsWith(searchString)] and [s.includes(searchString)]. *)
Fixpoint startsWith (searchString s : string) : bool :=
  match searchString, s with
  | EmptyString, _ => true
  | String c p, String d r => Ascii.eqb c d && startsWith p r
  | String _ _, EmptyString => false
  end.

Fixpoint includes (searchString s : string) : bool :=
  startsWith searchString s
  || match s with
     | EmptyString => false
     | String _ r => includes searchString r
     end.

(** JavaScript truthiness of a string value that may be [null] or
    [undefined]: the empty string is falsy as well. *)
Definition truthy (o : option string) : option string :=
  match o with
  | Some EmptyString => None
  | other => other
  end.

(** [a || b] on strings. *)
Definition orElse (o : option string) (dflt : string) : string :=
  match truthy o with
  | Some s => s
  | None => dflt
  end.

(** The class [[^\s@]] of the address pattern. *)
Definition atomChar (c : ascii) : bool :=
  negb (isWhiteSpace c) && negb (Ascii.eqb c "@").

Fixpoint allAtom (s : string) : bool :=
  match s with
  | EmptyString => true
  | String c r => atomChar c && allAtom r
  end.

(** Some ["."] of [s] is followed by at least one more character. *)
Fixpoint dotBeforeEnd (s : string) : bool :=
  match s with
  | EmptyString => false
  | String c r =>
      (Ascii.eqb c "." && negb (String.eqb r EmptyString)) || dotBeforeEnd r
  end.

(** What follows the ["@"]: [[^\s@]+\.[^\s@]+$]. *)
Definition domainPart (s : string) : bool :=
  allAtom s &&
  match s with
  | EmptyString => false
  | String _ r => dotBeforeEnd r
  end.

(** [^[^\s@]+] followed by ["@"] and the domain part; [seen] tells whether
    at least one character of the local part was read. *)
Fixpoint localPart (seen : bool) (s : string) : bool :=
  match s with
  | EmptyString => false
  | String c r =>
      if Ascii.eqb c "@" then seen && domainPart r
      else if isWhiteSpace c then false
      else localPart true r
  end.

(** [/^[^\s@]+@[^\s@]+\.[^\s@]+$/.test(s)]. *)
Definition emailRegex_test (s : string) : bool := localPart false s.

End JsString.

(* ===================================================================== *)
(** ** JavaScript dates (ECMAScript time values) *)
(* ===================================================================== *)

Module JsDate.

Definition msPerDay : Z := 86400000.
Definition msPerHour : Z := 3600000.
Definition msPerMinute : Z := 60000.
Definition msPerSecond : Z := 1000.

Definition Day (t : Z) : Z := t / msPerDay.
Definition TimeWithinDay (t : Z) : Z := t mod msPerDay.

Definition DaysInYear (y : Z) : Z :=
  if negb (y mod 4 =? 0) then 365
  else if negb (y mod 100 =? 0) then 366
  else if negb (y mod 400 =? 0) then 365
  else 366.

Definition DayFromYear (y : Z) : Z :=
  365 * (y - 1970) + (y - 1969) / 4 - (y - 1901) / 100 + (y - 1601) / 400.

(** The largest year whose first day is not after the day of [t]: an
    estimate from the mean length of a year, corrected by at most one. *)
Definition YearFromTime (t : Z) : Z :=
  let d := Day t in
  let y := 1970 + (d * 400) / 146097 in
  if DayFromYear (y + 1) <=? d then y + 1
  else if DayFromYear y <=? d then y
  else y - 1.

Definition InLeapYear (t : Z) : Z := DaysInYear (YearFromTime t) - 365.

Definition DayWithinYear (t : Z) : Z := Day t - DayFromYear (YearFromTime t).

(** Number of days of the year before month [m] (0 = January). *)
Definition monthStart (leap m : Z) : Z :=
  if m <=? 0 then 0
  else if m =? 1 then 31
  else if m =? 2 then 59 + leap
  else if m =? 3 then 90 + leap
  else if m =? 4 then 120 + leap
  else if m =? 5 then 151 + leap
  else if m =? 6 then 181 + leap
  else if m =? 7 then 212 + leap
  else if m =? 8 then 243 + leap
  else if m =? 9 then 273 + leap
  else if m =? 10 then 304 + leap
  else 334 + leap.

Definition monthOfDay (leap d : Z) : Z :=
  if d <? 31 then 0
  else if d <? 59 + leap then 1
  else if d <? 90 + leap then 2
  else if d <? 120 + leap then 3
  else if d <? 151 + leap then 4
  else if d <? 181 + leap then 5
  else if d <? 212 + leap then 6
  else if d <? 243 + leap then 7
  else if d <? 273 + leap then 8
  else if d <? 304 + leap then 9
  else if d <? 334 + leap then 10
  else 11.

Definition MonthFromTime (t : Z) : Z :=
  monthOfDay (InLeapYear t) (DayWithinYear t).

Definition DateFromTime (t : Z) : Z :=
  DayWithinYear t - monthStart (InLeapYear t) (MonthFromTime t) + 1.

Definition MakeTime (hour min sec ms : Z) : Z :=
  hour * msPerHour + min * msPerMinute + sec * msPerSecond + ms.

(** Months outside 0..11 carry into the year, and a day of the month past
    the end of the month carries into the following months. *)
Definition MakeDay (year month date : Z) : Z :=
  let ym := year + month / 12 in
  let mn := month mod 12 in
  DayFromYear ym + monthStart (DaysInYear ym - 365) mn + date - 1.

Definition MakeDate (day time : Z) : Z := day * msPerDay + time.

(** The time zone of the host, as ECMAScript has it: [LocalTZA zone t
    isUTC] is the offset of local time from UTC, in milliseconds, in effect
    at the time value [t] when [isUTC] holds, and at the local time [t]
    otherwise. *)
Record Zone := mkZone { LocalTZA : Z -> bool -> Z }.

(** The zone whose local time is always [tza] milliseconds ahead of
    UTC. *)
Definition fixedOffset (tza : Z) : Zone := mkZone (fun _ _ => tza).

Section LocalZone.
Variable zone : Zone.

Definition LocalTime (t : Z) : Z := t + LocalTZA zone t true.
Definition UTC (t : Z) : Z := t - LocalTZA zone t false.

Definition getFullYear (t : Z) : Z := YearFromTime (LocalTime t).
Definition getMonth (t : Z) : Z := MonthFromTime (LocalTime t).
Definition getDate (t : Z) : Z := DateFromTime (LocalTime t).

(** [d.setMonth(month)]: year, day of the month and time of day of the
    local time are kept. *)
Definition setMonth (t month : Z) : Z :=
  let lt := LocalTime t in
  UTC (MakeDate (MakeDay (YearFromTime lt) month (DateFromTime lt))
                (TimeWithinDay lt)).

(** [d.setHours(hour, min, sec, ms)]. *)
Definition setHours (t hour min sec ms : Z) : Z :=
  let lt := LocalTime t in
  UTC (MakeDate (Day lt) (MakeTime hour min sec ms)).

(** [new Date(year, month, date, hours, minutes, seconds)]; the
    milliseconds are 0, and a year 0..99 means 1900 + year. *)
Definition newDate (year month date hours minutes seconds : Z) : Z :=
  let yr := if ((0 <=? year) && (year <=? 99))%bool then 1900 + year else year in
  UTC (MakeDate (MakeDay yr month date) (MakeTime hours minutes seconds 0)).

End LocalZone.

End JsDate.

(** Where a zone is expected, a number stands for the zone with that fixed
    offset. *)
Coercion JsDate.fixedOffset : Z >-> JsDate.Zone.

(* ===================================================================== *)
(** ** JavaScript arrays and objects *)
(* ===================================================================== *)

Module JsArray.

Section Sort.
Context {A : Type}.
(** The comparator: a positive result puts the first argument after the
    second. *)
Variable compareFn : A -> A -> Z.

Fixpoint insertSorted (x : A) (l : list A) : list A :=
  match l with
  | [] => [x]
  | y :: l' =>
      if compareFn x y >? 0 then y :: insertSorted x l' else x :: l
  end.

(** [Array.prototype.sort(compareFn)]: a stable sort; elements that compare
    equal keep their order. *)
Definition sort (l : list A) : list A := foldr insertSorted [] l.

End Sort.

End JsArray.

Module JsObject.

(** An object used as a dictionary: its own string-keyed properties in
    creation order. Keys are assumed not to name a member of
    [Object.prototype]. *)
Definition t (V : Type) : Type := list (string * V).

Section Dict.
Context {V : Type}.

(** [obj[key]]. *)
Fixpoint get (key : string) (obj : t V) : option V :=
  match obj with
  | [] => None
  | (k, v) :: rest => if String.eqb k key then Some v else get key rest
  end.

(** [obj[key] = v]: an existing property keeps its place, a new one is
    created last. *)
Fixpoint set (key : string) (v : V) (obj : t V) : t V :=
  match obj with
  | [] => [(key, v)]
  | (k, v0) :: rest =>
      if String.eqb k key then (k, v) :: rest else (k, v0) :: set key v rest
  end.

Definition digitValue (c : ascii) : option Z :=
  let n := Z.of_nat (nat_of_ascii c) in
  if (48 <=? n) && (n <=? 57) then Some (n - 48) else None.

Fixpoint parseDigits (acc : Z) (s : string) : option Z :=
  match s with
  | EmptyString => Some acc
  | String c r =>
      match digitValue c with
      | Some d => parseDigits (10 * acc + d) r
      | None => None
      end
  end.

(** The array index a property key denotes, if it is one: a canonical
    decimal numeral below 2^32 - 1. *)
Definition arrayIndex (key : string) : option Z :=
  match key with
  | EmptyString => None
  | String c r =>
      if Ascii.eqb c "0" && negb (String.eqb r EmptyString) then None
      else match parseDigits 0 key with
           | Some n => if n <=? 4294967294 then Some n else None
           | None => None
           end
  end.

Definition isIndexKey (kv : string * V) : bool :=
  match arrayIndex (fst kv) with Some _ => true | None => false end.

Definition compareIndex (a b : string * V) : Z :=
  default 0 (arrayIndex (fst a)) - default 0 (arrayIndex (fst b)).

(** Own property order: array indices ascending, then the other keys in
    creation order. *)
Definition ownProperties (obj : t V) : list (string * V) :=
  JsArray.sort compareIndex (List.filter isIndexKey obj)
  ++ List.filter (fun kv => negb (isIndexKey kv)) obj.

(** [Object.values(obj)]. *)
Definition values (obj : t V) : list V := map snd (ownProperties obj).

End Dict.

End JsObject.

(* ===================================================================== *)
(** ** JavaScript numbers *)
(* ===================================================================== *)

Module JsNumber.

(** The Number value of an integer; exact up to 2^53 in absolute value. *)
Definition ofZ (z : Z) : float :=
  if z <? 0 then PrimFloat.opp (PrimFloat.of_uint63 (Uint63.of_Z (- z)))
  else PrimFloat.of_uint63 (Uint63.of_Z z).

(** [Math.round]: the integer closest to the argument, a tie going up.
    [None] stands for the results that are not integers, NaN and the
    infinities, which [Math.round] returns unchanged. *)
Definition Math_round (x : float) : option Z :=
  match Prim2SF x with
  | S754_zero _ => Some 0
  | S754_finite s m e =>
      let n := if s then Z.neg m else Z.pos m in
      if 0 <=? e then Some (n * 2 ^ e)
      else Some ((2 * n + 2 ^ (- e)) / 2 ^ (1 - e))
  | S754_infinity _ => None
  | S754_nan => None
  end.

End JsNumber.

(* ===================================================================== *)
(** ** The document store (Cloud Firestore) *)
(* ===================================================================== *)

Module Firestore.

(** A document of the collection ['allowedUsers']. A field the document
    does not have is [None]. *)
Record AllowedUserDoc := mkAllowedUserDoc {
  au_email : option string;
  au_displayName : option string;
  au_addedAt : option Z;
  au_addedBy : option string
}.

(** A document of the collection ['eggEntries']. *)
Record EggDoc := mkEggDoc {
  date : option Z;
  count : option Z;
  userId : option string;
  userName : option string;
  createdAt : option Z;
  updatedAt : option Z
}.

#[export] Instance AllowedUserDoc_eq_dec : EqDecision AllowedUserDoc.
Proof. solve_decision. Defined.
#[export] Instance EggDoc_eq_dec : EqDecision EggDoc.
Proof. solve_decision. Defined.

(** [query(collection(db, 'eggEntries'), where('userId', '==', u),
    where('date', '>=', lo), where('date', '<=', hi), orderBy('date', 'desc'))],
    each clause optional. *)
Record EggQuery := mkEggQuery {
  whereUserId : option string;
  whereDateGe : option Z;
  whereDateLe : option Z;
  orderByDateDesc : bool
}.

(** An error of the SDK, as a handler sees it: [error.code] and
    [error.message]. *)
Record FirestoreError := mkFirestoreError {
  code : string;
  message : string
}.

(** The errors named below: the service cannot be reached, the security
    rules refuse the request, the document to update does not exist. *)
Definition unavailable : FirestoreError :=
  mkFirestoreError "unavailable" "Failed to get document because the client is offline.".
Definition permission_denied : FirestoreError :=
  mkFirestoreError "permission-denied" "Missing or insufficient permissions.".
Definition not_found : FirestoreError :=
  mkFirestoreError "not-found" "No document to update".

(** The requests the client sends. *)
Inductive Request :=
| GetDoc_allowedUsers (key : string)
| GetDocs_allowedUsers_whereEmail (email : string)
| SetDoc_allowedUsers (key : string)
| DeleteDoc_allowedUsers (key : string)
| GetDocs_eggEntries (q : EggQuery)
| AddDoc_eggEntries
| UpdateDoc_eggEntries (key : string)
| DeleteDoc_eggEntries (key : string)
| BatchDelete_eggEntries (keys : list string).

(** The store and its environment. [faults n] tells whether the request
    number [n] (counted from 0 in [requests]) is rejected, and how. *)
Record World := mkWorld {
  allowedUsers : gmap string AllowedUserDoc;
  eggEntries : gmap string EggDoc;
  serverTime : Z;
  requests : list Request;
  faults : nat -> option FirestoreError
}.

Definition reachable (w : World) : Prop := forall n, faults w n = None.

Definition withAllowedUsers (m : gmap string AllowedUserDoc) (w : World) : World :=
  mkWorld m (eggEntries w) (serverTime w) (requests w) (faults w).

Definition withEggEntries (m : gmap string EggDoc) (w : World) : World :=
  mkWorld (allowedUsers w) m (serverTime w) (requests w) (faults w).

Definition logRequest (r : Request) (w : World) : World :=
  mkWorld (allowedUsers w) (eggEntries w) (serverTime w)
          (requests w ++ [r]) (faults w).

(** A settled promise. *)
Inductive Settled (A : Type) :=
| Fulfilled (a : A)
| Rejected (e : FirestoreError).
Arguments Fulfilled {A} a.
Arguments Rejected {A} e.

(** An asynchronous computation, run to completion. *)
Definition Async (A : Type) : Type := World -> Settled A * World.

Definition ret {A} (a : A) : Async A := fun w => (Fulfilled a, w).

Definition bind {A B} (m : Async A) (k : A -> Async B) : Async B :=
  fun w =>
    match m w with
    | (Fulfilled a, w') => k a w'
    | (Rejected e, w') => (Rejected e, w')
    end.

(** [try { body } catch (error) { handler }]. *)
Definition tryCatch {A} (body : Async A) (handler : FirestoreError -> Async A) : Async A :=
  fun w =>
    match body w with
    | (Fulfilled a, w') => (Fulfilled a, w')
    | (Rejected e, w') => handler e w'
    end.

(** One round trip: the request is recorded, then either rejected by the
    fault oracle or served by [serve]. *)
Definition request {A} (r : Request) (serve : World -> Settled A * World) : Async A :=
  fun w =>
    let w1 := logRequest r w in
    match faults w (length (requests w)) with
    | Some e => (Rejected e, w1)
    | None => serve w1
    end.

(** *** Reads *)

(** [getDoc(doc(db, 'allowedUsers', key))]; the result is the snapshot's
    data, [None] when [exists()] is false. *)
Definition getDoc_allowedUsers (key : string) : Async (option AllowedUserDoc) :=
  request (GetDoc_allowedUsers key)
          (fun w => (Fulfilled (allowedUsers w !! key), w)).

(** [getDocs(query(collection(db, 'allowedUsers'), where('email', '==', email)))]. *)
Definition getDocs_allowedUsers_whereEmail (email : string)
  : Async (list (string * AllowedUserDoc)) :=
  request (GetDocs_allowedUsers_whereEmail email)
          (fun w => (Fulfilled
                       (map_to_list
                          (filter (fun kd => au_email (snd kd) = Some email)
                                  (allowedUsers w))), w)).

Definition matchesEggQuery (q : EggQuery) (d : EggDoc) : bool :=
  match whereUserId q with
  | Some u => bool_decide (userId d = Some u)
  | None => true
  end
  && match whereDateGe q with
     | Some lo => match date d with Some t => lo <=? t | None => false end
     | None => true
     end
  && match whereDateLe q with
     | Some hi => match date d with Some t => t <=? hi | None => false end
     | None => true
     end
  && (negb (orderByDateDesc q) || bool_decide (is_Some (date d))).

(** The order of [orderBy('date', 'desc')]: later dates first; documents
    of equal date stay in the order given. *)
Definition compareDateDesc (a b : string * EggDoc) : Z :=
  default 0 (date (snd b)) - default 0 (date (snd a)).

Definition sortByDateDesc (l : list (string * EggDoc)) : list (string * EggDoc) :=
  JsArray.sort compareDateDesc l.

(** The documents a query selects, in the order they are delivered. *)
Definition runEggQuery (q : EggQuery) (m : gmap string EggDoc)
  : list (string * EggDoc) :=
  let hits := map_to_list (filter (fun kd => matchesEggQuery q (snd kd) = true) m) in
  if orderByDateDesc q then sortByDateDesc hits else hits.

Definition getDocs_eggEntries (q : EggQuery) : Async (list (string * EggDoc)) :=
  request (GetDocs_eggEntries q)
          (fun w => (Fulfilled (runEggQuery q (eggEntries w)), w)).

(** *** Writes *)

(** [setDoc(doc(db, 'allowedUsers', key), data)], [data.addedAt] being
    [serverTimestamp()]: the document is created or overwritten. *)
Definition setDoc_allowedUsers (key : string) (email displayName : string)
           (addedBy : option string) : Async unit :=
  request (SetDoc_allowedUsers key)
          (fun w =>
             let d := mkAllowedUserDoc (Some email) (Some displayName)
                                       (Some (serverTime w)) addedBy in
             (Fulfilled tt, withAllowedUsers (<[key := d]> (allowedUsers w)) w)).

(** [deleteDoc(ref)]; deleting a document that does not exist succeeds. *)
Definition deleteDoc_allowedUsers (key : string) : Async unit :=
  request (DeleteDoc_allowedUsers key)
          (fun w => (Fulfilled tt, withAllowedUsers (delete key (allowedUsers w)) w)).

(** [addDoc(collection(db, 'eggEntries'), { date, count, userId, userName,
    createdAt: serverTimestamp() })]: the store picks an unused id. *)
Definition addDoc_eggEntries (date : Z) (count : Z) (userId userName : string)
  : Async string :=
  request AddDoc_eggEntries
          (fun w =>
             let key := fresh (dom (eggEntries w)) in
             let d := mkEggDoc (Some date) (Some count) (Some userId) (Some userName)
                               (Some (serverTime w)) None in
             (Fulfilled key, withEggEntries (<[key := d]> (eggEntries w)) w)).

(** [updateDoc(doc(db, 'eggEntries', key), { count, date, updatedAt:
    serverTimestamp() })]; rejected when the document does not exist. *)
Definition updateDoc_eggEntries (key : string) (newCount : Z) (newDate : Z)
  : Async unit :=
  request (UpdateDoc_eggEntries key)
          (fun w =>
             match eggEntries w !! key with
             | None => (Rejected not_found, w)
             | Some d =>
                 let d' := mkEggDoc (Some newDate) (Some newCount) (userId d)
                                    (userName d) (createdAt d) (Some (serverTime w)) in
                 (Fulfilled tt, withEggEntries (<[key := d']> (eggEntries w)) w)
             end).

Definition deleteDoc_eggEntries (key : string) : Async unit :=
  request (DeleteDoc_eggEntries key)
          (fun w => (Fulfilled tt, withEggEntries (delete key (eggEntries w)) w)).

(** [writeBatch(db)], a [batch.delete(ref)] for each key, [batch.commit()]:
    one request, all deletions or none. *)
Definition batchDelete_eggEntries (keys : list string) : Async unit :=
  request (BatchDelete_eggEntries keys)
          (fun w => (Fulfilled tt,
                     withEggEntries (foldr delete (eggEntries w) keys) w)).

End Firestore.

Declare Scope async_scope.
Delimit Scope async_scope with async.
Notation "x <- m ;; k" := (Firestore.bind m (fun x => k))
  (at level 100, m at next level, right associativity) : async_scope.
Notation "m ;;; k" := (Firestore.bind m (fun _ => k))
  (at level 100, right associativity) : async_scope.

Local Open Scope async_scope.

(* ===================================================================== *)
(** ** Signed-in identity ([User] of firebase/auth) *)
(* ===================================================================== *)

Module Auth.

Record User := mkUser {
  uid : string;
  email : option string;        (* [null] when the provider gave none *)
  displayName : option string
}.

(** [user?.email], as a condition: [None] for no user, no address, or the
    empty address. *)
Definition emailOf (user : option User) : option string :=
  match user with
  | Some u => JsString.truthy (email u)
  | None => None
  end.

End Auth.

(* ===================================================================== *)
(** ** src/utils/adminHelpers.ts *)
(* ===================================================================== *)

Module AdminHelpers.
Import Firestore Auth.

(** [ADMIN_EMAILS]: the value of VITE_ADMIN_EMAILS, when set and not empty,
    cut at the commas and trimmed. *)
Definition ADMIN_EMAILS (VITE_ADMIN_EMAILS : option string) : list string :=
  match JsString.truthy VITE_ADMIN_EMAILS with
  | Some s => map JsString.trim (JsString.split "," s)
  | None => []
  end.

Section Configured.
Variable VITE_ADMIN_EMAILS : option string.

Definition isAdmin (user : option User) : bool :=
  match emailOf user with
  | None => false
  | Some e => bool_decide (e ∈ ADMIN_EMAILS VITE_ADMIN_EMAILS)
  end.

Definition isUserAllowed (user : option User) : Async bool :=
  match emailOf user with
  | None => ret false
  | Some e =>
      if isAdmin user then ret true
      else
        tryCatch
          (let userEmail := JsString.toLowerCase e in
           userDocSnap <- getDoc_allowedUsers userEmail ;;
           if bool_decide (is_Some userDocSnap) then ret true
           else
             querySnapshot <- getDocs_allowedUsers_whereEmail userEmail ;;
             if negb (bool_decide (querySnapshot = [])) then ret true
             else ret false)
          (fun _error => ret false)
  end.

(** [checkUserAccess(user, onAccessChange)]: the value handed to the
    callback. *)
Definition checkUserAccess (user : option User) : Async bool :=
  match emailOf user with
  | None => ret false
  | Some _ => if isAdmin user then ret true else isUserAllowed user
  end.

(** The decision of the specification's [resolveRole], read off the two
    predicates above: the admin panel opens on [isAdmin], the tracker on
    [isUserAllowed]. *)
Inductive Role := Denied | Allowed | Admin.

Definition resolveRole (user : option User) : Async Role :=
  if isAdmin user then ret Admin
  else
    access <- isUserAllowed user ;;
    ret (if access : bool then Allowed else Denied).

End Configured.

End AdminHelpers.

(* ===================================================================== *)
(** ** src/utils/firestoreHelpers.ts *)
(* ===================================================================== *)

Module FirestoreHelpers.
Import Firestore.

Record EggEntryInput := mkEggEntryInput {
  in_date : Z;
  in_count : Z;
  in_userId : string;
  in_userName : string
}.

Section Utils.
(** [firestoreUtils.startOfDay] and [firestoreUtils.endOfDay] of
    [@/config/firebase], taken as parameters here: the stamp of the first and
    of the last instant of the day, or nothing. [FirebaseConfig] below gives
    the two functions themselves. *)
Variables startOfDay endOfDay : Z -> option Z.

Definition hasExistingEntryForDate (userId : string) (date : Z) : Async bool :=
  match startOfDay date, endOfDay date with
  | Some lo, Some hi =>
      snapshot <- getDocs_eggEntries (mkEggQuery (Some userId) (Some lo) (Some hi) false) ;;
      ret (negb (bool_decide (snapshot = [])))
  | _, _ => ret false
  end.

End Utils.

(** [saveEggEntry(eggEntry)]: the id of the new document. *)
Definition saveEggEntry (eggEntry : EggEntryInput) : Async string :=
  addDoc_eggEntries (in_date eggEntry) (in_count eggEntry)
                    (in_userId eggEntry) (in_userName eggEntry).

Definition updateEggEntry (id : string) (count date : Z) : Async unit :=
  updateDoc_eggEntries id count date.

Definition deleteEggEntry (id : string) : Async unit :=
  deleteDoc_eggEntries id.

End FirestoreHelpers.

(* ===================================================================== *)
(** ** src/components/EggTracker.tsx *)
(* ===================================================================== *)

Module EggTracker.
Import Firestore Auth.

Record EggEntry := mkEggEntry {
  id : string;
  date : Z;
  count : Z;
  userId : string;
  userName : string
}.

Inductive ErrorMessage :=
| CountNotPositive        (* 'Antal ägg måste vara större än 0' *)
| CountTooLarge           (* 'Antal ägg kan inte vara fler än 100' *)
| InvalidDate             (* 'Ogiltigt datum. Vänligen välj ett giltigt datum.' *)
| FutureDate              (* 'Du kan inte registrera ägg för framtida datum' *)
| DuplicateEntry          (* 'Du har redan registrerat ägg för detta datum. ...' *)
| CheckFailed (e : FirestoreError)   (* 'Kunde inte kontrollera befintliga poster: ...' *)
| SaveFailed (e : FirestoreError)    (* 'Kunde inte spara ägg: ...' *)
| Unexpected (e : FirestoreError)    (* 'Ett fel uppstod när äggen skulle sparas: ...' *)
| EditTooOld              (* 'Du kan endast redigera poster från den senaste månaden.' *)
| DeleteTooOld            (* 'Du kan endast ta bort poster från den senaste månaden.' *)
| DeleteFailed (e : FirestoreError). (* 'Kunde inte ta bort ägginmatningen: ...' *)

Inductive SuccessMessage :=
| Updated (date : Z)               (* 'Ägginmatning för ... har uppdaterats' *)
| Registered (count : Z) (date : Z)  (* '... ägg har registrerats för ...' *)
| Deleted.                         (* 'Ägginmatningen har tagits bort' *)

(** The messages of the input checks of the form. *)
Definition isValidationError (m : ErrorMessage) : bool :=
  match m with
  | CountNotPositive | CountTooLarge | InvalidDate | FutureDate => true
  | _ => false
  end.

(** The component's state, as far as the handlers below use it.
    [selectedDate = None] is a date that is missing or invalid. *)
Record State := mkState {
  user : option User;
  isSubmitting : bool;
  eggCount : Z;
  selectedDate : option Z;
  eggEntries : list EggEntry;
  errorMessage : option ErrorMessage;
  successMessage : option SuccessMessage;
  editEntry : option EggEntry
}.

Definition setIsSubmitting (b : bool) (s : State) : State :=
  mkState (user s) b (eggCount s) (selectedDate s) (eggEntries s)
          (errorMessage s) (successMessage s) (editEntry s).
Definition setEggCount (n : Z) (s : State) : State :=
  mkState (user s) (isSubmitting s) n (selectedDate s) (eggEntries s)
          (errorMessage s) (successMessage s) (editEntry s).
Definition setSelectedDate (d : option Z) (s : State) : State :=
  mkState (user s) (isSubmitting s) (eggCount s) d (eggEntries s)
          (errorMessage s) (successMessage s) (editEntry s).
Definition setErrorMessage (m : option ErrorMessage) (s : State) : State :=
  mkState (user s) (isSubmitting s) (eggCount s) (selectedDate s) (eggEntries s)
          m (successMessage s) (editEntry s).
Definition setSuccessMessage (m : option SuccessMessage) (s : State) : State :=
  mkState (user s) (isSubmitting s) (eggCount s) (selectedDate s) (eggEntries s)
          (errorMessage s) m (editEntry s).
Definition setEditEntry (e : option EggEntry) (s : State) : State :=
  mkState (user s) (isSubmitting s) (eggCount s) (selectedDate s) (eggEntries s)
          (errorMessage s) (successMessage s) e.

(** The listener on the authentication state, [VITE_ADMIN_EMAILS] being the
    configured admin list: the value it hands to [setHasAccess]. *)
Definition onAuthStateChanged (VITE_ADMIN_EMAILS : option string)
           (currentUser : option User) : Async bool :=
  match currentUser with
  | Some _ => AdminHelpers.isUserAllowed VITE_ADMIN_EMAILS currentUser
  | None => ret false
  end.

Section Clock.
(** The time zone of the browser and the value of [new Date()] when the
    handler runs. *)
Variable zone : JsDate.Zone.
Variable now : Z.

(** "Begränsa till en månad bakåt". *)
Definition getMaxAllowedDate : Z :=
  let today := now in
  JsDate.setMonth zone today (JsDate.getMonth zone today - 1).

Definition saveEggEntry (s : State) : Async State :=
  match user s with
  | None => ret s
  | Some u =>
  if eggCount s <=? 0 then ret (setErrorMessage (Some CountNotPositive) s)
  else if eggCount s >? 100 then ret (setErrorMessage (Some CountTooLarge) s)
  else
  match selectedDate s with
  | None => ret (setErrorMessage (Some InvalidDate) s)
  | Some selected =>
  let today := JsDate.setHours zone now 0 0 0 0 in
  let selectedDay := JsDate.setHours zone selected 0 0 0 0 in
  if selectedDay >? today then ret (setErrorMessage (Some FutureDate) s)
  else
  let s1 := setIsSubmitting true (setErrorMessage None s) in
  s' <- tryCatch
    (match editEntry s with
     | Some entry =>
         updateDoc_eggEntries (id entry) (eggCount s) selected ;;;
         ret (setEditEntry None (setSuccessMessage (Some (Updated selected)) s1))
     | None =>
         let startOfDay := JsDate.setHours zone selected 0 0 0 0 in
         let endOfDay := JsDate.setHours zone selected 23 59 59 999 in
         returned <- tryCatch
           (querySnapshot <- getDocs_eggEntries
                (mkEggQuery (Some (uid u)) (Some startOfDay) (Some endOfDay) false) ;;
            if negb (bool_decide (querySnapshot = []))
            then ret (Some (setIsSubmitting false (setErrorMessage (Some DuplicateEntry) s1)))
            else ret None)
           (fun queryError =>
              ret (Some (setIsSubmitting false
                           (setErrorMessage (Some (CheckFailed queryError)) s1)))) ;;
         match returned with
         | Some s2 => ret s2
         | None =>
             tryCatch
               (addDoc_eggEntries selected (eggCount s) (uid u)
                    (JsString.orElse (displayName u) "Anonym användare") ;;;
                ret (setSuccessMessage (Some (Registered (eggCount s) selected)) s1))
               (fun saveError =>
                  ret (setIsSubmitting false
                         (setErrorMessage (Some (SaveFailed saveError)) s1)))
         end
     end)
    (fun error => ret (setErrorMessage (Some (Unexpected error)) s1)) ;;
  ret (setIsSubmitting false s')
  end
  end.

Definition handleEdit (entry : EggEntry) (s : State) : State :=
  let maxAllowedDate := getMaxAllowedDate in
  if date entry <? maxAllowedDate then setErrorMessage (Some EditTooOld) s
  else setSelectedDate (Some (date entry))
         (setEggCount (count entry) (setEditEntry (Some entry) s)).

(** [confirmed] is the answer to the [confirm(...)] dialog. *)
Definition handleDelete (confirmed : bool) (entryId : string) (s : State) : Async State :=
  let entry := List.find (fun e => String.eqb (id e) entryId) (eggEntries s) in
  if match entry with
     | Some e => date e <? getMaxAllowedDate
     | None => false
     end
  then ret (setErrorMessage (Some DeleteTooOld) s)
  else if negb confirmed then ret s
  else
    let s1 := setIsSubmitting true s in
    s' <- tryCatch
      (deleteDoc_eggEntries entryId ;;;
       let s2 := setSuccessMessage (Some Deleted) s1 in
       ret (match editEntry s with
            | Some e =>
                if String.eqb (id e) entryId
                then setSelectedDate (Some now) (setEggCount 0 (setEditEntry None s2))
                else s2
            | None => s2
            end))
      (fun error =>
         ret (setIsSubmitting false (setErrorMessage (Some (DeleteFailed error)) s1))) ;;
    ret (setIsSubmitting false s').

End Clock.

End EggTracker.

(* ===================================================================== *)
(** ** src/components/AdminPanel.tsx *)
(* ===================================================================== *)

Module AdminPanel.
Import Firestore Auth.

Record AllowedUser := mkAllowedUser {
  id : string;
  email : string;
  displayName : string;
  addedAt : Z;
  addedBy : string
}.

Inductive MessageText :=
| EmailRequired            (* 'E-postadress krävs' *)
| InvalidEmail             (* 'Ogiltig e-postadress' *)
| AlreadyAllowed           (* 'Användaren är redan tillåten' *)
| UserAdded                (* 'Användare tillagd framgångsrikt' *)
| AddFailed (e : FirestoreError)     (* 'Kunde inte lägga till användare: ...' *)
| NotInDatabase            (* 'Användaren finns inte i databasen' *)
| UserRemoved              (* 'Användare borttagen' *)
| AccessDenied             (* 'Åtkomst nekad - kontrollera admin-behörigheter' *)
| RemoveFailed (e : FirestoreError)  (* 'Kunde inte ta bort användare: ...' *)
| NoEggData                (* 'Inga äggdata hittades för denna användare' *)
| DataCleared (userName : string) (size : nat)
                           (* 'All äggdata för ... har tagits bort (... poster)' *)
| ClearFailed (e : FirestoreError).  (* 'Kunde inte ta bort användardata: ...' *)

(** [message.type]. *)
Definition isSuccess (m : MessageText) : bool :=
  match m with
  | UserAdded | UserRemoved | DataCleared _ _ => true
  | _ => false
  end.

Record State := mkState {
  user : option User;
  allowedUsers : list AllowedUser;
  newUserEmail : string;
  isSubmitting : bool;
  message : option MessageText
}.

Definition setNewUserEmail (e : string) (s : State) : State :=
  mkState (user s) (allowedUsers s) e (isSubmitting s) (message s).
Definition setIsSubmitting (b : bool) (s : State) : State :=
  mkState (user s) (allowedUsers s) (newUserEmail s) b (message s).
Definition setMessage (m : option MessageText) (s : State) : State :=
  mkState (user s) (allowedUsers s) (newUserEmail s) (isSubmitting s) m.
Definition setAllowedUsers (l : list AllowedUser) (s : State) : State :=
  mkState (user s) l (newUserEmail s) (isSubmitting s) (message s).

(** The panel's own copy of the admin list, read from the same variable as
    the one of adminHelpers.ts. *)
Definition ADMIN_EMAILS := AdminHelpers.ADMIN_EMAILS.

Section Configured.
Variable VITE_ADMIN_EMAILS : option string.

Definition isAdmin (user : option User) : bool :=
  match emailOf user with
  | None => false
  | Some e => bool_decide (e ∈ ADMIN_EMAILS VITE_ADMIN_EMAILS)
  end.

(** The listener on ['allowedUsers']: one row per document, newest first;
    [now] replaces a missing [addedAt]. *)
Definition onAllowedUsersSnapshot (now : Z) (docs : list (string * AllowedUserDoc))
  : list AllowedUser :=
  JsArray.sort (fun a b => addedAt b - addedAt a)
    (map (fun kd =>
            mkAllowedUser (fst kd)
                          (JsString.orElse (au_email (snd kd)) (fst kd))
                          (JsString.orElse (au_displayName (snd kd)) "")
                          (default now (au_addedAt (snd kd)))
                          (JsString.orElse (au_addedBy (snd kd)) ""))
         docs).

Definition addUser (s : State) : Async State :=
  if negb (bool_decide (is_Some (user s)) && isAdmin (user s)) then ret s
  else if String.eqb (JsString.trim (newUserEmail s)) "" then
    ret (setMessage (Some EmailRequired) s)
  else if negb (JsString.emailRegex_test (JsString.trim (newUserEmail s))) then
    ret (setMessage (Some InvalidEmail) s)
  else
    let existingUser :=
      List.find (fun u => String.eqb (JsString.toLowerCase (email u))
                            (JsString.toLowerCase (JsString.trim (newUserEmail s))))
                (allowedUsers s) in
    match existingUser with
    | Some _ => ret (setMessage (Some AlreadyAllowed) s)
    | None =>
        let s1 := setIsSubmitting true s in
        s' <- tryCatch
          (let emailId := JsString.toLowerCase (JsString.trim (newUserEmail s)) in
           setDoc_allowedUsers emailId emailId
             (JsString.beforeFirst "@" (JsString.trim (newUserEmail s)))
             (match user s with Some u => Auth.email u | None => None end) ;;;
           ret (setMessage (Some UserAdded) (setNewUserEmail "" s1)))
          (fun error => ret (setMessage (Some (AddFailed error)) s1)) ;;
        ret (setIsSubmitting false s')
    end.

(** [Promise.all(docs.map(doc => deleteDoc(doc.ref)))]: every deletion is
    sent; the result is rejected with the first rejection, if any. *)
Fixpoint deleteAll (keys : list string) : Async unit :=
  match keys with
  | [] => ret tt
  | k :: rest =>
      fun w =>
        match deleteDoc_allowedUsers k w with
        | (Fulfilled _, w1) => deleteAll rest w1
        | (Rejected e, w1) => (Rejected e, snd (deleteAll rest w1))
        end
  end.

Definition removeUser (confirmed : bool) (userEmail : string) (s : State) : Async State :=
  if negb (bool_decide (is_Some (user s)) && isAdmin (user s)) then ret s
  else if negb confirmed then ret s
  else
    let s1 := setIsSubmitting true s in
    s' <- tryCatch
      (querySnapshot <- getDocs_allowedUsers_whereEmail (JsString.toLowerCase userEmail) ;;
       if bool_decide (querySnapshot = []) then
         ret (setMessage (Some NotInDatabase) s1)
       else
         deleteAll (map fst querySnapshot) ;;;
         ret (setMessage (Some UserRemoved) s1))
      (fun error =>
         if JsString.includes "permission-denied" (Firestore.message error)
         then ret (setMessage (Some AccessDenied) s1)
         else ret (setMessage (Some (RemoveFailed error)) s1)) ;;
    ret (setIsSubmitting false s').

Definition clearUserData (confirmed : bool) (userId userName : string) (s : State)
  : Async State :=
  if negb (bool_decide (is_Some (user s)) && isAdmin (user s)) then ret s
  else if negb confirmed then ret s
  else
    let s1 := setIsSubmitting true s in
    s' <- tryCatch
      (querySnapshot <- getDocs_eggEntries (mkEggQuery (Some userId) None None false) ;;
       if bool_decide (querySnapshot = []) then
         ret (setMessage (Some NoEggData) s1)
       else
         batchDelete_eggEntries (map fst querySnapshot) ;;;
         ret (setMessage (Some (DataCleared userName (length querySnapshot))) s1))
      (fun error => ret (setMessage (Some (ClearFailed error)) s1)) ;;
    ret (setIsSubmitting false s').

End Configured.

End AdminPanel.

(* ===================================================================== *)
(** ** src/App.tsx *)
(* ===================================================================== *)

Module App.
Import Firestore.

Record UserTotal := mkUserTotal {
  userId : string;
  userName : string;
  totalCount : Z
}.

#[export] Instance UserTotal_eq_dec : EqDecision UserTotal.
Proof. solve_decision. Defined.

(** The query of the statistics listener: the entries from 1 January,
    0:00:00, to 31 December, 23:59:59, of the year of [now], local time,
    latest first. *)
Definition eggEntriesQuery (zone : JsDate.Zone) (now : Z) : EggQuery :=
  let currentYear := JsDate.getFullYear zone now in
  let startOfYear := JsDate.newDate zone currentYear 0 1 0 0 0 in
  let endOfYear := JsDate.newDate zone currentYear 11 31 23 59 59 in
  mkEggQuery None (Some startOfYear) (Some endOfYear) true.

(** The body of [snapshot.docs.forEach]: [acc] is the pair of [total] and
    [totals]. *)
Definition addDocument (acc : Z * JsObject.t UserTotal) (doc : string * EggDoc)
  : Z * JsObject.t UserTotal :=
  let data := snd doc in
  let count := default 0 (Firestore.count data) in
  let total := fst acc + count in
  match JsString.truthy (Firestore.userId data) with
  | Some u =>
      let totals :=
        match JsObject.get u (snd acc) with
        | None =>
            JsObject.set u
              (mkUserTotal u (JsString.orElse (Firestore.userName data) "Okänd användare") 0)
              (snd acc)
        | Some _ => snd acc
        end in
      let totals' :=
        match JsObject.get u totals with
        | Some r => JsObject.set u (mkUserTotal (userId r) (userName r) (totalCount r + count)) totals
        | None => totals
        end in
      (total, totals')
  | None => (total, snd acc)
  end.

(** The listener: from the documents of a snapshot to [totalEggs] and
    [userTotals]. *)
Definition onSnapshot (docs : list (string * EggDoc)) : Z * list UserTotal :=
  if bool_decide (docs = []) then (0, [])
  else
    let '(total, totals) := fold_left addDocument docs (0, []) in
    (total,
     JsArray.sort (fun a b => totalCount b - totalCount a) (JsObject.values totals)).

(** What the listener set up at [now] shows of a store: [totalEggs] and
    [userTotals] of the snapshot of its query. *)
Definition statistics (zone : JsDate.Zone) (now : Z) (store : gmap string EggDoc)
  : Z * list UserTotal :=
  onSnapshot (runEggQuery (eggEntriesQuery zone now) store).

(** The last column of the table, "Andel av totalt", for one row. *)
Definition share (totalEggs : Z) (userTotal : UserTotal) : option Z :=
  if totalEggs >? 0 then
    JsNumber.Math_round
      (PrimFloat.mul
         (PrimFloat.div (JsNumber.ofZ (totalCount userTotal)) (JsNumber.ofZ totalEggs))
         (JsNumber.ofZ 100))
  else Some 0.

End App.

(* ===================================================================== *)
(** ** Vocabulary of the statements below *)
(* ===================================================================== *)

Module Spec.
Import Firestore.

(** Some request sent between the states [w] and [w'] was rejected. *)
Definition requestRejected (w w' : World) : Prop :=
  exists n, (length (requests w) <= n < length (requests w'))%nat /\ faults w n <> None.

(** The allow-list has a document whose id is [key]. *)
Definition listedByKey (w : World) (key : string) : Prop :=
  is_Some (allowedUsers w !! key).

(** The allow-list has a document whose field [email] is [key]. *)
Definition listedByField (w : World) (key : string) : Prop :=
  exists k d, allowedUsers w !! k = Some d /\ au_email d = Some key.

(** Every stored address of the allow-list is in lower case. *)
Definition storedLowerCase (w : World) : Prop :=
  forall k d x, allowedUsers w !! k = Some d -> au_email d = Some x ->
                JsString.toLowerCase x = x.

Definition listed (w : World) (key : string) : Prop :=
  listedByKey w key \/ listedByField w key.

(** The length in days of the month before the one the local time [t]
    falls in, as [setMonth] steps over it. *)
Definition daysInPreviousMonth (t : Z) : Z :=
  JsDate.Day t
  - JsDate.MakeDay (JsDate.YearFromTime t) (JsDate.MonthFromTime t - 1)
                   (JsDate.DateFromTime t).

(** [t] is not older than thirty days at [now]. *)
Definition within30Days (now t : Z) : Prop := now - 30 * JsDate.msPerDay <= t.

(** What an entry adds to a total: its [count], 0 when it has none. *)
Definition countOf (doc : string * EggDoc) : Z := default 0 (count (snd doc)).

Definition sumCounts (docs : list (string * EggDoc)) : Z :=
  foldr (fun doc acc => countOf doc + acc) 0 docs.

(** The entries of [docs] whose [userId] is [owner]. *)
Definition entriesOf (owner : string) (docs : list (string * EggDoc))
  : list (string * EggDoc) :=
  List.filter (fun doc => bool_decide (userId (snd doc) = Some owner)) docs.

(** What the loop of the statistics listener maintains, [seen] being the
    documents visited so far and [acc] the pair of [total] and [totals]. *)
Definition tallied (seen : list (string * EggDoc))
           (acc : Z * JsObject.t App.UserTotal) : Prop :=
  fst acc = sumCounts seen
  /\ NoDup (map fst (snd acc))
  /\ forall owner,
       match JsObject.get owner (snd acc) with
       | Some row =>
           owner <> "" /\ App.userId row = owner
           /\ App.totalCount row = sumCounts (entriesOf owner seen)
           /\ entriesOf owner seen <> []
       | None => owner <> "" -> entriesOf owner seen = []
       end.

(** A world whose store answers every request. *)
Definition online (allowed : gmap string AllowedUserDoc) (eggs : gmap string EggDoc)
           (serverTime : Z) : World :=
  mkWorld allowed eggs serverTime [] (fun _ => None).

(** A world whose store rejects every request. *)
Definition offline (allowed : gmap string AllowedUserDoc) (eggs : gmap string EggDoc)
           (serverTime : Z) : World :=
  mkWorld allowed eggs serverTime [] (fun _ => Some unavailable).

End Spec.

(* ===================================================================== *)
(** ** src/config/firebase.ts: [firestoreUtils] *)
(* ===================================================================== *)

Module FirebaseConfig.

(** [firestoreUtils.toDate(timestamp)]: the date of a stored timestamp,
    [null] for anything else. *)
Definition toDate (timestamp : option Z) : option Z := timestamp.

Section LocalZone.
Variable zone : JsDate.Zone.

(** [firestoreUtils.startOfDay(date)]: [null] for [null], otherwise a copy
    of the date at 00:00:00.000 local time. *)
Definition startOfDay (date : option Z) : option Z :=
  match date with
  | None => None
  | Some d => Some (JsDate.setHours zone d 0 0 0 0)
  end.

(** [firestoreUtils.endOfDay(date)]: the copy at 23:59:59.999. *)
Definition endOfDay (date : option Z) : option Z :=
  match date with
  | None => None
  | Some d => Some (JsDate.setHours zone d 23 59 59 999)
  end.

End LocalZone.

End FirebaseConfig.

(* ===================================================================== *)
(** ** src/utils/firestoreHelpers.ts, the readers *)
(* ===================================================================== *)

Module EntryHelpers.
Import Firestore.

(** [EggEntry] of firestoreHelpers.ts. *)
Record EggEntry := mkEggEntry {
  id : string;
  date : Z;
  count : Z;
  userId : option string;     (* [data.userId], as stored *)
  userName : string;
  createdAt : option Z;
  updatedAt : option Z
}.

(** The conversion both readers apply to a document; [now] is the value of
    [new Date()] that stands in for a missing date. *)
Definition toEggEntry (now : Z) (doc : string * EggDoc) : EggEntry :=
  let data := snd doc in
  mkEggEntry (fst doc)
             (default now (FirebaseConfig.toDate (Firestore.date data)))
             (default 0 (Firestore.count data))
             (Firestore.userId data)
             (JsString.orElse (Firestore.userName data) "Okänd användare")
             (FirebaseConfig.toDate (Firestore.createdAt data))
             (FirebaseConfig.toDate (Firestore.updatedAt data)).

(** [fetchUserEggEntries(userId)]; a failure of the query is logged and
    thrown again. *)
Definition fetchUserEggEntries (now : Z) (userId : string) : Async (list EggEntry) :=
  tryCatch
    (snapshot <- getDocs_eggEntries (mkEggQuery (Some userId) None None true) ;;
     ret (map (toEggEntry now) snapshot))
    (fun error => fun w => (Rejected error, w)).

(** The query of [subscribeToAllEggEntries] and what its listener hands to
    the callback for a snapshot. *)
Definition allEggEntriesQuery : EggQuery := mkEggQuery None None None true.

Definition subscribeToAllEggEntries (now : Z) (snapshot : list (string * EggDoc))
  : list EggEntry :=
  map (toEggEntry now) snapshot.

End EntryHelpers.

(* ===================================================================== *)
(** ** JavaScript [Map] *)
(* ===================================================================== *)

Module JsMap.

Section M.
Context {K V : Type} `{EqDecision K}.

(** The entries in insertion order. *)
Definition t : Type := list (K * V).

(** [map.get(key)]. *)
Fixpoint get (key : K) (m : t) : option V :=
  match m with
  | [] => None
  | (k, v) :: rest => if decide (k = key) then Some v else get key rest
  end.

(** [map.set(key, v)]: an existing key keeps its place, a new one comes
    last. *)
Fixpoint set (key : K) (v : V) (m : t) : t :=
  match m with
  | [] => [(key, v)]
  | (k, v0) :: rest =>
      if decide (k = key) then (k, v) :: rest else (k, v0) :: set key v rest
  end.

(** [Array.from(map.values())]. *)
Definition values (m : t) : list V := map snd m.

End M.

Arguments t : clear implicits.

End JsMap.

(* ===================================================================== *)
(** ** src/components/EggTracker.tsx: listeners, filter, pages, statistics *)
(* ===================================================================== *)

Module EggTrackerView.
Import Firestore Auth.

(** The conversion of both listeners of the component. *)
Definition toEntry (now : Z) (doc : string * EggDoc) : EggTracker.EggEntry :=
  let data := snd doc in
  EggTracker.mkEggEntry (fst doc)
    (default now (Firestore.date data))
    (default 0 (Firestore.count data))
    (JsString.orElse (Firestore.userId data) "")
    (JsString.orElse (Firestore.userName data) "Okänd användare").

(** The query of the listener on the user's own entries, and the value it
    gives to [setEggEntries]. *)
Definition eggEntriesQuery (user : User) : EggQuery :=
  mkEggQuery (Some (uid user)) None None true.

Definition onEggEntriesSnapshot (now : Z) (docs : list (string * EggDoc))
  : list EggTracker.EggEntry :=
  map (toEntry now) docs.

(** The body of [allEntries.forEach] of the farm statistics listener. *)
Definition addEntry (userTotalMap : JsMap.t string App.UserTotal)
           (entry : EggTracker.EggEntry) : JsMap.t string App.UserTotal :=
  match JsMap.get (EggTracker.userId entry) userTotalMap with
  | Some existing =>
      JsMap.set (EggTracker.userId entry)
        (App.mkUserTotal (App.userId existing) (App.userName existing)
                         (App.totalCount existing + EggTracker.count entry))
        userTotalMap
  | None =>
      JsMap.set (EggTracker.userId entry)
        (App.mkUserTotal (EggTracker.userId entry) (EggTracker.userName entry)
                         (EggTracker.count entry))
        userTotalMap
  end.

(** The farm statistics listener: the value it gives to [setUserTotals].
    [UserTotal] is the interface of the same shape as in App.tsx. *)
Definition onFarmStatsSnapshot (now : Z) (docs : list (string * EggDoc))
  : list App.UserTotal :=
  let allEntries := map (toEntry now) docs in
  let userTotalMap := fold_left addEntry allEntries [] in
  JsArray.sort (fun a b => App.totalCount b - App.totalCount a)
               (JsMap.values userTotalMap).


Section Filtered.
(** The state the functions below read: the signed-in user, the two date
    filters ([None] for no filter) and the page shown. *)
Variable user : option User.
Variables filterStartDate filterEndDate : option Z.

Definition getFilteredEntries (entries : list EggTracker.EggEntry)
  : list EggTracker.EggEntry :=
  match user with
  | None => []
  | Some u =>
      List.filter
        (fun entry =>
           let userMatch := String.eqb (EggTracker.userId entry) (uid u) in
           let afterStartDate :=
             match filterStartDate with
             | Some start => start <=? EggTracker.date entry
             | None => true
             end in
           let beforeEndDate :=
             match filterEndDate with
             | Some e => EggTracker.date entry <=? e
             | None => true
             end in
           userMatch && afterStartDate && beforeEndDate)
        entries
  end.

(** [useState<number>(7)], never set. *)
Definition itemsPerPage : nat := 7.

Definition getPaginatedEntries (currentPage : nat) (entries : list EggTracker.EggEntry)
  : list EggTracker.EggEntry :=
  let filtered := getFilteredEntries entries in
  let startIndex := (currentPage * itemsPerPage)%nat in
  firstn itemsPerPage (skipn startIndex filtered).

(** [Math.ceil(filtered.length / itemsPerPage)]; the quotient of two
    integers of this size is rounded to the right side of every integer, so
    the result is the ceiling of the exact quotient. *)
Definition getTotalPages (eggEntries : list EggTracker.EggEntry) : nat :=
  let filtered := getFilteredEntries eggEntries in
  ((length filtered + (itemsPerPage - 1)) / itemsPerPage)%nat.

Definition hasOlderEntries (currentPage : nat) (eggEntries : list EggTracker.EggEntry)
  : bool :=
  let filtered := getFilteredEntries eggEntries in
  ((currentPage + 1) * itemsPerPage <? length filtered)%nat.

Definition hasNewerEntries (currentPage : nat) : bool := (0 <? currentPage)%nat.

(** The effect that runs when the entries change: the page to show next. *)
Definition keepPageValid (currentPage : nat) (eggEntries : list EggTracker.EggEntry)
  : nat :=
  let totalPages := getTotalPages eggEntries in
  if ((totalPages <=? currentPage)%nat && (0 <? totalPages)%nat)%bool
  then (totalPages - 1)%nat
  else currentPage.

(** [Math.round(x)] as a Number: the argument itself when it is NaN or
    infinite. (A result of zero is given here without its sign.) *)
Definition roundNumber (x : float) : float :=
  match JsNumber.Math_round x with
  | Some z => JsNumber.ofZ z
  | None => x
  end.

Record UserStats := mkUserStats {
  totalEggs : Z;
  daysCount : nat;
  average : float
}.

(** [calculateUserStats()]: [None] when nobody is signed in. *)
Definition calculateUserStats (eggEntries : list EggTracker.EggEntry)
  : option UserStats :=
  match user with
  | None => None
  | Some _ =>
      let filteredEntries := getFilteredEntries eggEntries in
      let userTotal :=
        fold_left (fun sum entry => sum + EggTracker.count entry) filteredEntries 0 in
      let daysCount := length filteredEntries in
      let average :=
        if (0 <? daysCount)%nat
        then PrimFloat.div
               (roundNumber
                  (PrimFloat.mul
                     (PrimFloat.div (JsNumber.ofZ userTotal)
                                    (JsNumber.ofZ (Z.of_nat daysCount)))
                     (JsNumber.ofZ 10)))
               (JsNumber.ofZ 10)
        else JsNumber.ofZ 0 in
      Some (mkUserStats userTotal daysCount average)
  end.

End Filtered.

End EggTrackerView.

(* ===================================================================== *)
(** ** src/components/AdminPanel.tsx: the overview of users with egg data *)
(* ===================================================================== *)

Module AdminOverview.
Import Firestore.

Record UserWithEggData := mkUserWithEggData {
  userId : option string;      (* [data.userId], as stored *)
  userName : string;
  totalEggs : Z;
  entryCount : Z;
  lastEntry : Z
}.

(** The body of [snapshot.docs.forEach]; [now] stands in for a missing
    date. *)
Definition addDocument (now : Z) (userDataMap : JsMap.t (option string) UserWithEggData)
           (doc : string * EggDoc) : JsMap.t (option string) UserWithEggData :=
  let data := snd doc in
  let userId := Firestore.userId data in
  let userName := JsString.orElse (Firestore.userName data) "Okänd användare" in
  let count := default 0 (Firestore.count data) in
  let entryDate := default now (Firestore.date data) in
  match JsMap.get userId userDataMap with
  | Some existing =>
      JsMap.set userId
        (mkUserWithEggData (AdminOverview.userId existing) (AdminOverview.userName existing)
           (totalEggs existing + count)
           (entryCount existing + 1)
           (if lastEntry existing <? entryDate then entryDate else lastEntry existing))
        userDataMap
  | None =>
      JsMap.set userId (mkUserWithEggData userId userName count 1 entryDate) userDataMap
  end.

(** The listener on ['eggEntries']: the value it gives to
    [setUsersWithEggData]. *)
Definition onEggEntriesSnapshot (now : Z) (docs : list (string * EggDoc))
  : list UserWithEggData :=
  JsArray.sort (fun a b => totalEggs b - totalEggs a)
               (JsMap.values (fold_left (addDocument now) docs [])).

End AdminOverview.

(* ===================================================================== *)
(** ** src/components/EggTracker.tsx: the chart of the year *)
(* ===================================================================== *)

Module Chart.
Import Auth.

(** The string of an integral Number, as a template literal and [String(n)]
    give it: decimal digits, with a minus sign before those of a negative
    one. *)
Definition toString (n : Z) : string :=
  DecimalString.NilZero.string_of_int (Z.to_int n).

(** [s.padStart(targetLength, c)] for a filler of one character. *)
Definition padStart (targetLength : nat) (c : ascii) (s : string) : string :=
  String.append
    (string_of_list_ascii (repeat c (targetLength - String.length s)))
    s.

(** The value of a character as a digit of base 10 or 16. *)
Definition digitOf (radix : Z) (c : ascii) : option Z :=
  let n := Z.of_nat (nat_of_ascii c) in
  let v := if (48 <=? n) && (n <=? 57) then Some (n - 48)
           else if (97 <=? n) && (n <=? 102) then Some (n - 87)
           else if (65 <=? n) && (n <=? 70) then Some (n - 55)
           else None in
  match v with
  | Some d => if d <? radix then Some d else None
  | None => None
  end.

(** The value of the longest prefix of digits, [None] when it is empty. *)
Fixpoint parseDigits (radix : Z) (acc : option Z) (s : string) : option Z :=
  match s with
  | EmptyString => acc
  | String c r =>
      match digitOf radix c with
      | Some d => parseDigits radix (Some (radix * default 0 acc + d)) r
      | None => acc
      end
  end.

(** [parseInt(s)] without a radix: blanks are skipped, a sign is read, a
    prefix [0x] or [0X] selects base 16, and the digits that follow are
    read as far as they go. [None] is NaN, which is also the result for
    [undefined]. *)
Definition parseInt (s : option string) : option Z :=
  match s with
  | None => None
  | Some s =>
      let s1 := JsString.trimStart s in
      let '(sign, s2) :=
        match s1 with
        | String "-" r => (-1, r)
        | String "+" r => (1, r)
        | _ => (1, s1)
        end in
      let '(radix, s3) :=
        match s2 with
        | String "0" (String "x" r) => (16, r)
        | String "0" (String "X" r) => (16, r)
        | _ => (10, s2)
        end in
      match parseDigits radix None s3 with
      | Some n => Some (sign * n)
      | None => None
      end
  end.

Definition monthNames : list string :=
  ["Jan"; "Feb"; "Mar"; "Apr"; "Maj"; "Jun"; "Jul"; "Aug"; "Sep"; "Okt"; "Nov"; "Dec"].

(** [monthNames[i]], [i] being a Number or NaN: [None] is [undefined]. *)
Definition monthName (i : option Z) : option string :=
  match i with
  | Some i => if (0 <=? i) then nth_error monthNames (Z.to_nat i) else None
  | None => None
  end.

(** The template [`${year}-${String(month).padStart(2, '0')}`]. *)
Definition monthKey (year month : Z) : string :=
  String.append (toString year) (String "-" (padStart 2 "0" (toString month))).

Record ChartPoint := mkChartPoint {
  date : option string;
  count : Z
}.

Section Host.
(** The time zone of the browser, the value of [new Date()], and
    [String.prototype.localeCompare], which depends on the locale of the
    host. *)
Variable zone : JsDate.Zone.
Variable now : Z.
Variable localeCompare : string -> string -> Z.

(** The loop that creates the twelve properties of [monthlyData]. *)
Definition initialMonthlyData (currentYear : Z) : JsObject.t Z :=
  fold_left (fun monthlyData i => JsObject.set (monthKey currentYear (i + 1)) 0 monthlyData)
            [0; 1; 2; 3; 4; 5; 6; 7; 8; 9; 10; 11] [].

(** The body of [yearEntries.forEach]. *)
Definition addToMonth (monthlyData : JsObject.t Z) (entry : EggTracker.EggEntry)
  : JsObject.t Z :=
  let entryDate := EggTracker.date entry in
  let monthKey := monthKey (JsDate.getFullYear zone entryDate)
                           (JsDate.getMonth zone entryDate + 1) in
  match JsObject.get monthKey monthlyData with
  | Some n => JsObject.set monthKey (n + EggTracker.count entry) monthlyData
  | None => monthlyData
  end.

(** [prepareChartData()]: [None] when nobody is signed in. *)
Definition prepareChartData (user : option User) (eggEntries : list EggTracker.EggEntry)
  : option (list ChartPoint) :=
  match user with
  | None => None
  | Some u =>
      let currentYear := JsDate.getFullYear zone now in
      let startOfYear := JsDate.newDate zone currentYear 0 1 0 0 0 in
      let endOfYear := JsDate.newDate zone currentYear 11 31 0 0 0 in
      let yearEntries :=
        List.filter (fun entry =>
                       String.eqb (EggTracker.userId entry) (uid u)
                       && (startOfYear <=? EggTracker.date entry)
                       && (EggTracker.date entry <=? endOfYear))
                    eggEntries in
      let monthlyData := fold_left addToMonth yearEntries (initialMonthlyData currentYear) in
      let chartData :=
        map (fun point : option string * Z * string =>
               mkChartPoint (fst (fst point)) (snd (fst point)))
            (JsArray.sort
               (fun a b : option string * Z * string => localeCompare (snd a) (snd b))
               (map (fun kv : string * Z =>
                       let month := nth_error (JsString.split "-" (fst kv)) 1 in
                       let monthIndex := option_map (fun n => n - 1) (parseInt month) in
                       (monthName monthIndex, snd kv, fst kv))
                    (JsObject.ownProperties monthlyData))) in
      Some chartData
  end.

End Host.

End Chart.

(* ===================================================================== *)
(** ** Vocabulary of the further statements *)
(* ===================================================================== *)

Module Shape.
Import Firestore.

(** The shape [addUser] gives the documents of ['allowedUsers']: the id of a
    document is an address in lower case, and its field [email] repeats
    it. *)
Definition keyedByEmail (m : gmap string AllowedUserDoc) : Prop :=
  forall k d, m !! k = Some d ->
    au_email d = Some k /\ JsString.toLowerCase k = k.

(** The entries of one owner, and the others. *)
Definition ownedBy (owner : string) (m : gmap string EggDoc) : gmap string EggDoc :=
  filter (fun kd : string * EggDoc => Firestore.userId (snd kd) = Some owner) m.

Definition notOwnedBy (owner : string) (m : gmap string EggDoc) : gmap string EggDoc :=
  filter (fun kd : string * EggDoc => Firestore.userId (snd kd) <> Some owner) m.

(** The eggs of a list of entries of the component. *)
Definition sumOfCounts (entries : list EggTracker.EggEntry) : Z :=
  foldr (fun entry acc => EggTracker.count entry + acc) 0 entries.

(** The entries of a list whose owner is [owner]. *)
Definition entriesOwnedBy (owner : string) (entries : list EggTracker.EggEntry)
  : list EggTracker.EggEntry :=
  List.filter (fun entry => String.eqb (EggTracker.userId entry) owner) entries.

(** The eggs of a list of rows of the farm statistics. *)
Definition sumOfTotals (rows : list App.UserTotal) : Z :=
  foldr (fun row acc => App.totalCount row + acc) 0 rows.

(** What the loop of the component's farm listener maintains, [seen] being
    the entries visited so far: one row per owner seen, with the owner's
    total and the name of the owner's first entry. *)
Definition farmTallied (seen : list EggTracker.EggEntry)
           (m : JsMap.t string App.UserTotal) : Prop :=
  NoDup (map fst m)
  /\ sumOfTotals (JsMap.values m) = sumOfCounts seen
  /\ forall owner,
       match JsMap.get owner m with
       | Some row =>
           App.userId row = owner
           /\ App.totalCount row = sumOfCounts (entriesOwnedBy owner seen)
           /\ exists first rest,
                entriesOwnedBy owner seen = first :: rest
                /\ App.userName row = EggTracker.userName first
       | None => entriesOwnedBy owner seen = []
       end.

(** The documents whose field [userId] is [owner], a missing field being
    an owner of its own. *)
Definition docsOf (owner : option string) (docs : list (string * EggDoc))
  : list (string * EggDoc) :=
  List.filter (fun doc => bool_decide (Firestore.userId (snd doc) = owner)) docs.

(** The date the overview gives a document at the time [now]. *)
Definition entryDateOf (now : Z) (doc : string * EggDoc) : Z :=
  default now (Firestore.date (snd doc)).

(** What the loop of the overview of the admin panel maintains. *)
Definition overviewTallied (now : Z) (seen : list (string * EggDoc))
           (m : JsMap.t (option string) AdminOverview.UserWithEggData) : Prop :=
  NoDup (map fst m)
  /\ forall owner,
       match JsMap.get owner m with
       | Some row =>
           AdminOverview.userId row = owner
           /\ AdminOverview.totalEggs row = Spec.sumCounts (docsOf owner seen)
           /\ AdminOverview.entryCount row = Z.of_nat (length (docsOf owner seen))
           /\ (forall doc, doc ∈ docsOf owner seen ->
                           entryDateOf now doc <= AdminOverview.lastEntry row)
           /\ (exists doc, doc ∈ docsOf owner seen
                           /\ AdminOverview.lastEntry row = entryDateOf now doc)
       | None => docsOf owner seen = []
       end.

(** The eggs the chart of the year shows for the month [month] (0 is
    January): those of the entries of the owner dated from 1 January, 0:00,
    to 31 December, 0:00, of the year of [now] that fall in that month. *)
Definition eggsOfMonth (tza now : Z) (owner : string) (month : Z)
           (entries : list EggTracker.EggEntry) : Z :=
  sumOfCounts
    (List.filter
       (fun entry =>
          String.eqb (EggTracker.userId entry) owner
          && (JsDate.newDate tza (JsDate.getFullYear tza now) 0 1 0 0 0
              <=? EggTracker.date entry)
          && (EggTracker.date entry
              <=? JsDate.newDate tza (JsDate.getFullYear tza now) 11 31 0 0 0)
          && (JsDate.getMonth tza (EggTracker.date entry) =? month))
       entries).

(** The months of a year as the chart numbers them, the part of a key of
    [monthlyData] after the year, and the object with the twelve keys of a
    year in the order of the months, the month [m] holding [f m]. *)
Definition monthsOfYear : list Z := [0; 1; 2; 3; 4; 5; 6; 7; 8; 9; 10; 11].

Definition monthSuffix (m : Z) : string :=
  String "-" (Chart.padStart 2 "0" (Chart.toString (m + 1))).

Definition monthlyDataOf (year : Z) (f : Z -> Z) : JsObject.t Z :=
  map (fun kv => (String.append (Chart.toString year) (fst kv), snd kv))
      (map (fun m => (monthSuffix m, f m)) monthsOfYear).

(** The eggs of the entries of a list that fall in the month [m]. *)
Definition eggsIn (tza : Z) (m : Z) (entries : list EggTracker.EggEntry) : Z :=
  sumOfCounts
    (List.filter (fun entry => JsDate.getMonth tza (EggTracker.date entry) =? m) entries).

(** The comparison of the host puts the keys of the months of a year in
    the order of the months. *)
Definition ordersMonthKeys (localeCompare : string -> string -> Z) (year : Z) : Prop :=
  forall i j, 1 <= i -> i < j -> j <= 12 ->
    localeCompare (Chart.monthKey year i) (Chart.monthKey year j) <= 0.

(** The number of days of the calendar month before the month [m] (0 is
    January), [leap] being 1 in a leap year and 0 otherwise: February before
    March, a month of 30 days before May, July, October and December, one of
    31 days before the others. *)
Definition daysOfMonthBefore (leap m : Z) : Z :=
  if m =? 2 then 28 + leap
  else if (m =? 4) || (m =? 6) || (m =? 9) || (m =? 11) then 30
  else 31.

(** The entries of [store] dated within the calendar year of [now], local
    time. *)
Definition entriesOfYear (zone : JsDate.Zone) (now : Z) (store : gmap string EggDoc)
  : list (string * EggDoc) :=
  List.filter (fun doc => match Firestore.date (snd doc) with
                          | Some t => JsDate.getFullYear zone t =? JsDate.getFullYear zone now
                          | None => false
                          end)
              (map_to_list store).

(** The query by which a create looks for an entry of the owner on the
    local day of [selected], and the documents it is meant to find. *)
Definition dayQuery (tza : Z) (owner : string) (selected : Z) : EggQuery :=
  mkEggQuery (Some owner) (Some (JsDate.setHours tza selected 0 0 0 0))
             (Some (JsDate.setHours tza selected 23 59 59 999)) false.

Definition sameOwnerAndDay (tza : Z) (owner : string) (selected : Z) (d : EggDoc) : Prop :=
  Firestore.userId d = Some owner
  /\ exists t, Firestore.date d = Some t
       /\ JsDate.Day (JsDate.LocalTime tza t) = JsDate.Day (JsDate.LocalTime tza selected).

End Shape.

(* ===================================================================== *)
(** ** Scenarios *)
(* ===================================================================== *)

Module Scenario.
Import Firestore Auth Spec.

(** The scenario of the specification: on an empty store the admin
    "admin@example.com" adds "bob@example.com". *)
Definition bobAdded : World :=
  snd (AdminPanel.addUser (Some "admin@example.com")
         (AdminPanel.mkState (Some (mkUser "uid-0" (Some "admin@example.com") None))
                             [] "bob@example.com" false None)
         (online ∅ ∅ 0)).

(** A signed-in user with a form ready to register 5 eggs for 15 March
    2025, 12:00 local time, in a zone one hour ahead of UTC. *)
Definition zone : Z := 3600000.

Definition bob : User := mkUser "uid-1" (Some "Bob@Example.com") (Some "Bob").

Definition noon15March : Z := JsDate.newDate zone 2025 2 15 12 0 0.

Definition form (eggCount : Z) (selectedDate : option Z) : EggTracker.State :=
  EggTracker.mkState (Some bob) false eggCount selectedDate [] None None None.

(** The store after Bob has registered 5 eggs for that day. *)
Definition fiveEggs : World :=
  snd (EggTracker.saveEggEntry zone noon15March (form 5 (Some noon15March))
                               (online ∅ ∅ 0)).

(** Two entries of Bob's history: one of 14 February 2025, 12:00, and one
    of 31 July 2025, 18:00. *)
Definition entryFeb14 : EggTracker.EggEntry :=
  EggTracker.mkEggEntry "e1" (JsDate.newDate zone 2025 1 14 12 0 0) 4 "uid-1" "Bob".

Definition entryJul31 : EggTracker.EggEntry :=
  EggTracker.mkEggEntry "e2" (JsDate.newDate zone 2025 6 31 18 0 0) 6 "uid-1" "Bob".

Definition history : EggTracker.State :=
  EggTracker.mkState (Some bob) false 0 None [entryFeb14; entryJul31] None None None.

Definition noon31August : Z := JsDate.newDate zone 2025 7 31 12 0 0.

(** An admin session of the panel, with [typed] in the address field. *)
Definition adminEnv : option string := Some "admin@example.com".

Definition admin : User := mkUser "uid-0" (Some "admin@example.com") (Some "Admin").

Definition panel (typed : string) : AdminPanel.State :=
  AdminPanel.mkState (Some admin) [] typed false None.

(** A store with two entries of Bob and one of Anna. *)
Definition twoOwners : World :=
  online ∅
    (<["e1" := mkEggDoc (Some noon15March) (Some 3) (Some "uid-1") (Some "Bob") (Some 0) None]>
     (<["e2" := mkEggDoc (Some (noon15March - JsDate.msPerDay)) (Some 4)
                         (Some "uid-1") (Some "Bob") (Some 0) None]>
      (<["e3" := mkEggDoc (Some noon15March) (Some 5) (Some "uid-2") (Some "Anna") (Some 0) None]>
       ∅)))
    0.

(** Three entries of the current year, of three owners, with counts 3, 5
    and 2. *)
Definition threeOwners : list (string * EggDoc) :=
  [ ("e1", mkEggDoc (Some noon15March) (Some 3) (Some "uid-a") (Some "Anna") (Some 0) None);
    ("e2", mkEggDoc (Some noon15March) (Some 5) (Some "uid-b") (Some "Bob") (Some 0) None);
    ("e3", mkEggDoc (Some noon15March) (Some 2) (Some "uid-c") (Some "Cia") (Some 0) None) ].

End Scenario.

(** A closed decidable proposition, settled by evaluation. *)
Ltac by_compute := apply (bool_decide_unpack _); vm_compute; exact I.

(** A closed comparison of integers, settled by evaluation. *)
Ltac by_compare :=
  vm_compute;
  first [ reflexivity
        | discriminate
        | let H := fresh in intros H; discriminate H
        | let H := fresh in intros H; apply H; reflexivity ].

(* ===================================================================== *)
(** ** Further scenarios *)
(* ===================================================================== *)

Module MoreScenarios.
Import Firestore Auth Spec Scenario.

(** Bob signed in under another spelling of his address. *)
Definition upperBob : User := mkUser "uid-7" (Some "BOB@example.COM") None.

(** The admin session once the listener has delivered the list with Bob on
    it, with [typed] in the address field. *)
Definition refreshedPanel (typed : string) : AdminPanel.State :=
  AdminPanel.mkState (Some admin)
    (AdminPanel.onAllowedUsersSnapshot 0 (map_to_list (Firestore.allowedUsers bobAdded)))
    typed false None.

Definition bobDoc : AllowedUserDoc :=
  mkAllowedUserDoc (Some "bob@example.com") (Some "bob") (Some 0)
                   (Some "admin@example.com").

(** Somebody who is signed in to the panel without being an admin. *)
Definition visitor : AdminPanel.State :=
  AdminPanel.mkState (Some bob) [] "eve@example.com" false None.

(** An allow-list that holds Bob's address twice, once under an id that is
    not the address, and Anna's once. *)
Definition twice : World :=
  online
    (<["bob@example.com" := bobDoc]>
     (<["legacy-17" := bobDoc]>
      (<["anna@example.com" :=
           mkAllowedUserDoc (Some "anna@example.com") (Some "anna") (Some 0) None]> ∅)))
    ∅ 0.

(** An allow-list with one record that the panel did not write: stored
    under an id that is not the address, its address written with
    capitals. *)
Definition legacy : World :=
  online
    {[ "legacy-17" :=
         mkAllowedUserDoc (Some "Bob@Example.com") (Some "Bob") (Some 0) None ]}
    ∅ 0.

(** The store of [twoOwners] when it answers the first request and rejects
    the second. *)
Definition secondRejected : World :=
  mkWorld ∅ (Firestore.eggEntries twoOwners) 0 []
          (fun n => if (n =? 1)%nat then Some unavailable else None).

(** The form after Bob has chosen to edit his entry of 15 March, with 9
    eggs typed in. *)
Definition editing : EggTracker.State :=
  EggTracker.mkState (Some bob) false 9 (Some noon15March) [] None None
    (Some (EggTracker.mkEggEntry "0" noon15March 5 "uid-1" "Bob")).

(** The form with the list the listener built from [fiveEggs]. *)
Definition listed : EggTracker.State :=
  EggTracker.mkState (Some bob) false 0 None
    (EggTrackerView.onEggEntriesSnapshot noon15March
       (runEggQuery (EggTrackerView.eggEntriesQuery bob) (Firestore.eggEntries fiveEggs)))
    None None None.

(** A comparison of strings byte by byte, as [localeCompare] compares
    strings of digits and hyphens. *)
Definition byteCompare (a b : string) : Z :=
  match String.compare a b with
  | Lt => -1
  | Eq => 0
  | Gt => 1
  end.

(** Entries of Bob in 2025: 3 eggs on 15 March, 4 on 14 March, and 6 on
    31 December at noon. *)
Definition yearOfBob : list EggTracker.EggEntry :=
  [ EggTracker.mkEggEntry "e1" noon15March 3 "uid-1" "Bob";
    EggTracker.mkEggEntry "e2" (noon15March - JsDate.msPerDay) 4 "uid-1" "Bob";
    EggTracker.mkEggEntry "e3" (JsDate.newDate zone 2025 11 31 12 0 0) 6 "uid-1" "Bob" ].

End MoreScenarios.

(* ===================================================================== *)
(** ** Scenarios in the zone of the farm *)
(* ===================================================================== *)

Module Stockholm.
Import Firestore Auth Spec.

(** The zone Europe/Stockholm around the year 2025, from the end of
    October 2024 to the end of March 2026: one hour ahead of UTC, and two
    hours from 30 March 2025, 1:00 UTC, to 26 October 2025, 1:00 UTC. A
    local time that the clocks skip or show twice is read with the offset
    of before the change. *)
Definition summerStart : Z := 1743296400000.

Definition summerEnd : Z := 1761440400000.

Definition zone : JsDate.Zone :=
  JsDate.mkZone (fun t isUTC =>
    if isUTC
    then if (summerStart <=? t) && (t <? summerEnd) then 7200000 else 3600000
    else if (summerStart + 7200000 <=? t) && (t <? summerEnd + 7200000)
         then 7200000 else 3600000).

(** Three days at noon, and an entry of Bob for each that is about a month
    older: 14 February, 12:00, before 15 March; 2 March, 12:00, before 31
    March; 31 July, 18:00, before 31 August. *)
Definition noon15March : Z := JsDate.newDate zone 2025 2 15 12 0 0.

Definition noon31March : Z := JsDate.newDate zone 2025 2 31 12 0 0.

Definition noon31August : Z := JsDate.newDate zone 2025 7 31 12 0 0.

Definition entryFeb14 : EggTracker.EggEntry :=
  EggTracker.mkEggEntry "e1" (JsDate.newDate zone 2025 1 14 12 0 0) 4 "uid-1" "Bob".

Definition entryMar2 : EggTracker.EggEntry :=
  EggTracker.mkEggEntry "e2" (JsDate.newDate zone 2025 2 2 12 0 0) 5 "uid-1" "Bob".

Definition entryJul31 : EggTracker.EggEntry :=
  EggTracker.mkEggEntry "e3" (JsDate.newDate zone 2025 6 31 18 0 0) 6 "uid-1" "Bob".

(** The form of Bob with the three entries in its list, latest first. *)
Definition history : EggTracker.State :=
  EggTracker.mkState (Some Scenario.bob) false 0 None
                     [entryJul31; entryMar2; entryFeb14] None None None.

(** The store that holds the three entries. *)
Definition farm : World :=
  online ∅
    (<["e1" := mkEggDoc (Some (EggTracker.date entryFeb14)) (Some 4) (Some "uid-1")
                        (Some "Bob") (Some 0) None]>
     (<["e2" := mkEggDoc (Some (EggTracker.date entryMar2)) (Some 5) (Some "uid-1")
                         (Some "Bob") (Some 0) None]>
      (<["e3" := mkEggDoc (Some (EggTracker.date entryJul31)) (Some 6) (Some "uid-1")
                          (Some "Bob") (Some 0) None]>
       ∅)))
    0.

(** 15 November 2025 at noon, a month after the clocks were set back. *)
Definition noon15November : Z := JsDate.newDate zone 2025 10 15 12 0 0.

(** The last day of 2025: noon, and the instant half a second before the
    year ends, 23:59:59.500. *)
Definition noon31December : Z := JsDate.newDate zone 2025 11 31 12 0 0.

Definition lastHalfSecond : Z := JsDate.newDate zone 2025 11 31 23 59 59 + 500.

(** A store whose only entry, 4 eggs of Bob, is dated [date]. *)
Definition oneEntry (date : Z) : gmap string EggDoc :=
  {[ "e9" := mkEggDoc (Some date) (Some 4) (Some "uid-1") (Some "Bob") (Some 0) None ]}.

(** The store of the three entries of [Scenario.threeOwners]. *)
Definition threeOwners : gmap string EggDoc := list_to_map Scenario.threeOwners.

End Stockholm.

(* ===================================================================== *)
(** * Facts *)
(* ===================================================================== *)

(** ** The store *)

Section StoreFacts.
Import Firestore.

Lemma whereEmail_nil (m : gmap string AllowedUserDoc) (e : string) :
  map_to_list (filter (fun kd => au_email (snd kd) = Some e) m) = []
  <-> forall k d, m !! k = Some d -> au_email d <> Some e.
Proof.
  rewrite map_to_list_empty_iff. split.
  - intros Hempty k d Hk He.
    assert (Hin : filter (fun kd => au_email (snd kd) = Some e) m !! k = Some d)
      by (apply map_lookup_filter_Some; auto).
    rewrite Hempty in Hin. by rewrite lookup_empty in Hin.
  - intros Hnone. apply map_empty. intros k.
    apply map_lookup_filter_None. right. intros d Hk. simpl. eauto.
Qed.

Lemma whereEmail_elem (m : gmap string AllowedUserDoc) (e k : string) (d : AllowedUserDoc) :
  (k, d) ∈ map_to_list (filter (fun kd => au_email (snd kd) = Some e) m)
  <-> m !! k = Some d /\ au_email d = Some e.
Proof. rewrite elem_of_map_to_list, map_lookup_filter_Some. done. Qed.

(** A request that the oracle lets through is served on the state that has
    recorded it. *)
Lemma request_served {A} (r : Request) (serve : World -> Settled A * World) (w : World) :
  faults w (length (requests w)) = None ->
  request r serve w = serve (logRequest r w).
Proof. intros H. unfold request. by rewrite H. Qed.

Lemma request_rejected {A} (r : Request) (serve : World -> Settled A * World) (w : World) e :
  faults w (length (requests w)) = Some e ->
  request r serve w = (Rejected e, logRequest r w).
Proof. intros H. unfold request. by rewrite H. Qed.

End StoreFacts.

(** ** The admin set and the allow-list check *)

Section AccessFacts.
Import Firestore Auth AdminHelpers.
Variable env : option string.

Lemma emailOf_Some (u : User) (e : string) :
  email u = Some e -> e <> "" -> emailOf (Some u) = Some e.
Proof. intros Hu He. unfold emailOf. rewrite Hu. by destruct e. Qed.

Lemma isAdmin_true (u : User) (e : string) :
  email u = Some e -> e <> "" -> e ∈ ADMIN_EMAILS env -> isAdmin env (Some u) = true.
Proof.
  intros Hu He Hin. unfold isAdmin. rewrite (emailOf_Some u e Hu He).
  by apply bool_decide_eq_true.
Qed.

Lemma isAdmin_false (u : User) (e : string) :
  email u = Some e -> e ∉ ADMIN_EMAILS env -> isAdmin env (Some u) = false.
Proof.
  intros Hu Hin. unfold isAdmin, emailOf. rewrite Hu.
  destruct e; simpl; [done|]. by apply bool_decide_eq_false.
Qed.

Lemma lowerChar_idempotent (c : ascii) :
  JsString.lowerChar (JsString.lowerChar c) = JsString.lowerChar c.
Proof.
  destruct c as [[] [] [] [] [] [] [] []]; reflexivity.
Qed.

Lemma toLowerCase_idempotent (s : string) :
  JsString.toLowerCase (JsString.toLowerCase s) = JsString.toLowerCase s.
Proof.
  induction s as [|c r IH]; simpl; [done|]. by rewrite lowerChar_idempotent, IH.
Qed.

(** When the stored addresses are in lower case, as [addUser] writes them,
    looking for the lower-cased address in the field [email] is looking for
    the address without regard to case. *)
Lemma listedByField_any_case (w : World) (e : string) :
  Spec.storedLowerCase w ->
  Spec.listedByField w (JsString.toLowerCase e)
  <-> exists k d x, allowedUsers w !! k = Some d /\ au_email d = Some x
                    /\ JsString.toLowerCase x = JsString.toLowerCase e.
Proof.
  intros Hlower. split.
  - intros (k & d & Hk & Hd). exists k, d, (JsString.toLowerCase e).
    split; [done|]. split; [done|]. apply toLowerCase_idempotent.
  - intros (k & d & x & Hk & Hd & Hx). exists k, d. split; [done|].
    rewrite Hd, <- Hx. f_equal. symmetry. by apply (Hlower k d x).
Qed.

(** The promise of [isUserAllowed] is never rejected. *)
Lemma isUserAllowed_fulfilled (user : option User) (w : World) :
  exists b, fst (isUserAllowed env user w) = Fulfilled b.
Proof.
  unfold isUserAllowed. destruct (emailOf user) as [e|]; [|by eexists].
  destruct (isAdmin env user); [by eexists|].
  unfold tryCatch, bind, getDoc_allowedUsers, getDocs_allowedUsers_whereEmail, request, ret.
  simpl.
  destruct (faults w (length (requests w))); [by eexists|].
  case_bool_decide; [by eexists|].
  simpl. rewrite length_app. simpl.
  destruct (faults w (length (requests w) + 1)%nat); [by eexists|].
  destruct (negb _); by eexists.
Qed.

End AccessFacts.

(** ** The access decision *)

Section AccessClaims.
Import Firestore Auth AdminHelpers Spec.
Variable env : option string.

Lemma isUserAllowed_run (u : User) (e : string) (w : World) :
  email u = Some e -> e <> "" -> e ∉ ADMIN_EMAILS env ->
  isUserAllowed env (Some u) w =
    let key := JsString.toLowerCase e in
    let n := length (requests w) in
    let w1 := logRequest (GetDoc_allowedUsers key) w in
    let w2 := logRequest (GetDocs_allowedUsers_whereEmail key) w1 in
    match faults w n with
    | Some _ => (Fulfilled false, w1)
    | None =>
        match allowedUsers w !! key with
        | Some _ => (Fulfilled true, w1)
        | None =>
            match faults w (S n) with
            | Some _ => (Fulfilled false, w2)
            | None =>
                (Fulfilled
                   (negb (bool_decide
                            (map_to_list
                               (filter (fun kd => au_email (snd kd) = Some key)
                                       (allowedUsers w)) = []))), w2)
            end
        end
    end.
Proof.
  intros Hu He Hadm. unfold isUserAllowed.
  rewrite (emailOf_Some u e Hu He), (isAdmin_false env u e Hu Hadm).
  unfold tryCatch, bind, getDoc_allowedUsers, getDocs_allowedUsers_whereEmail, request, ret.
  simpl.
  destruct (faults w (length (requests w))); [done|].
  destruct (allowedUsers w !! JsString.toLowerCase e) as [d|] eqn:Hkey.
  - rewrite bool_decide_eq_true_2 by eauto. done.
  - rewrite bool_decide_eq_false_2 by (intros [? ?]; done).
    simpl. rewrite length_app. simpl. rewrite Nat.add_1_r.
    destruct (faults w (S (length (requests w)))); [done|].
    by destruct (negb _).
Qed.

(** C2. Every identity whose address is in the configured admin set is an
    admin and is granted access, whatever the allow-list holds; the store is
    not consulted (the state after the decision is the state before it). *)
Theorem admin_always_allowed (u : User) (e : string) (w : World) :
  email u = Some e -> e <> "" -> e ∈ ADMIN_EMAILS env ->
  isAdmin env (Some u) = true
  /\ isUserAllowed env (Some u) w = (Fulfilled true, w)
  /\ resolveRole env (Some u) w = (Fulfilled Admin, w).
Proof.
  intros Hu He Hin.
  pose proof (isAdmin_true env u e Hu He Hin) as Hadm.
  split; [done|]. split.
  - unfold isUserAllowed. rewrite (emailOf_Some u e Hu He), Hadm. done.
  - unfold resolveRole. rewrite Hadm. done.
Qed.

(** C10. The admin set is searched for the address exactly as the identity
    carries it: an identity whose address equals a configured admin address
    up to the case of its letters, without being in the set itself, is not
    an admin, and when the allow-list does not list it either, it is
    denied. *)
Theorem admin_match_is_case_sensitive (u : User) (e a : string) (w : World) :
  email u = Some e ->
  a ∈ ADMIN_EMAILS env ->
  JsString.toLowerCase e = JsString.toLowerCase a ->
  e ∉ ADMIN_EMAILS env ->
  ~ listed w (JsString.toLowerCase e) ->
  isAdmin env (Some u) = false
  /\ fst (isUserAllowed env (Some u) w) = Fulfilled false
  /\ fst (resolveRole env (Some u) w) = Fulfilled Denied.
Proof.
  intros Hu _ _ Hadm Hnot.
  pose proof (isAdmin_false env u e Hu Hadm) as Hfalse.
  assert (Hdenied : fst (isUserAllowed env (Some u) w) = Fulfilled false).
  { destruct (decide (e = "")) as [->|He].
    - unfold isUserAllowed, emailOf. rewrite Hu. done.
    - rewrite (isUserAllowed_run u e w Hu He Hadm). simpl.
      destruct (faults w (length (requests w))); [done|].
      destruct (allowedUsers w !! JsString.toLowerCase e) as [d|] eqn:Hkey.
      + exfalso. apply Hnot. left. unfold listedByKey. eauto.
      + destruct (faults w (S (length (requests w)))); [done|].
        simpl. rewrite bool_decide_eq_true_2; [done|].
        apply whereEmail_nil. intros k d Hk Hd. apply Hnot. right. by exists k, d. }
  split; [done|]. split; [done|].
  unfold resolveRole. rewrite Hfalse. unfold bind.
  destruct (isUserAllowed env (Some u) w) as [[b|err] w'] eqn:Hrun; simpl in *; [|done].
  by inversion Hdenied.
Qed.

(** C3, as the code has it. For an identity that is not an admin, on a
    store that answers, access is granted exactly when the lower-cased
    address is found by the lookup of the document of that id or by the
    query for the documents whose field [email] is that lower-cased address,
    letter for letter; otherwise it is denied. The case of the letters of
    the identity's address plays no role; that of the stored field does:
    only when the stored addresses are in lower case does the query find
    the entries that equal the address up to case. *)
Theorem allowed_iff_listed (u : User) (e : string) (w : World) :
  email u = Some e -> e <> "" -> e ∉ ADMIN_EMAILS env -> reachable w ->
  (fst (isUserAllowed env (Some u) w) = Fulfilled true
     <-> listed w (JsString.toLowerCase e))
  /\ (fst (isUserAllowed env (Some u) w) = Fulfilled false
     <-> ~ listed w (JsString.toLowerCase e))
  /\ (fst (resolveRole env (Some u) w) = Fulfilled Allowed
     <-> listed w (JsString.toLowerCase e))
  /\ (fst (resolveRole env (Some u) w) = Fulfilled Denied
     <-> ~ listed w (JsString.toLowerCase e))
  /\ (storedLowerCase w ->
      listed w (JsString.toLowerCase e)
      <-> listedByKey w (JsString.toLowerCase e)
          \/ exists k d x, allowedUsers w !! k = Some d /\ au_email d = Some x
                           /\ JsString.toLowerCase x = JsString.toLowerCase e).
Proof.
  intros Hu He Hadm Hreach.
  assert (Hcase : storedLowerCase w ->
      listed w (JsString.toLowerCase e)
      <-> listedByKey w (JsString.toLowerCase e)
          \/ exists k d x, allowedUsers w !! k = Some d /\ au_email d = Some x
                           /\ JsString.toLowerCase x = JsString.toLowerCase e).
  { intros Hlower. unfold listed. by rewrite (listedByField_any_case w e Hlower). }
  set (key := JsString.toLowerCase e).
  assert (Hrun : fst (isUserAllowed env (Some u) w) = Fulfilled true /\ listed w key
                 \/ fst (isUserAllowed env (Some u) w) = Fulfilled false /\ ~ listed w key).
  { rewrite (isUserAllowed_run u e w Hu He Hadm). simpl. fold key.
    rewrite !Hreach.
    destruct (allowedUsers w !! key) as [d|] eqn:Hkey.
    - left. split; [done|]. left. unfold listedByKey. eauto.
    - simpl. case_bool_decide as Hq.
      + right. split; [done|]. intros [[d Hd]|(k & d & Hk & Hd)].
        * congruence.
        * by apply (proj1 (whereEmail_nil _ _) Hq k d).
      + left. split; [done|]. right.
        destruct (map_to_list _) as [|[k d] l] eqn:Hl; [done|].
        exists k, d. apply whereEmail_elem. rewrite Hl. left. }
  assert (Hrole : fst (resolveRole env (Some u) w)
                  = match fst (isUserAllowed env (Some u) w) with
                    | Fulfilled true => Fulfilled Allowed
                    | Fulfilled false => Fulfilled Denied
                    | Rejected err => Rejected err
                    end).
  { unfold resolveRole. rewrite (isAdmin_false env u e Hu Hadm). unfold bind.
    destruct (isUserAllowed env (Some u) w) as [[[|]|err] w']; done. }
  rewrite Hrole.
  destruct Hrun as [[-> Hl]|[-> Hl]]; repeat split; try done; intros; try done;
    by apply Hcase.
Qed.

(** C1, as the code has it. When a request of the allow-list check is
    rejected, access is denied, and the promise is fulfilled with the plain
    value [false], the value of any other denial: the check does not pass
    the failure on to its caller. *)
Theorem isUserAllowed_fails_closed (user : option User) (w : World) :
  requestRejected w (snd (isUserAllowed env user w)) ->
  fst (isUserAllowed env user w) = Fulfilled false
  /\ fst (resolveRole env user w) = Fulfilled Denied.
Proof.
  intros (n & Hn & Hfault).
  assert (Hdenied : fst (isUserAllowed env user w) = Fulfilled false
                    /\ isAdmin env user = false).
  { revert Hn. unfold isUserAllowed.
    destruct (emailOf user) as [e|] eqn:He; [|simpl; lia].
    destruct (isAdmin env user) eqn:Hadm; [simpl; lia|].
    unfold tryCatch, bind, getDoc_allowedUsers, getDocs_allowedUsers_whereEmail, request, ret.
    simpl.
    destruct (faults w (length (requests w))) eqn:Hf0; [done|].
    case_bool_decide.
    - simpl. rewrite length_app. simpl. intros Hn.
      assert (n = length (requests w)) as -> by lia. done.
    - simpl. rewrite length_app. simpl.
      destruct (faults w (length (requests w) + 1)%nat) eqn:Hf1; [done|].
      destruct (negb _); simpl; rewrite !length_app; simpl; intros Hn;
        (assert (n = length (requests w) \/ n = (length (requests w) + 1)%nat)
          as [-> | ->] by lia; done). }
  destruct Hdenied as [Hdenied Hadm]. split; [done|].
  unfold resolveRole. rewrite Hadm. unfold bind.
  destruct (isUserAllowed env user w) as [[b|err] w']; simpl in *; [|done].
  by inversion Hdenied.
Qed.

End AccessClaims.

(** ** Concrete runs of the access decision *)

Section AccessExamples.
Import Firestore Auth AdminHelpers Spec Scenario.

Lemma admin_always_allowed_witness :
  let env := Some "admin@example.com, second@example.com" in
  let u := mkUser "uid-2" (Some "second@example.com") None in
  let w := offline ∅ ∅ 0 in
  isAdmin env (Some u) = true
  /\ isUserAllowed env (Some u) w = (Fulfilled true, w)
  /\ resolveRole env (Some u) w = (Fulfilled Admin, w).
Proof.
  intros env u w.
  apply (admin_always_allowed env u "second@example.com" w).
  - reflexivity.
  - discriminate.
  - by_compute.
Defined.

Lemma admin_match_is_case_sensitive_witness :
  let env := Some "Admin@Example.com" in
  let u := mkUser "uid-1" (Some "admin@example.com") None in
  let w := online ∅ ∅ 0 in
  isAdmin env (Some u) = false
  /\ fst (isUserAllowed env (Some u) w) = Fulfilled false
  /\ fst (resolveRole env (Some u) w) = Fulfilled Denied.
Proof.
  intros env u w.
  apply (admin_match_is_case_sensitive env u "admin@example.com" "Admin@Example.com" w).
  - reflexivity.
  - by_compute.
  - reflexivity.
  - by_compute.
  - intros [[d Hd]|(k & d & Hk & _)]; simpl in *.
    + rewrite lookup_empty in Hd. discriminate.
    + rewrite lookup_empty in Hk. discriminate.
Defined.

Lemma bobAdded_allowedUsers :
  allowedUsers bobAdded =
  {[ "bob@example.com" :=
       mkAllowedUserDoc (Some "bob@example.com") (Some "bob") (Some 0)
                        (Some "admin@example.com") ]}.
Proof. vm_compute. reflexivity. Qed.

Lemma allowed_iff_listed_witness :
  let env := Some "admin@example.com" in
  let u := mkUser "uid-1" (Some "Bob@Example.com") (Some "Bob") in
  fst (isUserAllowed env (Some u) bobAdded) = Fulfilled true
  /\ fst (resolveRole env (Some u) bobAdded) = Fulfilled Allowed.
Proof.
  intros env u.
  assert (Hlisted : listed bobAdded (JsString.toLowerCase "Bob@Example.com")).
  { left. unfold listedByKey. rewrite bobAdded_allowedUsers.
    change (JsString.toLowerCase "Bob@Example.com") with "bob@example.com".
    rewrite lookup_singleton_eq. eauto. }
  destruct (allowed_iff_listed env u "Bob@Example.com" bobAdded) as (H1 & _ & H3 & _ & _).
  - reflexivity.
  - discriminate.
  - by_compute.
  - intros n. reflexivity.
  - split; [apply H1 | apply H3]; exact Hlisted.
Defined.

(** C3, as stated, does not hold: the query compares the stored field
    with the lower-cased address letter for letter. The allow-list holds a
    record whose field [email] is "Bob@Example.com", equal up to case, and
    even letter for letter, to the address Bob signs in with; the store
    answers, and Bob is denied. *)
Lemma stored_capitals_are_not_matched :
  reachable MoreScenarios.legacy
  /\ email bob = Some "Bob@Example.com"
  /\ ("Bob@Example.com" ∉ ADMIN_EMAILS adminEnv)
  /\ (exists k d x,
        allowedUsers MoreScenarios.legacy !! k = Some d /\ au_email d = Some x
        /\ JsString.toLowerCase x = JsString.toLowerCase "Bob@Example.com")
  /\ fst (isUserAllowed adminEnv (Some bob) MoreScenarios.legacy) = Fulfilled false
  /\ fst (resolveRole adminEnv (Some bob) MoreScenarios.legacy) = Fulfilled Denied.
Proof.
  split; [intros n; reflexivity|]. split; [reflexivity|]. split; [by_compute|].
  split; [|split; vm_compute; reflexivity].
  exists "legacy-17",
         (mkAllowedUserDoc (Some "Bob@Example.com") (Some "Bob") (Some 0) None),
         "Bob@Example.com".
  split; [|split; reflexivity].
  unfold MoreScenarios.legacy. simpl. apply lookup_singleton_eq.
Qed.

Lemma isUserAllowed_fails_closed_witness :
  let env := Some "admin@example.com" in
  let u := mkUser "uid-1" (Some "Bob@Example.com") (Some "Bob") in
  let w := offline (allowedUsers bobAdded) ∅ 0 in
  fst (isUserAllowed env (Some u) w) = Fulfilled false
  /\ fst (resolveRole env (Some u) w) = Fulfilled Denied.
Proof.
  intros env u w.
  apply (isUserAllowed_fails_closed env (Some u) w).
  exists 0%nat. split; [vm_compute; lia | discriminate].
Defined.

(** C1, as stated, does not hold: with the store down and with the store up
    and an empty allow-list, [isUserAllowed] gives its caller the same value,
    and the listener that calls it sets the same access flag. *)
Lemma failure_looks_like_denial :
  let env := Some "admin@example.com" in
  let u := mkUser "uid-1" (Some "bob@example.com") (Some "Bob") in
  let down := offline ∅ ∅ 0 in
  let up := online ∅ ∅ 0 in
  requestRejected down (snd (isUserAllowed env (Some u) down))
  /\ ~ requestRejected up (snd (isUserAllowed env (Some u) up))
  /\ fst (isUserAllowed env (Some u) down) = fst (isUserAllowed env (Some u) up)
  /\ fst (isUserAllowed env (Some u) down) = Fulfilled false
  /\ fst (EggTracker.onAuthStateChanged env (Some u) down)
     = fst (EggTracker.onAuthStateChanged env (Some u) up).
Proof.
  intros env u down up. repeat split.
  - exists 0%nat. split; [vm_compute; lia | discriminate].
  - intros (n & _ & Hn). apply Hn. reflexivity.
Qed.

End AccessExamples.

(** ** The calendar *)

Section DateFacts.
Import JsDate Spec.

Lemma DayFromYear_succ (y : Z) : DayFromYear (y + 1) = DayFromYear y + DaysInYear y.
Proof.
  unfold DayFromYear, DaysInYear.
  repeat match goal with |- context [ (?a =? ?b) ] => destruct (Z.eqb_spec a b) end;
    simpl; Z.div_mod_to_equations; lia.
Qed.

Lemma DaysInYear_range (y : Z) : DaysInYear y = 365 \/ DaysInYear y = 366.
Proof. unfold DaysInYear. repeat destruct (negb _); auto. Qed.

(** [YearFromTime] is the year the day of [t] falls in. *)
Lemma YearFromTime_spec (t : Z) :
  DayFromYear (YearFromTime t) <= Day t < DayFromYear (YearFromTime t + 1).
Proof.
  unfold YearFromTime.
  set (d := Day t). set (y := 1970 + d * 400 / 146097).
  assert (Hlo : DayFromYear (y - 1) <= d)
    by (subst y; unfold DayFromYear; Z.div_mod_to_equations; lia).
  assert (Hhi : d < DayFromYear (y + 2))
    by (subst y; unfold DayFromYear; Z.div_mod_to_equations; lia).
  replace (y + 2) with (y + 1 + 1) in Hhi by lia.
  destruct (Z.leb_spec (DayFromYear (y + 1)) d).
  - lia.
  - destruct (Z.leb_spec (DayFromYear y) d).
    + lia.
    + replace (y - 1 + 1) with y by lia. lia.
Qed.

Lemma DayFromYear_mono (a b : Z) : a <= b -> DayFromYear a <= DayFromYear b.
Proof.
  intros Hab. replace b with (a + Z.of_nat (Z.to_nat (b - a))) by lia.
  induction (Z.to_nat (b - a)) as [|n IH]; [by rewrite Z.add_0_r|].
  replace (a + Z.of_nat (S n)) with (a + Z.of_nat n + 1) by lia.
  rewrite DayFromYear_succ. destruct (DaysInYear_range (a + Z.of_nat n)); lia.
Qed.

Lemma YearFromTime_unique (t y : Z) :
  DayFromYear y <= Day t < DayFromYear (y + 1) -> YearFromTime t = y.
Proof.
  intros Hy. pose proof (YearFromTime_spec t) as Hspec.
  destruct (Z.lt_trichotomy (YearFromTime t) y) as [Hlt|[Heq|Hgt]]; [|done|].
  - pose proof (DayFromYear_mono (YearFromTime t + 1) y). lia.
  - pose proof (DayFromYear_mono (y + 1) (YearFromTime t)). lia.
Qed.

Lemma InLeapYear_range (t : Z) : InLeapYear t = 0 \/ InLeapYear t = 1.
Proof. unfold InLeapYear. destruct (DaysInYear_range (YearFromTime t)); lia. Qed.

Lemma DayWithinYear_range (t : Z) : 0 <= DayWithinYear t < 365 + InLeapYear t.
Proof.
  pose proof (YearFromTime_spec t) as H. rewrite DayFromYear_succ in H.
  unfold DayWithinYear, InLeapYear. lia.
Qed.

Lemma MonthFromTime_range (t : Z) : 0 <= MonthFromTime t <= 11.
Proof.
  unfold MonthFromTime, monthOfDay.
  repeat match goal with |- context [ (?a <? ?b) ] => destruct (Z.ltb_spec a b) end; lia.
Qed.

Lemma daysInPreviousMonth_range (t : Z) : 28 <= daysInPreviousMonth t <= 31.
Proof.
  unfold daysInPreviousMonth, MakeDay, DateFromTime.
  pose proof (MonthFromTime_range t) as Hm.
  pose proof (InLeapYear_range t) as Hleap.
  set (m := MonthFromTime t) in *. set (leap := InLeapYear t) in *.
  destruct (Z.eq_dec m 0) as [Hm0|Hm0].
  - rewrite Hm0. change ((0 - 1) / 12) with (-1). change ((0 - 1) mod 12) with 11.
    pose proof (DayFromYear_succ (YearFromTime t - 1)) as Hy.
    replace (YearFromTime t - 1 + 1) with (YearFromTime t) in Hy by lia.
    replace (YearFromTime t + -1) with (YearFromTime t - 1) by lia.
    unfold DayWithinYear. rewrite Hy. unfold monthStart. simpl.
    destruct (DaysInYear_range (YearFromTime t - 1)); lia.
  - assert (Hq : (m - 1) / 12 = 0) by (Z.div_mod_to_equations; lia).
    assert (Hr : (m - 1) mod 12 = m - 1) by (Z.div_mod_to_equations; lia).
    rewrite Hq, Hr, Z.add_0_r. fold (InLeapYear t). fold leap.
    unfold DayWithinYear.
    assert (Hlen : 28 <= monthStart leap m - monthStart leap (m - 1) <= 31).
    { unfold monthStart.
      repeat match goal with
             | |- context [ (?a <=? ?b) ] => destruct (Z.leb_spec a b)
             | |- context [ (?a =? ?b) ] => destruct (Z.eqb_spec a b)
             end; lia. }
    lia.
Qed.

(** The step back of [setMonth] passes over the calendar month before the
    one [t] falls in. *)
Lemma daysInPreviousMonth_calendar (t : Z) :
  daysInPreviousMonth t = Shape.daysOfMonthBefore (InLeapYear t) (MonthFromTime t).
Proof.
  unfold daysInPreviousMonth, MakeDay, DateFromTime, Shape.daysOfMonthBefore.
  pose proof (MonthFromTime_range t) as Hm.
  pose proof (InLeapYear_range t) as Hleap.
  set (m := MonthFromTime t) in *. set (leap := InLeapYear t) in *.
  destruct (Z.eq_dec m 0) as [Hm0|Hm0].
  - rewrite Hm0. change ((0 - 1) / 12) with (-1). change ((0 - 1) mod 12) with 11.
    pose proof (DayFromYear_succ (YearFromTime t - 1)) as Hy.
    replace (YearFromTime t - 1 + 1) with (YearFromTime t) in Hy by lia.
    replace (YearFromTime t + -1) with (YearFromTime t - 1) by lia.
    unfold DayWithinYear. rewrite Hy. unfold monthStart. simpl.
    destruct (DaysInYear_range (YearFromTime t - 1)); lia.
  - assert (Hq : (m - 1) / 12 = 0) by (Z.div_mod_to_equations; lia).
    assert (Hr : (m - 1) mod 12 = m - 1) by (Z.div_mod_to_equations; lia).
    rewrite Hq, Hr, Z.add_0_r. fold (InLeapYear t). fold leap.
    unfold DayWithinYear.
    assert (Hlen : monthStart leap m - monthStart leap (m - 1)
                   = if m =? 2 then 28 + leap
                     else if (m =? 4) || (m =? 6) || (m =? 9) || (m =? 11) then 30
                     else 31).
    { unfold monthStart.
      repeat match goal with
             | |- context [ (?a <=? ?b) ] => destruct (Z.leb_spec a b)
             | |- context [ (?a =? ?b) ] => destruct (Z.eqb_spec a b)
             end; simpl; lia. }
    lia.
Qed.

Lemma setHours_midnight (tza t : Z) :
  setHours tza t 0 0 0 0 = Day (t + tza) * msPerDay - tza.
Proof.
  unfold setHours, UTC, MakeDate, MakeTime, LocalTime. cbn [LocalTZA fixedOffset]. lia.
Qed.

Lemma setHours_endOfDay (tza t : Z) :
  setHours tza t 23 59 59 999 = Day (t + tza) * msPerDay + (msPerDay - 1) - tza.
Proof.
  unfold setHours, UTC, MakeDate, MakeTime, LocalTime,
    msPerDay, msPerHour, msPerMinute, msPerSecond. cbn [LocalTZA fixedOffset]. lia.
Qed.

(** The stamps between local midnight and the last millisecond of the day
    of [t] are those of the same local calendar day. *)
Lemma sameDay_iff (tza t t' : Z) :
  setHours tza t 0 0 0 0 <= t' <= setHours tza t 23 59 59 999
  <-> Day (LocalTime tza t') = Day (LocalTime tza t).
Proof.
  rewrite setHours_midnight, setHours_endOfDay.
  unfold LocalTime, Day, msPerDay. cbn [LocalTZA fixedOffset].
  split; intros H; Z.div_mod_to_equations; lia.
Qed.

(** Comparing local midnights compares calendar days. *)
Lemma laterDay_iff (tza t t' : Z) :
  setHours tza t' 0 0 0 0 > setHours tza t 0 0 0 0
  <-> Day (LocalTime tza t') > Day (LocalTime tza t).
Proof.
  rewrite !setHours_midnight. unfold LocalTime, msPerDay. cbn [LocalTZA fixedOffset]. lia.
Qed.

End DateFacts.

(** ** The tracker form: validation, create, edit and delete *)

Section LimitFacts.
Import EggTracker Spec.
Variable zone : JsDate.Zone.

(** In every zone, [getMaxAllowedDate] is [now] moved back by the length
    of the month before the local month of [now], read on the local clock:
    when the offset of the zone at the local time so reached is not the one
    in effect at [now], the limit is shifted by the difference. *)
Lemma getMaxAllowedDate_in_zone (now : Z) :
  let local := JsDate.LocalTime zone now in
  let back := local - daysInPreviousMonth local * JsDate.msPerDay in
  getMaxAllowedDate zone now
  = now - daysInPreviousMonth local * JsDate.msPerDay
    + (JsDate.LocalTZA zone now true - JsDate.LocalTZA zone back false).
Proof.
  cbv zeta.
  unfold getMaxAllowedDate, JsDate.setMonth, JsDate.getMonth, daysInPreviousMonth,
    JsDate.UTC, JsDate.MakeDate, JsDate.TimeWithinDay.
  set (lt := JsDate.LocalTime zone now).
  set (mk := JsDate.MakeDay _ _ _).
  assert (Hlt : lt = JsDate.Day lt * JsDate.msPerDay + lt mod JsDate.msPerDay).
  { unfold JsDate.Day, JsDate.msPerDay. Z.div_mod_to_equations. lia. }
  assert (Hback : mk * JsDate.msPerDay + lt mod JsDate.msPerDay
                  = lt - (JsDate.Day lt - mk) * JsDate.msPerDay) by lia.
  rewrite Hback. unfold JsDate.LocalTime in lt. subst lt. lia.
Qed.

(** The same, with the length of the month read off the calendar. *)
Lemma getMaxAllowedDate_calendar (now : Z) :
  let local := JsDate.LocalTime zone now in
  let days := Shape.daysOfMonthBefore (JsDate.InLeapYear local) (JsDate.MonthFromTime local) in
  getMaxAllowedDate zone now
  = now - days * JsDate.msPerDay
    + (JsDate.LocalTZA zone now true
       - JsDate.LocalTZA zone (local - days * JsDate.msPerDay) false).
Proof.
  cbv zeta. rewrite <- daysInPreviousMonth_calendar. apply getMaxAllowedDate_in_zone.
Qed.

End LimitFacts.

Section TrackerFacts.
Import Firestore Auth EggTracker Spec.
Variable tza : Z.

(** In a zone whose offset does not change, [getMaxAllowedDate] is [now]
    moved back by the length of the previous month. *)
Lemma getMaxAllowedDate_eq (now : Z) :
  getMaxAllowedDate tza now
  = now - daysInPreviousMonth (JsDate.LocalTime tza now) * JsDate.msPerDay.
Proof.
  rewrite getMaxAllowedDate_in_zone. cbn [JsDate.LocalTZA JsDate.fixedOffset]. lia.
Qed.

(** In such a zone the limit lies 28 to 31 days before [now]. *)
Lemma getMaxAllowedDate_range (now : Z) :
  now - 31 * JsDate.msPerDay <= getMaxAllowedDate tza now <= now - 28 * JsDate.msPerDay.
Proof.
  rewrite getMaxAllowedDate_eq.
  pose proof (daysInPreviousMonth_range (JsDate.LocalTime tza now)).
  unfold JsDate.msPerDay. lia.
Qed.

(** The documents selected by the duplicate check. *)
Lemma matches_dayQuery (owner : string) (lo hi : Z) (d : EggDoc) :
  matchesEggQuery (mkEggQuery (Some owner) (Some lo) (Some hi) false) d = true
  <-> Firestore.userId d = Some owner /\ exists t, Firestore.date d = Some t /\ lo <= t <= hi.
Proof.
  unfold matchesEggQuery. simpl. rewrite andb_true_r, !andb_true_iff, bool_decide_eq_true.
  destruct (Firestore.date d) as [t|].
  - rewrite Z.leb_le, Z.leb_le. split.
    + intros [[Hu Hlo] Hhi]. split; [done|]. exists t. auto.
    + intros [Hu (t' & Ht & Hlo & Hhi)]. inversion Ht. subst. auto.
  - split.
    + intros [[_ ?] _]. done.
    + intros [_ (t & ? & _)]. done.
Qed.

Lemma matches_ownerQuery (owner : string) (d : EggDoc) :
  matchesEggQuery (mkEggQuery (Some owner) None None false) d = true
  <-> Firestore.userId d = Some owner.
Proof.
  unfold matchesEggQuery. simpl. rewrite !andb_true_r. apply bool_decide_eq_true.
Qed.

Lemma runEggQuery_unordered_elem (q : EggQuery) (m : gmap string EggDoc) k d :
  orderByDateDesc q = false ->
  (k, d) ∈ runEggQuery q m <-> m !! k = Some d /\ matchesEggQuery q d = true.
Proof.
  intros Ho. unfold runEggQuery. rewrite Ho.
  rewrite elem_of_map_to_list, map_lookup_filter_Some. done.
Qed.

Lemma runEggQuery_unordered_nil (q : EggQuery) (m : gmap string EggDoc) :
  orderByDateDesc q = false ->
  runEggQuery q m = [] <-> forall k d, m !! k = Some d -> matchesEggQuery q d <> true.
Proof.
  intros Ho. split.
  - intros Hnil k d Hk Hm.
    assert (Hin : (k, d) ∈ runEggQuery q m) by (by apply runEggQuery_unordered_elem).
    rewrite Hnil in Hin. by apply elem_of_nil in Hin.
  - intros Hnone. destruct (runEggQuery q m) as [|[k d] l] eqn:Hq; [done|].
    exfalso. assert (Hin : (k, d) ∈ runEggQuery q m) by (rewrite Hq; left).
    apply (proj1 (runEggQuery_unordered_elem _ _ _ _ Ho)) in Hin as [Hk Hm].
    by eapply Hnone.
Qed.

(** C6. With a signed-in user, a count of 0 or less (so 0), a count above
    100 (so 101), or a date on a calendar day after today is answered with
    one of the messages of the input checks; the store receives no request
    and is left as it is. *)
Theorem invalid_input_rejected_locally (now : Z) (s : State) (u : User) (w : World) :
  user s = Some u ->
  (eggCount s <= 0 \/ 100 < eggCount s
   \/ exists selected, selectedDate s = Some selected
        /\ JsDate.Day (JsDate.LocalTime tza selected) > JsDate.Day (JsDate.LocalTime tza now)) ->
  exists m, isValidationError m = true
            /\ saveEggEntry tza now s w = (Fulfilled (setErrorMessage (Some m) s), w).
Proof.
  intros Hu Hbad. unfold saveEggEntry. rewrite Hu.
  destruct (Z.leb_spec (eggCount s) 0); [by exists CountNotPositive|].
  destruct (Z.gtb_spec (eggCount s) 100); [by exists CountTooLarge|].
  destruct Hbad as [?|[?|(selected & Hsel & Hlater)]]; [lia|lia|].
  rewrite Hsel. apply laterDay_iff in Hlater.
  destruct (Z.gtb_spec (JsDate.setHours tza selected 0 0 0 0)
                       (JsDate.setHours tza now 0 0 0 0)); [|lia].
  by exists FutureDate.
Qed.

(** C5. A create (signed-in user, no entry being edited, input that passes
    the checks) on a store that answers first asks for the user's entries
    dated from the first to the last millisecond of the selected day. If one
    exists, the message is the duplicate-entry one and nothing is written;
    otherwise one document is added under an unused id, with the data of the
    form and the server's time as [createdAt]. *)
Theorem create_checks_day_then_inserts (now : Z) (s : State) (u : User)
        (selected : Z) (w : World) :
  user s = Some u -> editEntry s = None -> selectedDate s = Some selected ->
  1 <= eggCount s <= 100 ->
  JsDate.Day (JsDate.LocalTime tza selected) <= JsDate.Day (JsDate.LocalTime tza now) ->
  reachable w ->
  let startOfDay := JsDate.setHours tza selected 0 0 0 0 in
  let endOfDay := JsDate.setHours tza selected 23 59 59 999 in
  let check := GetDocs_eggEntries
                 (mkEggQuery (Some (uid u)) (Some startOfDay) (Some endOfDay) false) in
  let sameOwnerAndDay := fun d : EggDoc =>
    Firestore.userId d = Some (uid u)
    /\ exists t, Firestore.date d = Some t
         /\ JsDate.Day (JsDate.LocalTime tza t) = JsDate.Day (JsDate.LocalTime tza selected) in
  let r := saveEggEntry tza now s w in
  ((exists k d, Firestore.eggEntries w !! k = Some d /\ sameOwnerAndDay d) ->
     fst r = Fulfilled (setIsSubmitting false (setErrorMessage (Some DuplicateEntry) s))
     /\ Firestore.eggEntries (snd r) = Firestore.eggEntries w
     /\ requests (snd r) = (requests w ++ [check])%list)
  /\ ((forall k d, Firestore.eggEntries w !! k = Some d -> ~ sameOwnerAndDay d) ->
     exists key,
       Firestore.eggEntries w !! key = None
       /\ fst r = Fulfilled
                    (setIsSubmitting false
                       (setSuccessMessage (Some (Registered (eggCount s) selected))
                          (setErrorMessage None s)))
       /\ Firestore.eggEntries (snd r)
          = <[key := mkEggDoc (Some selected) (Some (eggCount s)) (Some (uid u))
                       (Some (JsString.orElse (displayName u) "Anonym användare"))
                       (Some (serverTime w)) None]> (Firestore.eggEntries w)
       /\ requests (snd r) = (requests w ++ [check; AddDoc_eggEntries])%list).
Proof.
  intros Hu Hedit Hsel Hcount Hday Hreach startOfDay endOfDay check sameOwnerAndDay r.
  set (q := mkEggQuery (Some (uid u)) (Some startOfDay) (Some endOfDay) false) in *.
  assert (Hsame : forall d, sameOwnerAndDay d <-> matchesEggQuery q d = true).
  { intros d. unfold q. rewrite matches_dayQuery. unfold sameOwnerAndDay.
    split; intros [Ho (t & Ht & Hd)]; (split; [done|]); exists t; (split; [done|]);
      by apply sameDay_iff. }
  assert (Hr : r =
    let w1 := logRequest check w in
    match runEggQuery q (Firestore.eggEntries w) with
    | _ :: _ => (Fulfilled (setIsSubmitting false (setErrorMessage (Some DuplicateEntry) s)), w1)
    | [] =>
        let key := fresh (dom (Firestore.eggEntries w)) in
        (Fulfilled (setIsSubmitting false
                      (setSuccessMessage (Some (Registered (eggCount s) selected))
                         (setErrorMessage None s))),
         withEggEntries
           (<[key := mkEggDoc (Some selected) (Some (eggCount s)) (Some (uid u))
                       (Some (JsString.orElse (displayName u) "Anonym användare"))
                       (Some (serverTime w)) None]> (Firestore.eggEntries w))
           (logRequest AddDoc_eggEntries w1))
    end).
  { subst r. unfold saveEggEntry. rewrite Hu, Hsel, Hedit.
    destruct (Z.leb_spec (eggCount s) 0); [lia|].
    destruct (Z.gtb_spec (eggCount s) 100); [lia|].
    destruct (Z.gtb_spec (JsDate.setHours tza selected 0 0 0 0)
                         (JsDate.setHours tza now 0 0 0 0)) as [Hlater|_].
    { apply Z.lt_gt, laterDay_iff in Hlater. lia. }
    unfold bind, tryCatch, getDocs_eggEntries, addDoc_eggEntries, request, ret.
    fold startOfDay endOfDay. fold q. rewrite Hreach. simpl.
    destruct (runEggQuery _ _) as [|hit hits]; simpl.
    - rewrite Hreach. done.
    - done. }
  rewrite Hr. clear Hr r. split.
  - intros (k & d & Hk & Hd).
    destruct (runEggQuery _ _) as [|hit hits] eqn:Hq.
    + exfalso. apply (proj1 (runEggQuery_unordered_nil q _ eq_refl) Hq k d Hk).
      by apply Hsame.
    + simpl. done.
  - intros Hnone.
    destruct (runEggQuery _ _) as [|hit hits] eqn:Hq.
    + exists (fresh (dom (Firestore.eggEntries w))). simpl.
      split; [apply not_elem_of_dom, is_fresh|].
      repeat split. by rewrite <- app_assoc.
    + exfalso. destruct hit as [k d].
      assert (Hin : (k, d) ∈ runEggQuery q (Firestore.eggEntries w))
        by (rewrite Hq; left).
      apply (proj1 (runEggQuery_unordered_elem q _ _ _ eq_refl)) in Hin as [Hk Hm].
      apply (Hnone k d Hk). by apply Hsame.
Qed.

End TrackerFacts.

Section EditWindow.
Import Firestore Auth EggTracker Spec.
Variable zone : JsDate.Zone.

(** What [handleEdit] and [handleDelete] do with the limit, in every zone.
    For an entry of the list, an edit or a delete is refused exactly when
    its date is before [getMaxAllowedDate], and a refusal sends nothing to
    the store; otherwise the delete, once confirmed, sends the deletion of
    that document, and the edit loads the entry into the form, from where
    saving it sends the update of that document. *)
Lemma handlers_compare_with_limit (now : Z) (entry : EggEntry) (s : State) (w : World) :
  List.find (fun e => String.eqb (id e) (id entry)) (EggTracker.eggEntries s) = Some entry ->
  let limit := getMaxAllowedDate zone now in
  handleEdit zone now entry s
  = (if EggTracker.date entry <? limit then setErrorMessage (Some EditTooOld) s
     else setSelectedDate (Some (EggTracker.date entry))
            (setEggCount (EggTracker.count entry) (setEditEntry (Some entry) s)))
  /\ (forall confirmed, EggTracker.date entry < limit ->
        handleDelete zone now confirmed (id entry) s w
        = (Fulfilled (setErrorMessage (Some DeleteTooOld) s), w))
  /\ (limit <= EggTracker.date entry ->
        requests (snd (handleDelete zone now true (id entry) s w))
        = (requests w ++ [DeleteDoc_eggEntries (id entry)])%list
        /\ (reachable w ->
            Firestore.eggEntries (snd (handleDelete zone now true (id entry) s w))
            = delete (id entry) (Firestore.eggEntries w)))
  /\ (limit <= EggTracker.date entry ->
        user s <> None -> 1 <= EggTracker.count entry <= 100 ->
        JsDate.setHours zone (EggTracker.date entry) 0 0 0 0
          <= JsDate.setHours zone now 0 0 0 0 ->
        requests (snd (saveEggEntry zone now (handleEdit zone now entry s) w))
        = (requests w ++ [UpdateDoc_eggEntries (id entry)])%list).
Proof.
  intros Hfind limit.
  split; [reflexivity|]. split; [|split].
  - intros confirmed Hold. unfold handleDelete. rewrite Hfind. fold limit.
    destruct (Z.ltb_spec (EggTracker.date entry) limit); [done|lia].
  - intros Hin.
    assert (Hrun : handleDelete zone now true (id entry) s w
                   = (let s1 := setIsSubmitting true s in
                      s' <- tryCatch
                        (deleteDoc_eggEntries (id entry) ;;;
                         let s2 := setSuccessMessage (Some Deleted) s1 in
                         ret (match editEntry s with
                              | Some e =>
                                  if String.eqb (id e) (id entry)
                                  then setSelectedDate (Some now)
                                         (setEggCount 0 (setEditEntry None s2))
                                  else s2
                              | None => s2
                              end))
                        (fun error =>
                           ret (setIsSubmitting false
                                  (setErrorMessage (Some (DeleteFailed error)) s1))) ;;
                      ret (setIsSubmitting false s')) w).
    { unfold handleDelete. rewrite Hfind. fold limit.
      destruct (Z.ltb_spec (EggTracker.date entry) limit); [lia|done]. }
    rewrite Hrun. clear Hrun.
    unfold bind, tryCatch, deleteDoc_eggEntries, request, ret. simpl.
    split.
    + destruct (faults w (length (requests w))); done.
    + intros Hreach. rewrite Hreach. done.
  - intros Hin Huser Hcount Hday.
    assert (Hedit : handleEdit zone now entry s
                    = setSelectedDate (Some (EggTracker.date entry))
                        (setEggCount (EggTracker.count entry) (setEditEntry (Some entry) s))).
    { unfold handleEdit. fold limit.
      destruct (Z.ltb_spec (EggTracker.date entry) limit); [lia|done]. }
    rewrite Hedit. unfold saveEggEntry. simpl.
    destruct (user s) as [u|]; [|done].
    destruct (Z.leb_spec (EggTracker.count entry) 0); [lia|].
    destruct (Z.gtb_spec (EggTracker.count entry) 100); [lia|].
    destruct (Z.gtb_spec (JsDate.setHours zone (EggTracker.date entry) 0 0 0 0)
                         (JsDate.setHours zone now 0 0 0 0)) as [Hlater|_]; [lia|].
    unfold bind, tryCatch, updateDoc_eggEntries, request, ret. simpl.
    destruct (faults w (length (requests w))); [done|].
    destruct (Firestore.eggEntries w !! id entry); done.
Qed.

End EditWindow.

(** ** Concrete runs of the tracker form *)

Section TrackerExamples.
Import Firestore Auth EggTracker Spec Scenario.

Lemma fiveEggs_eggEntries :
  Firestore.eggEntries fiveEggs
  = {[ "0" := mkEggDoc (Some noon15March) (Some 5) (Some "uid-1") (Some "Bob")
                       (Some 0) None ]}.
Proof. vm_compute. reflexivity. Qed.

Lemma invalid_input_rejected_locally_witness :
  (exists m, isValidationError m = true
     /\ saveEggEntry zone noon15March (form 0 (Some noon15March)) fiveEggs
        = (Fulfilled (setErrorMessage (Some m) (form 0 (Some noon15March))), fiveEggs))
  /\ (exists m, isValidationError m = true
     /\ saveEggEntry zone noon15March (form 101 (Some noon15March)) fiveEggs
        = (Fulfilled (setErrorMessage (Some m) (form 101 (Some noon15March))), fiveEggs))
  /\ (exists m, isValidationError m = true
     /\ saveEggEntry zone noon15March (form 5 (Some (noon15March + JsDate.msPerDay))) fiveEggs
        = (Fulfilled (setErrorMessage (Some m)
                        (form 5 (Some (noon15March + JsDate.msPerDay)))), fiveEggs)).
Proof.
  repeat split.
  - apply (invalid_input_rejected_locally zone noon15March
             (form 0 (Some noon15March)) bob fiveEggs eq_refl).
    left. simpl. lia.
  - apply (invalid_input_rejected_locally zone noon15March
             (form 101 (Some noon15March)) bob fiveEggs eq_refl).
    right. left. simpl. lia.
  - apply (invalid_input_rejected_locally zone noon15March
             (form 5 (Some (noon15March + JsDate.msPerDay))) bob fiveEggs eq_refl).
    right. right. exists (noon15March + JsDate.msPerDay). split; [reflexivity|].
    vm_compute. reflexivity.
Defined.

Lemma create_checks_day_then_inserts_witness :
  (* a second entry for the same day is refused *)
  fst (saveEggEntry zone noon15March (form 7 (Some (noon15March + 1000))) fiveEggs)
  = Fulfilled (setIsSubmitting false
                 (setErrorMessage (Some DuplicateEntry) (form 7 (Some (noon15March + 1000)))))
  /\ Firestore.eggEntries
       (snd (saveEggEntry zone noon15March (form 7 (Some (noon15March + 1000))) fiveEggs))
     = Firestore.eggEntries fiveEggs
  (* an entry for the day before is added *)
  /\ exists key,
       Firestore.eggEntries fiveEggs !! key = None
       /\ Firestore.eggEntries
            (snd (saveEggEntry zone noon15March
                    (form 7 (Some (noon15March - JsDate.msPerDay))) fiveEggs))
          = <[key := mkEggDoc (Some (noon15March - JsDate.msPerDay)) (Some 7)
                       (Some "uid-1") (Some "Bob") (Some 0) None]>
              (Firestore.eggEntries fiveEggs).
Proof.
  assert (Hreach : reachable fiveEggs) by (intros n; reflexivity).
  assert (Hcount : 1 <= 7 <= 100) by lia.
  assert (Hday1 : JsDate.Day (JsDate.LocalTime zone (noon15March + 1000))
                  <= JsDate.Day (JsDate.LocalTime zone noon15March)) by by_compare.
  assert (Hday2 : JsDate.Day (JsDate.LocalTime zone (noon15March - JsDate.msPerDay))
                  <= JsDate.Day (JsDate.LocalTime zone noon15March)) by by_compare.
  destruct (create_checks_day_then_inserts zone noon15March
              (form 7 (Some (noon15March + 1000))) bob (noon15March + 1000) fiveEggs
              eq_refl eq_refl eq_refl Hcount Hday1 Hreach) as [Hdup _].
  destruct (create_checks_day_then_inserts zone noon15March
              (form 7 (Some (noon15March - JsDate.msPerDay))) bob
              (noon15March - JsDate.msPerDay) fiveEggs
              eq_refl eq_refl eq_refl Hcount Hday2 Hreach) as [_ Hnew].
  split; [|split].
  - apply Hdup. exists "0", (mkEggDoc (Some noon15March) (Some 5) (Some "uid-1")
                               (Some "Bob") (Some 0) None).
    split; [by rewrite fiveEggs_eggEntries, lookup_singleton_eq|].
    split; [reflexivity|]. exists noon15March. split; reflexivity.
  - apply Hdup. exists "0", (mkEggDoc (Some noon15March) (Some 5) (Some "uid-1")
                               (Some "Bob") (Some 0) None).
    split; [by rewrite fiveEggs_eggEntries, lookup_singleton_eq|].
    split; [reflexivity|]. exists noon15March. split; reflexivity.
  - destruct Hnew as (key & Hfresh & _ & Hins & _).
    + intros k d Hk [_ (t & Ht & Hday)].
      rewrite fiveEggs_eggEntries in Hk.
      apply lookup_singleton_Some in Hk as [_ <-]. simpl in Ht.
      inversion Ht. subst t. vm_compute in Hday. discriminate Hday.
    + exists key. split; [exact Hfresh | exact Hins].
Defined.

(** In Europe/Stockholm: the limit of 15 March is 15 February, 28 days
    back; that of 31 August is 31 July, 31 days back; that of 31 March is 3
    March, as February has no 31st, 28 days less one hour back; and that of
    15 November is 15 October, 31 days and one hour back, the clocks having
    been set back in between. *)
Lemma getMaxAllowedDate_in_Stockholm :
  getMaxAllowedDate Stockholm.zone Stockholm.noon15March
  = JsDate.newDate Stockholm.zone 2025 1 15 12 0 0
  /\ getMaxAllowedDate Stockholm.zone Stockholm.noon15March
     = Stockholm.noon15March - 28 * JsDate.msPerDay
  /\ getMaxAllowedDate Stockholm.zone Stockholm.noon31August
     = JsDate.newDate Stockholm.zone 2025 6 31 12 0 0
  /\ getMaxAllowedDate Stockholm.zone Stockholm.noon31August
     = Stockholm.noon31August - 31 * JsDate.msPerDay
  /\ getMaxAllowedDate Stockholm.zone Stockholm.noon31March
     = JsDate.newDate Stockholm.zone 2025 2 3 12 0 0
  /\ getMaxAllowedDate Stockholm.zone Stockholm.noon31March
     = Stockholm.noon31March - 28 * JsDate.msPerDay + JsDate.msPerHour
  /\ Stockholm.noon15November = 1763204400000
  /\ getMaxAllowedDate Stockholm.zone Stockholm.noon15November = 1760522400000
  /\ getMaxAllowedDate Stockholm.zone Stockholm.noon15November
     = Stockholm.noon15November - 31 * JsDate.msPerDay - JsDate.msPerHour.
Proof. repeat split; vm_compute; reflexivity. Qed.

(** C4 does not hold of the code: the limit is not thirty days back. In
    Europe/Stockholm, on 15 March 2025 at noon, an entry of 14 February at
    noon is 29 days old, inside a window of 30 days, and both its edit and
    its delete are refused, nothing being sent to the store; the same on 31
    March at noon for an entry of 2 March at noon. On 31 August 2025 at
    noon an entry of 31 July, 18:00, is more than 30 days old, and its edit
    is taken and its delete sent to the store, which removes the entry. *)
Theorem edit_window_is_not_30_days :
  (within30Days Stockholm.noon15March (EggTracker.date Stockholm.entryFeb14)
   /\ handleEdit Stockholm.zone Stockholm.noon15March Stockholm.entryFeb14 Stockholm.history
      = setErrorMessage (Some EditTooOld) Stockholm.history
   /\ handleDelete Stockholm.zone Stockholm.noon15March true "e1" Stockholm.history
                   Stockholm.farm
      = (Fulfilled (setErrorMessage (Some DeleteTooOld) Stockholm.history), Stockholm.farm))
  /\ (within30Days Stockholm.noon31March (EggTracker.date Stockholm.entryMar2)
      /\ handleEdit Stockholm.zone Stockholm.noon31March Stockholm.entryMar2 Stockholm.history
         = setErrorMessage (Some EditTooOld) Stockholm.history
      /\ handleDelete Stockholm.zone Stockholm.noon31March true "e2" Stockholm.history
                      Stockholm.farm
         = (Fulfilled (setErrorMessage (Some DeleteTooOld) Stockholm.history),
            Stockholm.farm))
  /\ (~ within30Days Stockholm.noon31August (EggTracker.date Stockholm.entryJul31)
      /\ editEntry (handleEdit Stockholm.zone Stockholm.noon31August Stockholm.entryJul31
                               Stockholm.history)
         = Some Stockholm.entryJul31
      /\ requests (snd (handleDelete Stockholm.zone Stockholm.noon31August true "e3"
                                     Stockholm.history Stockholm.farm))
         = [DeleteDoc_eggEntries "e3"]
      /\ Firestore.eggEntries
           (snd (handleDelete Stockholm.zone Stockholm.noon31August true "e3"
                              Stockholm.history Stockholm.farm))
         = delete "e3" (Firestore.eggEntries Stockholm.farm)).
Proof.
  split; [|split]; split.
  - by_compare.
  - split; vm_compute; reflexivity.
  - by_compare.
  - split; vm_compute; reflexivity.
  - by_compare.
  - split; [|split]; vm_compute; reflexivity.
Qed.

End TrackerExamples.

(** ** The helper of firestoreHelpers.ts *)

Section HelperFacts.
Import Firestore FirestoreHelpers.
Variables startOfDay endOfDay : Z -> option Z.

(** On a store that answers, [hasExistingEntryForDate] tells whether the
    user has an entry dated between the two stamps of the day. *)
Lemma hasExistingEntryForDate_spec (owner : string) (day lo hi : Z) (w : World) :
  startOfDay day = Some lo -> endOfDay day = Some hi -> reachable w ->
  exists b,
    fst (hasExistingEntryForDate startOfDay endOfDay owner day w) = Fulfilled b
    /\ (b = true <->
        exists k d, Firestore.eggEntries w !! k = Some d
                    /\ Firestore.userId d = Some owner
                    /\ exists t, Firestore.date d = Some t /\ lo <= t <= hi).
Proof.
  intros Hlo Hhi Hreach. unfold hasExistingEntryForDate. rewrite Hlo, Hhi.
  unfold bind, getDocs_eggEntries, request, ret. rewrite Hreach. simpl.
  set (q := mkEggQuery (Some owner) (Some lo) (Some hi) false).
  eexists. split; [reflexivity|].
  rewrite negb_true_iff, bool_decide_eq_false.
  rewrite (runEggQuery_unordered_nil q _ eq_refl). split.
  - intros Hsome.
    destruct (runEggQuery q (Firestore.eggEntries w)) as [|[k d] l] eqn:Hq.
    + exfalso. apply Hsome. by apply (runEggQuery_unordered_nil q _ eq_refl).
    + assert (Hin : (k, d) ∈ runEggQuery q (Firestore.eggEntries w))
        by (rewrite Hq; left).
      apply (proj1 (runEggQuery_unordered_elem q _ _ _ eq_refl)) in Hin as [Hk Hm].
      exists k, d. split; [done|]. by apply matches_dayQuery.
  - intros (k & d & Hk & Hd) Hnone. apply (Hnone k d Hk). by apply matches_dayQuery.
Qed.

End HelperFacts.

(** ** Arrays and objects *)

Section SortFacts.
Context {A : Type}.

Lemma insertSorted_Permutation (cmp : A -> A -> Z) (x : A) (l : list A) :
  Permutation (JsArray.insertSorted cmp x l) (x :: l).
Proof.
  induction l as [|y l IH]; simpl; [done|].
  destruct (cmp x y >? 0); [|done].
  rewrite IH. apply perm_swap.
Qed.

Lemma sort_Permutation (cmp : A -> A -> Z) (l : list A) :
  Permutation (JsArray.sort cmp l) l.
Proof.
  induction l as [|x l IH]; simpl; [done|].
  unfold JsArray.sort in *. simpl. rewrite insertSorted_Permutation. by rewrite IH.
Qed.

(** Sorting with [(a, b) => key(b) - key(a)] puts the larger keys first. *)
Lemma sort_descending (key : A -> Z) (l : list A) :
  StronglySorted (fun a b => key a >= key b)
                 (JsArray.sort (fun a b => key b - key a) l).
Proof.
  unfold JsArray.sort.
  induction l as [|x l IH]; simpl; [constructor|].
  set (sorted := foldr _ _ _) in *. clearbody sorted.
  induction IH as [|y l' Hl' IHl' Hy]; simpl.
  - repeat constructor.
  - destruct (Z.gtb_spec (key y - key x) 0).
    + constructor; [done|].
      eapply Permutation_Forall; [symmetry; apply insertSorted_Permutation|].
      constructor; [lia|done].
    + constructor; [by constructor|].
      constructor; [lia|].
      eapply Forall_impl; [exact Hy|]. simpl. intros. lia.
Qed.

End SortFacts.

Section ObjectFacts.
Context {V : Type}.
Implicit Types (obj : JsObject.t V) (k : string) (v : V).

Lemma get_set obj k k' v :
  JsObject.get k' (JsObject.set k v obj)
  = if String.eqb k k' then Some v else JsObject.get k' obj.
Proof.
  induction obj as [|[k0 v0] obj IH]; simpl.
  - destruct (String.eqb_spec k k'); done.
  - destruct (String.eqb_spec k0 k) as [->|Hne]; simpl.
    + destruct (String.eqb_spec k k'); done.
    + rewrite IH. destruct (String.eqb_spec k0 k') as [->|]; [|done].
      destruct (String.eqb_spec k k'); [congruence|done].
Qed.

Lemma get_None obj k : JsObject.get k obj = None <-> k ∉ map fst obj.
Proof.
  induction obj as [|[k0 v0] obj IH]; simpl.
  - split; [intros _; apply not_elem_of_nil|done].
  - rewrite not_elem_of_cons. destruct (String.eqb_spec k0 k) as [->|Hne].
    + split; [done|]. intros [? _]. done.
    + rewrite IH. split; [intros; split; congruence|intros [_ ?]; done].
Qed.

Lemma keys_set obj k v :
  map fst (JsObject.set k v obj)
  = if bool_decide (k ∈ map fst obj) then map fst obj else (map fst obj ++ [k])%list.
Proof.
  induction obj as [|[k0 v0] obj IH].
  - done.
  - cbn [JsObject.set map fst].
    destruct (String.eqb_spec k0 k) as [->|Hne]; cbn [map fst].
    + rewrite bool_decide_eq_true_2; [done|left].
    + rewrite IH. case_bool_decide as Hin.
      * rewrite bool_decide_eq_true_2; [done|by right].
      * rewrite bool_decide_eq_false_2; [done|].
        rewrite not_elem_of_cons. split; congruence.
Qed.

Lemma NoDup_keys_set obj k v :
  NoDup (map fst obj) -> NoDup (map fst (JsObject.set k v obj)).
Proof.
  intros Hnd. rewrite keys_set. case_bool_decide; [done|].
  apply NoDup_app. split; [done|]. split.
  - intros x Hx Hk. apply list_elem_of_singleton in Hk. by subst.
  - apply NoDup_singleton.
Qed.

Lemma get_Some_elem obj k v :
  NoDup (map fst obj) -> JsObject.get k obj = Some v <-> (k, v) ∈ obj.
Proof.
  induction obj as [|[k0 v0] obj IH]; simpl; intros Hnd.
  - split; [done|]. intros H. by apply elem_of_nil in H.
  - apply NoDup_cons in Hnd as [Hk0 Hnd].
    rewrite elem_of_cons. destruct (String.eqb_spec k0 k) as [->|Hne].
    + split.
      * intros [= ->]. by left.
      * intros [[= ->]|Hin]; [done|].
        exfalso. apply Hk0. apply list_elem_of_fmap. by exists (k, v).
    + rewrite (IH Hnd). split; [by right|]. intros [[= ? ?]|?]; [congruence|done].
Qed.

Lemma ownProperties_Permutation obj : Permutation (JsObject.ownProperties obj) obj.
Proof.
  unfold JsObject.ownProperties. rewrite sort_Permutation.
  induction obj as [|kv obj IH]; simpl; [done|].
  destruct (JsObject.isIndexKey kv); simpl.
  - by rewrite IH.
  - rewrite <- Permutation_middle. by rewrite IH.
Qed.

Lemma values_Permutation obj : Permutation (JsObject.values obj) (map snd obj).
Proof. unfold JsObject.values. by rewrite ownProperties_Permutation. Qed.

End ObjectFacts.

(** ** Farm statistics *)

Section StatisticsFacts.
Import Firestore App Spec.

Lemma sumCounts_app (l1 l2 : list (string * EggDoc)) :
  sumCounts (l1 ++ l2) = sumCounts l1 + sumCounts l2.
Proof. induction l1 as [|d l1 IH]; simpl; [done|]. rewrite IH. lia. Qed.

Lemma map_to_list_filter_Permutation {A} (P : string * A -> Prop)
      `{!forall x, Decision (P x)} (m : gmap string A) :
  Permutation (map_to_list (filter P m))
              (List.filter (fun kd => bool_decide (P kd)) (map_to_list m)).
Proof.
  apply NoDup_Permutation.
  - apply NoDup_map_to_list.
  - apply NoDup_ListNoDup, List.NoDup_filter, NoDup_ListNoDup, NoDup_map_to_list.
  - intros [k d]. rewrite elem_of_map_to_list, map_lookup_filter_Some.
    rewrite list_elem_of_In, filter_In, <- list_elem_of_In, elem_of_map_to_list.
    by rewrite bool_decide_eq_true.
Qed.

Lemma sumCounts_Permutation (l1 l2 : list (string * EggDoc)) :
  Permutation l1 l2 -> sumCounts l1 = sumCounts l2.
Proof. induction 1; unfold sumCounts in *; simpl; lia. Qed.

Lemma filter_Permutation {A} (f : A -> bool) (l1 l2 : list A) :
  Permutation l1 l2 -> Permutation (List.filter f l1) (List.filter f l2).
Proof.
  induction 1 as [|x l l' _ IH|x y l|l l' l'' _ IH1 _ IH2]; simpl.
  - done.
  - destruct (f x); by rewrite IH.
  - destruct (f x), (f y); try done. apply perm_swap.
  - by rewrite IH1.
Qed.

Lemma entriesOf_snoc (owner : string) (l : list (string * EggDoc)) (doc : string * EggDoc) :
  entriesOf owner (l ++ [doc])
  = (entriesOf owner l
     ++ if bool_decide (Firestore.userId (snd doc) = Some owner) then [doc] else [])%list.
Proof. unfold entriesOf. rewrite List.filter_app. simpl. by destruct (bool_decide _). Qed.

Lemma tallied_nil : tallied [] (0, []).
Proof. split; [done|]. split; [constructor|]. intros owner. done. Qed.

Lemma tallied_step seen acc doc :
  tallied seen acc -> tallied (seen ++ [doc]) (addDocument acc doc).
Proof.
  destruct acc as [total totals]. intros (Htotal & Hnodup & Hrows). simpl in *.
  unfold addDocument. simpl.
  assert (Hsum : total + default 0 (Firestore.count (snd doc)) = sumCounts (seen ++ [doc])).
  { rewrite sumCounts_app. simpl. unfold countOf. lia. }
  destruct (JsString.truthy (Firestore.userId (snd doc))) as [o|] eqn:Ho.
  - assert (Howner : Firestore.userId (snd doc) = Some o /\ o <> "").
    { destruct (Firestore.userId (snd doc)) as [[|c r]|]; simpl in Ho; inversion Ho; done. }
    destruct Howner as [Howner Hne].
    set (fresh_row := mkUserTotal o (JsString.orElse (Firestore.userName (snd doc))
                                                      "Okänd användare") 0).
    set (totals1 := match JsObject.get o totals with
                    | None => JsObject.set o fresh_row totals
                    | Some _ => totals
                    end).
    assert (H1 : exists r, JsObject.get o totals1 = Some r /\ userId r = o
                           /\ totalCount r = sumCounts (entriesOf o seen)
                           /\ NoDup (map fst totals1)
                           /\ forall u, u <> o -> JsObject.get u totals1 = JsObject.get u totals).
    { subst totals1. pose proof (Hrows o) as Hrow.
      destruct (JsObject.get o totals) as [r|] eqn:Hget; cbv iota.
      - exists r. destruct Hrow as (_ & ? & ? & _). auto.
      - exists fresh_row. rewrite get_set, String.eqb_refl.
        rewrite (Hrow Hne). repeat split; [by apply NoDup_keys_set|].
        intros u Hu. rewrite get_set. destruct (String.eqb_spec o u); [congruence|done]. }
    destruct H1 as (r & Hget1 & Hid & Hcount & Hnodup1 & Hother).
    rewrite Hget1. unfold tallied. cbn [fst snd].
    split; [done|]. split; [by apply NoDup_keys_set|].
    intros owner. rewrite get_set, entriesOf_snoc, Howner.
    destruct (String.eqb_spec o owner) as [<-|Hdiff].
    + rewrite bool_decide_eq_true_2 by done. simpl.
      split; [done|]. split; [done|]. split.
      * rewrite sumCounts_app. simpl. unfold countOf. lia.
      * intros Hnil. by apply app_eq_nil in Hnil as [_ ?].
    + rewrite bool_decide_eq_false_2 by congruence. rewrite app_nil_r.
      rewrite (Hother owner) by congruence. apply Hrows.
  - unfold tallied. cbn [fst snd]. split; [done|]. split; [done|].
    intros owner. rewrite entriesOf_snoc.
    destruct (decide (owner = "")) as [->|Hne].
    + pose proof (Hrows "") as Hrow. destruct (JsObject.get "" totals); [|done].
      by destruct Hrow.
    + rewrite bool_decide_eq_false_2, app_nil_r; [apply Hrows|].
      intros Hu. rewrite Hu in Ho. simpl in Ho. by destruct owner.
Qed.

Lemma tallied_fold (docs : list (string * EggDoc)) :
  tallied docs (fold_left addDocument docs (0, [])).
Proof.
  induction docs as [|doc docs IH] using rev_ind; [apply tallied_nil|].
  rewrite fold_left_app. simpl. by apply tallied_step.
Qed.

Lemma rows_of_tallied seen total totals :
  tallied seen (total, totals) ->
  let userTotals := JsArray.sort (fun a b => totalCount b - totalCount a)
                                 (JsObject.values totals) in
  (forall row, row ∈ userTotals <-> JsObject.get (userId row) totals = Some row)
  /\ NoDup (map userId userTotals).
Proof.
  intros (_ & Hnodup & Hrows) userTotals. simpl in *.
  assert (Hkey : forall k row, (k, row) ∈ totals -> userId row = k).
  { intros k row Hin. apply get_Some_elem in Hin; [|done].
    pose proof (Hrows k) as Hrow. rewrite Hin in Hrow. by destruct Hrow as (_ & ? & _). }
  assert (Hperm : Permutation userTotals (map snd totals)).
  { subst userTotals. by rewrite sort_Permutation, values_Permutation. }
  split.
  - intros row. rewrite Hperm. rewrite list_elem_of_fmap. split.
    + intros ([k row'] & -> & Hin). simpl.
      rewrite (Hkey _ _ Hin). by apply get_Some_elem.
    + intros Hget. exists (userId row, row). split; [done|]. by apply get_Some_elem.
  - rewrite Hperm. rewrite map_map.
    rewrite (map_ext_in (fun x => userId (snd x)) fst); [done|].
    intros [k row] Hin. simpl. apply Hkey. by apply list_elem_of_In.
Qed.

(** For every snapshot the listener computes: as farm total the sum of the
    counts of its entries; one row per owner, with the sum of the counts of
    that owner's entries; and the rows ordered by decreasing total. *)
Lemma onSnapshot_tallies (docs : list (string * EggDoc)) :
  let totalEggs := fst (onSnapshot docs) in
  let userTotals := snd (onSnapshot docs) in
  totalEggs = sumCounts docs
  /\ (forall owner, owner <> "" ->
        (exists row, row ∈ userTotals /\ userId row = owner)
        <-> entriesOf owner docs <> [])
  /\ NoDup (map userId userTotals)
  /\ (forall row, row ∈ userTotals ->
        totalCount row = sumCounts (entriesOf (userId row) docs))
  /\ StronglySorted (fun a b => totalCount a >= totalCount b) userTotals.
Proof.
  intros totalEggs userTotals. subst totalEggs userTotals. unfold onSnapshot.
  case_bool_decide as Hdocs.
  { subst docs. simpl. repeat split; try done; try constructor.
    - intros (row & Hin & _). by apply elem_of_nil in Hin.
    - intros row Hin. by apply elem_of_nil in Hin. }
  pose proof (tallied_fold docs) as Hinv.
  destruct (fold_left addDocument docs (0, [])) as [total totals].
  pose proof (rows_of_tallied docs total totals Hinv) as [Hrow Hnodup].
  destruct Hinv as (Htotal & _ & Hrows). simpl in *.
  split; [done|]. split; [|split; [done|split; [|apply sort_descending]]].
  - intros owner Hne. pose proof (Hrows owner) as Ho. split.
    + intros (row & Hin & <-). apply Hrow in Hin.
      rewrite Hin in Ho. by destruct Ho as (_ & _ & _ & ?).
    + intros Hsome. destruct (JsObject.get owner totals) as [row|] eqn:Hget.
      * destruct Ho as (_ & Hid & _). exists row. split; [|done].
        apply Hrow. by rewrite Hid.
      * by specialize (Ho Hne).
  - intros row Hin. apply Hrow in Hin. pose proof (Hrows (userId row)) as Ho.
    rewrite Hin in Ho. by destruct Ho as (_ & _ & ? & _).
Qed.

End StatisticsFacts.

(** ** The query of the statistics listener and the rounding of shares *)

Section WindowFacts.
Import Firestore App JsDate.
Variable tza : Z.

Lemma newDate_year (y m d h mi sec : Z) :
  ~ (0 <= y <= 99) ->
  newDate tza y m d h mi sec = UTC tza (MakeDate (MakeDay y m d) (MakeTime h mi sec 0)).
Proof.
  intros Hy. unfold newDate.
  destruct (Z.leb_spec 0 y), (Z.leb_spec y 99); simpl; first [lia | reflexivity].
Qed.

(** The first bound is the first millisecond of the year. *)
Lemma startOfYear_eq (y : Z) :
  ~ (0 <= y <= 99) ->
  newDate tza y 0 1 0 0 0 = DayFromYear y * msPerDay - tza.
Proof.
  intros Hy. rewrite newDate_year by done.
  unfold UTC, MakeDate, MakeDay, MakeTime. cbn [LocalTZA fixedOffset].
  change (0 / 12) with 0. change (0 mod 12) with 0.
  change (monthStart (DaysInYear (y + 0) - 365) 0) with 0.
  replace (y + 0) with y by lia. unfold msPerDay. lia.
Qed.

(** The second bound is the start of the last second of the year: 999
    milliseconds before the year ends. *)
Lemma endOfYear_eq (y : Z) :
  ~ (0 <= y <= 99) ->
  newDate tza y 11 31 23 59 59 = DayFromYear (y + 1) * msPerDay - 1000 - tza.
Proof.
  intros Hy. rewrite newDate_year by done. rewrite DayFromYear_succ.
  unfold UTC, MakeDate, MakeDay, MakeTime. cbn [LocalTZA fixedOffset].
  change (11 / 12) with 0. change (11 mod 12) with 11.
  change (monthStart (DaysInYear (y + 0) - 365) 11) with (334 + (DaysInYear (y + 0) - 365)).
  replace (y + 0) with y by lia.
  unfold msPerDay, msPerHour, msPerMinute, msPerSecond. lia.
Qed.

(** The snapshot of the listener holds the entries dated between the two
    bounds. *)
Lemma eggEntriesQuery_elem (now : Z) (m : gmap string EggDoc) (k : string) (d : EggDoc) :
  (k, d) ∈ runEggQuery (eggEntriesQuery tza now) m
  <-> m !! k = Some d
      /\ exists t, date d = Some t
           /\ newDate tza (getFullYear tza now) 0 1 0 0 0 <= t
              <= newDate tza (getFullYear tza now) 11 31 23 59 59.
Proof.
  unfold runEggQuery, eggEntriesQuery. simpl.
  unfold sortByDateDesc. rewrite sort_Permutation.
  rewrite elem_of_map_to_list, map_lookup_filter_Some. simpl.
  unfold matchesEggQuery. simpl.
  split; intros [Hk Hm]; (split; [done|]).
  - destruct (date d) as [t|]; [|done].
    apply andb_true_iff in Hm as [Hm _]. apply andb_true_iff in Hm as [Hlo Hhi].
    exists t. split; [done|]. lia.
  - destruct Hm as (t & -> & Hlo & Hhi).
    rewrite bool_decide_eq_true_2 by eauto.
    rewrite !andb_true_iff. repeat split; lia.
Qed.

(** The same in terms of the calendar: the snapshot holds the entries
    whose date falls in the year of [now] and is still in that year 999
    milliseconds later. *)
Lemma year_window_elem (now : Z) (m : gmap string EggDoc) (k : string) (d : EggDoc) :
  ~ (0 <= getFullYear tza now <= 99) ->
  (k, d) ∈ runEggQuery (eggEntriesQuery tza now) m
  <-> m !! k = Some d
      /\ exists t, date d = Some t
           /\ getFullYear tza t = getFullYear tza now
           /\ getFullYear tza (t + 999) = getFullYear tza now.
Proof.
  intros Hy. rewrite eggEntriesQuery_elem.
  rewrite startOfYear_eq, endOfYear_eq by done.
  set (y := getFullYear tza now).
  assert (Hyear : forall t,
             DayFromYear y * msPerDay - tza <= t <= DayFromYear (y + 1) * msPerDay - 1000 - tza
             <-> getFullYear tza t = y /\ getFullYear tza (t + 999) = y).
  { intros t. unfold getFullYear, LocalTime. cbn [LocalTZA fixedOffset]. split.
    - intros Ht. split; apply YearFromTime_unique; unfold Day, msPerDay in *;
        split; Z.div_mod_to_equations; lia.
    - intros [H1 H2].
      pose proof (YearFromTime_spec (t + tza)) as S1.
      pose proof (YearFromTime_spec (t + 999 + tza)) as S2.
      rewrite H1 in S1. rewrite H2 in S2.
      unfold Day, msPerDay in *. split; Z.div_mod_to_equations; lia. }
  split; intros [Hk (t & Ht & Hw)]; (split; [done|]); exists t; (split; [done|]);
    by apply Hyear.
Qed.

(** Where no entry is dated in the last 999 milliseconds of the year, the
    listener shows the statistics of the entries of the year: their sum as
    the farm total, one row per owner with the sum of that owner's entries,
    the rows ordered by decreasing total. *)
Lemma statistics_of_year (now : Z) (m : gmap string EggDoc) :
  ~ (0 <= getFullYear tza now <= 99) ->
  (forall k d t, m !! k = Some d -> date d = Some t ->
                 getFullYear tza t = getFullYear tza now ->
                 getFullYear tza (t + 999) = getFullYear tza now) ->
  let docs := Shape.entriesOfYear tza now m in
  let totalEggs := fst (statistics tza now m) in
  let userTotals := snd (statistics tza now m) in
  totalEggs = Spec.sumCounts docs
  /\ (forall owner, owner <> "" ->
        (exists row, row ∈ userTotals /\ userId row = owner)
        <-> Spec.entriesOf owner docs <> [])
  /\ NoDup (map userId userTotals)
  /\ (forall row, row ∈ userTotals ->
        totalCount row = Spec.sumCounts (Spec.entriesOf (userId row) docs))
  /\ StronglySorted (fun a b => totalCount a >= totalCount b) userTotals.
Proof.
  intros Hy Hfree docs totalEggs userTotals. subst totalEggs userTotals.
  unfold statistics.
  set (snapshot := runEggQuery (eggEntriesQuery tza now) m).
  assert (Hperm : Permutation snapshot docs).
  { apply NoDup_Permutation.
    - apply (NoDup_fmap_1 fst). subst snapshot. unfold runEggQuery. simpl.
      unfold sortByDateDesc. rewrite sort_Permutation. apply NoDup_fst_map_to_list.
    - apply NoDup_ListNoDup, List.NoDup_filter, NoDup_ListNoDup, NoDup_map_to_list.
    - intros [k d]. subst snapshot docs. rewrite year_window_elem by done.
      unfold Shape.entriesOfYear.
      rewrite list_elem_of_In, filter_In, <- list_elem_of_In, elem_of_map_to_list.
      simpl. split.
      + intros [Hk (t & Ht & H1 & _)]. split; [done|]. rewrite Ht. by apply Z.eqb_eq.
      + intros [Hk Hd]. split; [done|].
        destruct (date d) as [t|] eqn:Ht; [|done]. apply Z.eqb_eq in Hd.
        exists t. split; [done|]. split; [done|]. by apply (Hfree k d). }
  destruct (onSnapshot_tallies snapshot) as (Htotal & Hrows & Hnodup & Hsum & Hsorted).
  assert (Hown : forall owner,
             Permutation (Spec.entriesOf owner snapshot) (Spec.entriesOf owner docs)).
  { intros owner. by apply filter_Permutation. }
  split; [by rewrite Htotal; apply sumCounts_Permutation|].
  split; [|split; [done|split; [|done]]].
  - intros owner Hne. rewrite (Hrows owner Hne). split; intros Hsome Hnil; apply Hsome.
    + pose proof (Hown owner) as Hp. rewrite Hnil in Hp. by apply Permutation_nil_r in Hp.
    + pose proof (Hown owner) as Hp. rewrite Hnil in Hp. symmetry in Hp.
      by apply Permutation_nil_r in Hp.
  - intros row Hin. rewrite (Hsum row Hin). by apply sumCounts_Permutation.
Qed.

End WindowFacts.

Section RoundFacts.
Import JsNumber.

(** [Math.round] of a finite number with a fractional part, [n / 2^k]: the
    result [r] is the integer with [r - 1/2 <= n / 2^k < r + 1/2]. *)
Lemma Math_round_nearest (x : float) (s : bool) (m : positive) (e r : Z) :
  Prim2SF x = S754_finite s m e -> e < 0 -> Math_round x = Some r ->
  let n := if s then Z.neg m else Z.pos m in
  (2 * r - 1) * 2 ^ (- e) <= 2 * n < (2 * r + 1) * 2 ^ (- e).
Proof.
  intros Hx He Hr n. unfold Math_round in Hr. rewrite Hx in Hr. fold n in Hr.
  destruct (Z.leb_spec 0 e); [lia|]. injection Hr as <-.
  replace (1 - e) with (Z.succ (- e)) by lia.
  rewrite Z.pow_succ_r by lia.
  assert (Hpos : 0 < 2 ^ (- e)) by (apply Z.pow_pos_nonneg; lia).
  set (p := 2 ^ (- e)) in *.
  pose proof (Z.div_mod (2 * n + p) (2 * p) ltac:(lia)) as Hdiv.
  pose proof (Z.mod_pos_bound (2 * n + p) (2 * p) ltac:(lia)) as Hmod.
  nia.
Qed.

End RoundFacts.

(** ** The statistics at the end of the year *)

Section YearExamples.
Import Firestore App Spec.

(** C7 does not hold of the code: the window of the query ends with the
    start of the last second of the year, not with the year. In
    Europe/Stockholm, for a listener set up on 31 December 2025 at noon, an
    entry of 4 eggs dated that day at 23:59:59.500 is dated within the
    current calendar year 2025, so that the sum over the entries of the
    year is 4; the listener shows the farm total 0 and no row, and so does
    a listener set up at the instant of the entry. The same entry dated
    half a second earlier is counted. The three entries of 15
    March with counts 3, 5 and 2 give the farm total 10, the ranking 5, 3,
    2 and the shares 50, 30 and 20. *)
Theorem farm_statistics_miss_the_last_second :
  (JsDate.getFullYear Stockholm.zone Stockholm.lastHalfSecond = 2025
   /\ JsDate.getFullYear Stockholm.zone Stockholm.noon31December = 2025
   /\ sumCounts (Shape.entriesOfYear Stockholm.zone Stockholm.noon31December
                                     (Stockholm.oneEntry Stockholm.lastHalfSecond))
      = 4
   /\ statistics Stockholm.zone Stockholm.noon31December
                 (Stockholm.oneEntry Stockholm.lastHalfSecond)
      = (0, [])
   /\ statistics Stockholm.zone Stockholm.lastHalfSecond
                 (Stockholm.oneEntry Stockholm.lastHalfSecond)
      = (0, []))
  /\ statistics Stockholm.zone Stockholm.noon31December
                (Stockholm.oneEntry (Stockholm.lastHalfSecond - 500))
     = (4, [mkUserTotal "uid-1" "Bob" 4])
  /\ statistics Stockholm.zone Stockholm.noon15March Stockholm.threeOwners
     = (10, [mkUserTotal "uid-b" "Bob" 5; mkUserTotal "uid-a" "Anna" 3;
             mkUserTotal "uid-c" "Cia" 2])
  /\ map (share 10)
         (snd (statistics Stockholm.zone Stockholm.noon15March Stockholm.threeOwners))
     = [Some 50; Some 30; Some 20].
Proof. repeat split; vm_compute; reflexivity. Qed.

End YearExamples.

(** ** The admin panel *)

Section PanelFacts.
Import Firestore Auth AdminPanel Spec.
Variable env : option string.

Lemma panel_isAdmin_true (u : User) (e : string) :
  Auth.email u = Some e -> e <> "" -> e ∈ ADMIN_EMAILS env ->
  isAdmin env (Some u) = true.
Proof.
  intros Hu He Hin. unfold isAdmin. rewrite (emailOf_Some u e Hu He).
  by apply bool_decide_eq_true.
Qed.

Lemma deleteAll_reachable (keys : list string) (w : World) :
  reachable w ->
  exists w', deleteAll keys w = (Fulfilled tt, w')
             /\ Firestore.allowedUsers w' = foldr delete (Firestore.allowedUsers w) (rev keys)
             /\ Firestore.eggEntries w' = Firestore.eggEntries w
             /\ reachable w'.
Proof.
  revert w. induction keys as [|k keys IH]; intros w Hreach.
  - exists w. done.
  - simpl. unfold deleteDoc_allowedUsers, request. rewrite Hreach.
    set (w1 := withAllowedUsers _ _).
    destruct (IH w1) as (w' & Hrun & Hmap & Heggs & Hreach'); [done|].
    exists w'. rewrite Hrun. split; [done|]. split; [|done].
    rewrite Hmap. simpl. by rewrite foldr_app.
Qed.

(** C8. With an admin signed in, the dialog confirmed and a store that
    answers: when the owner has no entry the message is the no-data one and
    the store receives the query only; when the owner has entries, one batch
    deletes exactly the entries whose [userId] is the owner, the message
    gives their number, and every other entry stays as it was. *)
Theorem clearUserData_wipes_owner_only (s : State) (u : User) (e : string)
        (owner name : string) (w : World) :
  user s = Some u -> Auth.email u = Some e -> e <> "" -> e ∈ ADMIN_EMAILS env ->
  reachable w ->
  let r := clearUserData env true owner name s w in
  let query := GetDocs_eggEntries (mkEggQuery (Some owner) None None false) in
  let owned := filter (fun kd : string * EggDoc => Firestore.userId (snd kd) = Some owner)
                      (Firestore.eggEntries w) in
  (owned = ∅ ->
     fst r = Fulfilled (setIsSubmitting false (setMessage (Some NoEggData) s))
     /\ Firestore.eggEntries (snd r) = Firestore.eggEntries w
     /\ requests (snd r) = (requests w ++ [query])%list)
  /\ (owned <> ∅ ->
     fst r = Fulfilled (setIsSubmitting false
                          (setMessage (Some (DataCleared name (size owned))) s))
     /\ Firestore.eggEntries (snd r)
        = filter (fun kd : string * EggDoc => Firestore.userId (snd kd) <> Some owner)
                 (Firestore.eggEntries w)
     /\ (forall k d, Firestore.eggEntries w !! k = Some d -> Firestore.userId d <> Some owner ->
           Firestore.eggEntries (snd r) !! k = Some d)
     /\ exists keys,
          requests (snd r) = (requests w ++ [query; BatchDelete_eggEntries keys])%list
          /\ length keys = size owned
          /\ forall k, k ∈ keys <-> is_Some (owned !! k)).
Proof.
  intros Hs Hu He Hadm Hreach r query owned.
  set (q := mkEggQuery (Some owner) None None false) in *.
  assert (Hhits : runEggQuery q (Firestore.eggEntries w) = map_to_list owned).
  { unfold runEggQuery. simpl. subst owned. f_equal.
    apply map_filter_ext. intros k d _. simpl.
    unfold q. by rewrite matches_ownerQuery. }
  assert (Hr : r =
    match map_to_list owned with
    | [] => (Fulfilled (setIsSubmitting false (setMessage (Some NoEggData) s)),
             logRequest query w)
    | hits =>
        (Fulfilled (setIsSubmitting false
                      (setMessage (Some (DataCleared name (length hits))) s)),
         withEggEntries (foldr delete (Firestore.eggEntries w) (map fst hits))
                        (logRequest (BatchDelete_eggEntries (map fst hits))
                                    (logRequest query w)))
    end).
  { subst r. unfold clearUserData. rewrite Hs.
    rewrite (panel_isAdmin_true u e Hu He Hadm).
    rewrite bool_decide_eq_true_2 by eauto. simpl.
    unfold bind, tryCatch, getDocs_eggEntries, batchDelete_eggEntries, request, ret.
    rewrite Hreach. simpl. fold q. rewrite Hhits.
    destruct (map_to_list owned) as [|hit hits] eqn:Hl.
    - rewrite bool_decide_eq_true_2 by done. done.
    - rewrite bool_decide_eq_false_2 by done. simpl. rewrite Hreach. done. }
  rewrite Hr. clear Hr r. split.
  - intros Hnone. rewrite Hnone, map_to_list_empty. done.
  - intros Hsome.
    assert (Hne : map_to_list owned <> []) by (by rewrite map_to_list_empty_iff).
    destruct (map_to_list owned) as [|hit hits] eqn:Hl; [done|]. rewrite <- Hl. clear Hne.
    assert (Hkeys : forall k, k ∈ map fst (map_to_list owned) <-> is_Some (owned !! k)).
    { intros k. rewrite list_elem_of_fmap. split.
      - intros ([k' d] & -> & Hin). apply elem_of_map_to_list in Hin. eauto.
      - intros [d Hd]. exists (k, d). split; [done|]. by apply elem_of_map_to_list. }
    assert (Hafter : foldr delete (Firestore.eggEntries w) (map fst (map_to_list owned))
                     = filter (fun kd : string * EggDoc => Firestore.userId (snd kd) <> Some owner)
                              (Firestore.eggEntries w)).
    { apply map_eq. intros k.
      destruct (decide (k ∈ map fst (map_to_list owned))) as [Hin|Hin].
      - rewrite lookup_foldr_delete by done. symmetry.
        apply Hkeys in Hin as [d Hd]. subst owned.
        apply map_lookup_filter_Some in Hd as [Hk Ho]. simpl in Ho.
        apply map_lookup_filter_None. right. intros d' Hk'. simpl.
        rewrite Hk in Hk'. inversion Hk'. subst. tauto.
      - rewrite lookup_foldr_delete_not_elem_of by done.
        destruct (Firestore.eggEntries w !! k) as [d|] eqn:Hk.
        + symmetry. apply map_lookup_filter_Some. split; [done|]. simpl.
          intros Ho. apply Hin, Hkeys. exists d. subst owned.
          by apply map_lookup_filter_Some.
        + symmetry. apply map_lookup_filter_None. left. done. }
    simpl. rewrite length_map_to_list. split; [done|]. split; [exact Hafter|]. split.
    + intros k d Hk Ho. rewrite Hafter. by apply map_lookup_filter_Some.
    + exists (map fst (map_to_list owned)). split; [by rewrite <- app_assoc|].
      split; [by rewrite length_map, length_map_to_list|exact Hkeys].
Qed.

(** [removeUser] on a store that answers: every document whose field
    [email] is the lower-cased address is deleted. *)
Lemma removeUser_reachable (s : State) (userEmail : string) (w : World) :
  reachable w ->
  Firestore.allowedUsers (snd (removeUser env true userEmail s w))
  = if bool_decide (is_Some (user s)) && isAdmin env (user s)
    then foldr delete (Firestore.allowedUsers w)
           (rev (map fst (map_to_list
                   (filter (fun kd => au_email (snd kd)
                                      = Some (JsString.toLowerCase userEmail))
                           (Firestore.allowedUsers w)))))
    else Firestore.allowedUsers w.
Proof.
  intros Hreach. unfold removeUser.
  destruct (bool_decide (is_Some (user s)) && isAdmin env (user s)); simpl; [|done].
  unfold bind, tryCatch, getDocs_allowedUsers_whereEmail, request, ret.
  rewrite Hreach. simpl.
  destruct (map_to_list _) as [|hit hits] eqn:Hhits.
  - rewrite bool_decide_eq_true_2 by done. done.
  - rewrite bool_decide_eq_false_2 by done.
    destruct (deleteAll_reachable (map fst (hit :: hits))
                (logRequest (GetDocs_allowedUsers_whereEmail
                               (JsString.toLowerCase userEmail)) w))
      as (w' & Hrun & Hmap & _); [done|].
    rewrite Hrun. simpl. exact Hmap.
Qed.

(** C9. For an address that the allow-list does not hold, neither as the id
    of a document nor in a field [email], adding it and then removing it
    (same session, dialog confirmed, store answering) leaves the collection
    as it was before. [userEmail] is the address handed to [removeUser]: the
    one typed in, up to the case of its letters and the blanks around it that
    [addUser] strips, as the row of the added user shows it. When the
    addition passes the checks of [addUser], the document is really added in
    between. *)
Theorem add_then_remove_restores (s1 s2 : State) (userEmail : string) (w : World) :
  reachable w ->
  user s2 = user s1 ->
  let emailId := JsString.toLowerCase (JsString.trim (newUserEmail s1)) in
  JsString.toLowerCase userEmail = emailId ->
  ~ listed w emailId ->
  let w1 := snd (addUser env s1 w) in
  let w2 := snd (removeUser env true userEmail s2 w1) in
  Firestore.allowedUsers w2 = Firestore.allowedUsers w
  /\ (isAdmin env (user s1) = true ->
      JsString.emailRegex_test (JsString.trim (newUserEmail s1)) = true ->
      List.find (fun row => String.eqb (JsString.toLowerCase (email row)) emailId)
                (AdminPanel.allowedUsers s1) = None ->
      listedByKey w1 emailId /\ listedByField w1 emailId).
Proof.
  intros Hreach Huser emailId Hremove Hnew w1 w2.
  assert (Hkey : Firestore.allowedUsers w !! emailId = None).
  { destruct (Firestore.allowedUsers w !! emailId) eqn:Hk; [|done].
    exfalso. apply Hnew. left. unfold listedByKey. eauto. }
  assert (Hfield : forall k d, Firestore.allowedUsers w !! k = Some d ->
                               au_email d <> Some emailId).
  { intros k d Hk Hd. apply Hnew. right. by exists k, d. }
  (* the state after [addUser]: unchanged, or with the new document *)
  set (doc := mkAllowedUserDoc (Some emailId)
                (Some (JsString.beforeFirst "@" (JsString.trim (newUserEmail s1))))
                (Some (serverTime w))
                (match user s1 with Some u => Auth.email u | None => None end)).
  assert (Hadd :
    (Firestore.allowedUsers w1 = Firestore.allowedUsers w /\ reachable w1
       /\ (isAdmin env (user s1) = true ->
           JsString.emailRegex_test (JsString.trim (newUserEmail s1)) = true ->
           List.find (fun row => String.eqb (JsString.toLowerCase (email row)) emailId)
                     (AdminPanel.allowedUsers s1) = None -> False))
    \/ (Firestore.allowedUsers w1 = <[emailId := doc]> (Firestore.allowedUsers w)
        /\ reachable w1 /\ isAdmin env (user s1) = true /\ is_Some (user s1))).
  { subst w1. unfold addUser.
    destruct (user s1) as [u|] eqn:Hu1; [|left; simpl; split; [done|split; [done|]];
                                           intros; discriminate].
    rewrite bool_decide_eq_true_2 by eauto. simpl.
    destruct (isAdmin env (Some u)) eqn:Hadm;
      [|left; simpl; split; [done|split; [done|]]; intros; discriminate].
    simpl.
    destruct (String.eqb _ "") eqn:Hempty.
    { left. simpl. split; [done|split; [done|]]. intros _ Hvalid _.
      apply String.eqb_eq in Hempty. rewrite Hempty in Hvalid. discriminate. }
    destruct (JsString.emailRegex_test _) eqn:Hvalid;
      [|left; simpl; split; [done|split; [done|]]; intros; discriminate].
    simpl. fold emailId.
    destruct (List.find _ (AdminPanel.allowedUsers s1)) eqn:Hfind.
    { left. simpl. split; [done|split; [done|]]. intros; discriminate. }
    right. unfold bind, tryCatch, setDoc_allowedUsers, request, ret.
    rewrite Hreach. simpl. split; [done|]. split; [done|]. eauto. }
  destruct Hadd as [(Hsame & Hreach1 & Hnot)|(Hins & Hreach1 & Hadm & Hsome)].
  - split; [|intros; exfalso; by apply Hnot].
    subst w2. rewrite (removeUser_reachable s2 userEmail w1 Hreach1), Hsame, Hremove.
    destruct (_ && _); [|done].
    rewrite (proj2 (whereEmail_nil (Firestore.allowedUsers w) emailId) Hfield). done.
  - split.
    + subst w2. rewrite (removeUser_reachable s2 userEmail w1 Hreach1), Hins, Hremove.
      rewrite Huser, Hadm. rewrite bool_decide_eq_true_2 by done. simpl.
      rewrite map_filter_insert_True by done.
      assert (Hempty : filter (fun kd : string * AllowedUserDoc =>
                                 au_email (snd kd) = Some emailId)
                              (Firestore.allowedUsers w) = ∅).
      { apply map_to_list_empty_iff. by apply whereEmail_nil. }
      rewrite Hempty, insert_empty, map_to_list_singleton. simpl.
      by apply delete_insert_id.
    + intros _ _ _. split.
      * unfold listedByKey. rewrite Hins, lookup_insert_eq. eauto.
      * exists emailId, doc. by rewrite Hins, lookup_insert_eq.
Qed.

End PanelFacts.

(** ** Addresses *)

Section AddressFacts.
Import JsString.

Lemma trim_noWhiteSpace (s : string) : noWhiteSpace s = true -> trim s = s.
Proof.
  intros Hs. unfold trim.
  assert (Hstart : trimStart s = s).
  { destruct s as [|c r]; simpl in *; [done|].
    apply andb_true_iff in Hs as [Hc _]. apply negb_true_iff in Hc. by rewrite Hc. }
  rewrite Hstart. induction s as [|c r IH]; simpl in *; [done|].
  apply andb_true_iff in Hs as [Hc Hr]. apply negb_true_iff in Hc.
  rewrite IH; [|done|].
  - destruct r; [by rewrite Hc|done].
  - destruct r as [|c' r']; simpl in *; [done|].
    apply andb_true_iff in Hr as [Hc' _]. apply negb_true_iff in Hc'. by rewrite Hc'.
Qed.

Lemma allAtom_noWhiteSpace (s : string) : allAtom s = true -> noWhiteSpace s = true.
Proof.
  induction s as [|c r IH]; simpl; [done|].
  unfold atomChar. rewrite !andb_true_iff. intros [[Hc _] Hr]. auto.
Qed.

Lemma localPart_noWhiteSpace (seen : bool) (s : string) :
  localPart seen s = true -> noWhiteSpace s = true.
Proof.
  revert seen. induction s as [|c r IH]; simpl; intros seen; [done|].
  destruct (Ascii.eqb_spec c "@") as [->|_].
  - unfold domainPart. intros H.
    apply andb_true_iff in H as [_ H]. apply andb_true_iff in H as [Hr _].
    simpl. by apply allAtom_noWhiteSpace.
  - destruct (isWhiteSpace c); [done|]. simpl. apply IH.
Qed.

(** An address that passes the pattern as it stands has no blanks around
    it: [trim] leaves it as it is. *)
Lemma valid_address_is_trimmed (e : string) : emailRegex_test e = true -> trim e = e.
Proof. intros H. by apply trim_noWhiteSpace, (localPart_noWhiteSpace false). Qed.

End AddressFacts.

(** ** Concrete runs of the admin panel *)

Section PanelExamples.
Import Firestore Auth AdminPanel Spec Scenario.

Lemma adminEnv_admin : "admin@example.com" ∈ ADMIN_EMAILS adminEnv.
Proof. by_compute. Qed.

Lemma clearUserData_wipes_owner_only_witness :
  (* an owner without entries *)
  fst (clearUserData adminEnv true "uid-9" "Nobody" (panel "") twoOwners)
  = Fulfilled (setIsSubmitting false (setMessage (Some NoEggData) (panel "")))
  /\ Firestore.eggEntries
       (snd (clearUserData adminEnv true "uid-9" "Nobody" (panel "") twoOwners))
     = Firestore.eggEntries twoOwners
  (* Bob's two entries go, Anna's entry stays *)
  /\ fst (clearUserData adminEnv true "uid-1" "Bob" (panel "") twoOwners)
     = Fulfilled (setIsSubmitting false (setMessage (Some (DataCleared "Bob" 2)) (panel "")))
  /\ Firestore.eggEntries
       (snd (clearUserData adminEnv true "uid-1" "Bob" (panel "") twoOwners)) !! "e3"
     = Some (mkEggDoc (Some noon15March) (Some 5) (Some "uid-2") (Some "Anna") (Some 0) None).
Proof.
  assert (Hreach : reachable twoOwners) by (intros n; reflexivity).
  assert (Hne : "admin@example.com" <> "") by discriminate.
  destruct (clearUserData_wipes_owner_only adminEnv (panel "") admin "admin@example.com"
              "uid-9" "Nobody" twoOwners eq_refl eq_refl Hne adminEnv_admin Hreach)
    as [Hnone _].
  destruct (clearUserData_wipes_owner_only adminEnv (panel "") admin "admin@example.com"
              "uid-1" "Bob" twoOwners eq_refl eq_refl Hne adminEnv_admin Hreach)
    as [_ Hsome].
  destruct Hnone as (Hm & He & _); [vm_compute; reflexivity|].
  destruct Hsome as (Hm' & _ & Hkeep & _).
  { intros Hempty.
    assert (Hin : filter (fun kd : string * EggDoc => Firestore.userId (snd kd) = Some "uid-1")
                         (Firestore.eggEntries twoOwners) !! "e1" = None)
      by (by rewrite Hempty).
    vm_compute in Hin. discriminate Hin. }
  split; [exact Hm|]. split; [exact He|]. split.
  - rewrite Hm'. vm_compute. reflexivity.
  - apply Hkeep; [vm_compute; reflexivity|discriminate].
Defined.

Lemma add_then_remove_restores_witness :
  (* typed with capitals, removed under the same spelling *)
  Firestore.allowedUsers
    (snd (removeUser adminEnv true "Bob@Example.com" (panel "")
            (snd (addUser adminEnv (panel "Bob@Example.com") (online ∅ ∅ 0)))))
  = Firestore.allowedUsers (online ∅ ∅ 0)
  /\ listedByKey (snd (addUser adminEnv (panel "Bob@Example.com") (online ∅ ∅ 0)))
                 "bob@example.com".
Proof.
  assert (Hnew : ~ listed (online ∅ ∅ 0) "bob@example.com").
  { intros [[d Hd]|(k & d & Hk & _)]; simpl in *.
    - rewrite lookup_empty in Hd. discriminate.
    - rewrite lookup_empty in Hk. discriminate. }
  destruct (add_then_remove_restores adminEnv (panel "Bob@Example.com") (panel "")
              "Bob@Example.com" (online ∅ ∅ 0))
    as [Hback Hadded].
  - intros n. reflexivity.
  - reflexivity.
  - reflexivity.
  - exact Hnew.
  - split; [exact Hback|]. apply Hadded; vm_compute; reflexivity.
Defined.

End PanelExamples.

(** ** A removal the store refuses *)

Section RemoveFailure.
Import Firestore Auth AdminPanel Spec.
Variable env : option string.

(** When the store refuses the query of [removeUser] for want of
    permission, the text of the error, "Missing or insufficient
    permissions.", does not contain the code "permission-denied" the handler
    looks for, and the panel shows 'Kunde inte ta bort användare: ...'. *)
Lemma removeUser_permission_denied (userEmail : string) (s : State) (w : World) :
  bool_decide (is_Some (user s)) && isAdmin env (user s) = true ->
  faults w (length (requests w)) = Some permission_denied ->
  fst (removeUser env true userEmail s w)
  = Fulfilled (setIsSubmitting false
                 (setMessage (Some (RemoveFailed permission_denied))
                             (setIsSubmitting true s))).
Proof.
  intros Hadm Hfault. unfold removeUser. rewrite Hadm. simpl.
  unfold bind, tryCatch, getDocs_allowedUsers_whereEmail, request, ret.
  rewrite Hfault. reflexivity.
Qed.

End RemoveFailure.

(** ** More on the allow-list check *)

Section AccessMore.
Import Firestore Auth AdminHelpers Spec.
Variable env : option string.

Lemma isAdmin_false_not_configured (u : User) (e : string) :
  email u = Some e -> e <> "" -> isAdmin env (Some u) = false -> e ∉ ADMIN_EMAILS env.
Proof.
  intros Hu He Hadm Hin. by rewrite (isAdmin_true env u e Hu He Hin) in Hadm.
Qed.

Lemma toLowerCase_empty (e : string) : JsString.toLowerCase e = "" -> e = "".
Proof. by destruct e. Qed.

(** On a store that answers, the check finds what is listed. *)
Lemma isUserAllowed_listed (u : User) (e : string) (w : World) :
  email u = Some e -> e <> "" -> e ∉ ADMIN_EMAILS env -> reachable w ->
  listed w (JsString.toLowerCase e) ->
  fst (isUserAllowed env (Some u) w) = Fulfilled true.
Proof.
  intros Hu He Hadm Hreach Hl.
  rewrite (isUserAllowed_run env u e w Hu He Hadm). simpl. rewrite !Hreach.
  destruct (allowedUsers w !! JsString.toLowerCase e) as [d|] eqn:Hkey; [done|].
  simpl. rewrite bool_decide_eq_false_2; [done|].
  intros Hnil. destruct Hl as [[d Hd]|(k & d & Hk & Hd)]; [congruence|].
  by apply (proj1 (whereEmail_nil _ _) Hnil k d).
Qed.

(** Whatever the store does, the check denies what is not listed. *)
Lemma isUserAllowed_not_listed (u : User) (e : string) (w : World) :
  email u = Some e -> e ∉ ADMIN_EMAILS env ->
  ~ listed w (JsString.toLowerCase e) ->
  fst (isUserAllowed env (Some u) w) = Fulfilled false.
Proof.
  intros Hu Hadm Hnot.
  destruct (decide (e = "")) as [->|He].
  - unfold isUserAllowed, emailOf. by rewrite Hu.
  - rewrite (isUserAllowed_run env u e w Hu He Hadm). simpl.
    destruct (faults w (length (requests w))); [done|].
    destruct (allowedUsers w !! JsString.toLowerCase e) as [d|] eqn:Hkey.
    + exfalso. apply Hnot. left. unfold listedByKey. eauto.
    + destruct (faults w (S (length (requests w)))); [done|].
      simpl. rewrite bool_decide_eq_true_2; [done|].
      apply whereEmail_nil. intros k d Hk Hd. apply Hnot. right. by exists k, d.
Qed.

(** X1. The allow-list check only reads: whoever asks and whatever the
    store answers, both collections are left as they are, and the requests
    sent are none, the lookup by id, or that lookup followed by the query on
    the field [email], both for the lower-cased address. *)
Theorem isUserAllowed_reads_only (user : option User) (w : World) :
  let w' := snd (isUserAllowed env user w) in
  allowedUsers w' = allowedUsers w
  /\ eggEntries w' = eggEntries w
  /\ (requests w' = requests w
      \/ exists e, emailOf user = Some e
           /\ (requests w' = (requests w ++ [GetDoc_allowedUsers (JsString.toLowerCase e)])%list
               \/ requests w'
                  = (requests w ++ [GetDoc_allowedUsers (JsString.toLowerCase e);
                                    GetDocs_allowedUsers_whereEmail (JsString.toLowerCase e)])%list)).
Proof.
  unfold isUserAllowed.
  destruct (emailOf user) as [e|] eqn:He; [|simpl; auto].
  destruct (isAdmin env user); [simpl; auto|].
  unfold tryCatch, bind, getDoc_allowedUsers, getDocs_allowedUsers_whereEmail, request, ret.
  simpl.
  destruct (faults w (length (requests w))); simpl.
  { split; [done|]. split; [done|]. right. exists e. auto. }
  case_bool_decide; simpl.
  { split; [done|]. split; [done|]. right. exists e. auto. }
  rewrite length_app. simpl.
  destruct (faults w (length (requests w) + 1)%nat); simpl.
  - split; [done|]. split; [done|]. right. exists e. split; [done|]. right.
    by rewrite <- app_assoc.
  - destruct (negb _); simpl; (split; [done|]; split; [done|]; right; exists e;
      split; [done|]; right; by rewrite <- app_assoc).
Qed.

(** X2. The case of the letters of the identity's address plays no role:
    two identities that are not admins and whose addresses are equal up to
    case get the same answer from the same store, after the same requests. *)
Theorem isUserAllowed_ignores_case (u1 u2 : User) (e1 e2 : string) (w : World) :
  email u1 = Some e1 -> email u2 = Some e2 ->
  JsString.toLowerCase e1 = JsString.toLowerCase e2 ->
  isAdmin env (Some u1) = false -> isAdmin env (Some u2) = false ->
  isUserAllowed env (Some u1) w = isUserAllowed env (Some u2) w.
Proof.
  intros H1 H2 Hcase Ha1 Ha2.
  destruct (decide (e1 = "")) as [->|Hne1].
  - symmetry in Hcase. apply toLowerCase_empty in Hcase. subst e2.
    unfold isUserAllowed, emailOf. by rewrite H1, H2.
  - assert (Hne2 : e2 <> "").
    { intros ->. by apply toLowerCase_empty in Hcase. }
    rewrite (isUserAllowed_run env u1 e1 w H1 Hne1
               (isAdmin_false_not_configured u1 e1 H1 Hne1 Ha1)).
    rewrite (isUserAllowed_run env u2 e2 w H2 Hne2
               (isAdmin_false_not_configured u2 e2 H2 Hne2 Ha2)).
    by rewrite Hcase.
Qed.

(** X3. The two entry points to the decision agree: [checkUserAccess] hands
    its callback the value [isUserAllowed] returns, after the same requests;
    with nobody signed in it is [false] and nothing is asked. *)
Theorem checkUserAccess_agrees (user : option User) (w : World) :
  checkUserAccess env user w = isUserAllowed env user w
  /\ checkUserAccess env None w = (Fulfilled false, w).
Proof.
  split; [|done]. unfold checkUserAccess, isUserAllowed.
  destruct (emailOf user); [|done]. by destruct (isAdmin env user).
Qed.

End AccessMore.

Section AccessMoreExamples.
Import Firestore Auth AdminHelpers Spec Scenario.

Lemma isUserAllowed_ignores_case_witness :
  isUserAllowed adminEnv (Some bob) bobAdded
  = isUserAllowed adminEnv (Some (mkUser "uid-7" (Some "BOB@example.COM") None)) bobAdded.
Proof.
  apply (isUserAllowed_ignores_case adminEnv bob
           (mkUser "uid-7" (Some "BOB@example.COM") None)
           "Bob@Example.com" "BOB@example.COM" bobAdded);
    reflexivity.
Defined.

End AccessMoreExamples.

(** ** More on the admin panel *)

Section PanelMore.
Import Firestore Auth AdminPanel Spec Shape.
Variable env : option string.

Lemma emailRegex_nonempty (e : string) : JsString.emailRegex_test e = true -> e <> "".
Proof. by intros H ->. Qed.

Lemma toLowerCase_nonempty (e : string) : e <> "" -> JsString.toLowerCase e <> "".
Proof. by destruct e. Qed.

Lemma find_is_Some {A} (f : A -> bool) (l : list A) (x : A) :
  x ∈ l -> f x = true -> is_Some (List.find f l).
Proof.
  induction l as [|y l IH]; intros Hin Hx; [by apply elem_of_nil in Hin|].
  simpl. destruct (f y) eqn:Hy; [eauto|].
  apply elem_of_cons in Hin as [->|Hin]; [congruence|by apply IH].
Qed.

(** What [addUser] does once its checks have passed. *)
Lemma addUser_run (s : State) (w : World) :
  bool_decide (is_Some (user s)) && isAdmin env (user s) = true ->
  JsString.emailRegex_test (JsString.trim (newUserEmail s)) = true ->
  List.find (fun u => String.eqb (JsString.toLowerCase (email u))
                        (JsString.toLowerCase (JsString.trim (newUserEmail s))))
            (AdminPanel.allowedUsers s) = None ->
  addUser env s w =
    let emailId := JsString.toLowerCase (JsString.trim (newUserEmail s)) in
    let w1 := logRequest (SetDoc_allowedUsers emailId) w in
    match faults w (length (requests w)) with
    | Some e =>
        (Fulfilled (setIsSubmitting false
                      (setMessage (Some (AddFailed e)) (setIsSubmitting true s))), w1)
    | None =>
        (Fulfilled (setIsSubmitting false
                      (setMessage (Some UserAdded)
                                  (setNewUserEmail "" (setIsSubmitting true s)))),
         withAllowedUsers
           (<[emailId := mkAllowedUserDoc (Some emailId)
                (Some (JsString.beforeFirst "@" (JsString.trim (newUserEmail s))))
                (Some (serverTime w))
                (match user s with Some u => Auth.email u | None => None end)]>
              (Firestore.allowedUsers w)) w1)
    end.
Proof.
  intros Hadm Hvalid Hfind. unfold addUser. rewrite Hadm. simpl.
  assert (Hne : JsString.trim (newUserEmail s) <> "") by by apply emailRegex_nonempty.
  apply String.eqb_neq in Hne. rewrite Hne, Hvalid. simpl. rewrite Hfind.
  unfold bind, tryCatch, setDoc_allowedUsers, request, ret.
  by destruct (faults w (length (requests w))).
Qed.

(** The documents [deleteAll] leaves are documents that were there. *)
Lemma deleteAll_subseteq (keys : list string) (w : World) :
  Firestore.allowedUsers (snd (deleteAll keys w)) ⊆ Firestore.allowedUsers w
  /\ Firestore.eggEntries (snd (deleteAll keys w)) = Firestore.eggEntries w.
Proof.
  revert w. induction keys as [|k keys IH]; intros w; [done|].
  simpl. unfold deleteDoc_allowedUsers, request.
  destruct (faults w (length (requests w))).
  - simpl. apply (IH (logRequest (DeleteDoc_allowedUsers k) w)).
  - set (w1 := withAllowedUsers _ _).
    destruct (deleteAll keys w1) as [[[]|e] w2] eqn:Hrun; simpl;
      (destruct (IH w1) as [Hsub Heggs]; rewrite Hrun in Hsub, Heggs; simpl in *;
       split; [|done]; etrans; [exact Hsub|]; apply delete_subseteq).
Qed.

(** The requests [deleteAll] sends: one deletion per key, in order. *)
Lemma deleteAll_requests (keys : list string) (w : World) :
  requests (snd (deleteAll keys w))
  = (requests w ++ map DeleteDoc_allowedUsers keys)%list.
Proof.
  revert w. induction keys as [|k keys IH]; intros w; [by rewrite app_nil_r|].
  simpl. unfold deleteDoc_allowedUsers, request.
  destruct (faults w (length (requests w))).
  - simpl. rewrite IH. simpl. by rewrite <- app_assoc.
  - set (w1 := withAllowedUsers _ _).
    specialize (IH w1). destruct (deleteAll keys w1) as [[[]|e] w2]; simpl in *;
      rewrite IH; simpl; by rewrite <- app_assoc.
Qed.

Lemma foldr_delete_keys {A} (P : string * A -> Prop) `{!forall x, Decision (P x)}
      (m : gmap string A) (keys : list string) :
  (forall k, k ∈ keys <-> is_Some (filter P m !! k)) ->
  foldr delete m keys = filter (fun kd => ~ P kd) m.
Proof.
  intros Hkeys. apply map_eq. intros k.
  destruct (decide (k ∈ keys)) as [Hin|Hin].
  - rewrite lookup_foldr_delete by done. symmetry.
    apply Hkeys in Hin as [d Hd].
    apply map_lookup_filter_Some in Hd as [Hk Ho].
    apply map_lookup_filter_None. right. intros d' Hk'.
    rewrite Hk in Hk'. inversion Hk'. subst. tauto.
  - rewrite lookup_foldr_delete_not_elem_of by done.
    destruct (m !! k) as [d|] eqn:Hk.
    + symmetry. apply map_lookup_filter_Some. split; [done|].
      intros Ho. apply Hin, Hkeys. exists d. by apply map_lookup_filter_Some.
    + symmetry. apply map_lookup_filter_None. by left.
Qed.

Lemma keys_of_filter {A} (P : string * A -> Prop) `{!forall x, Decision (P x)}
      (m : gmap string A) (k : string) :
  k ∈ map fst (map_to_list (filter P m)) <-> is_Some (filter P m !! k).
Proof.
  rewrite list_elem_of_fmap. split.
  - intros ([k' d] & -> & Hin). apply elem_of_map_to_list in Hin. eauto.
  - intros [d Hd]. exists (k, d). split; [done|]. by apply elem_of_map_to_list.
Qed.

Lemma elem_of_rev {A} (x : A) (l : list A) : x ∈ rev l <-> x ∈ l.
Proof. rewrite !list_elem_of_In. symmetry. apply in_rev. Qed.

Lemma keyedByEmail_subseteq (m m' : gmap string AllowedUserDoc) :
  m' ⊆ m -> keyedByEmail m -> keyedByEmail m'.
Proof.
  intros Hsub Hm k d Hk. apply (Hm k d). by eapply lookup_weaken.
Qed.

(** X4. Adding grants access. When an admin adds an address that passes
    the checks of [addUser] and the store answers, the message is the one
    of success, the input box is emptied, and from then on every identity
    whose address is the typed one, up to the case of its letters and the
    blanks around what was typed, is let in. *)
Theorem addUser_grants_access (s : State) (u : User) (e : string) (w : World) :
  bool_decide (is_Some (user s)) && isAdmin env (user s) = true ->
  JsString.emailRegex_test (JsString.trim (newUserEmail s)) = true ->
  List.find (fun row => String.eqb (JsString.toLowerCase (email row))
                          (JsString.toLowerCase (JsString.trim (newUserEmail s))))
            (AdminPanel.allowedUsers s) = None ->
  reachable w ->
  Auth.email u = Some e ->
  JsString.toLowerCase e = JsString.toLowerCase (JsString.trim (newUserEmail s)) ->
  let r := addUser env s w in
  (exists s', fst r = Fulfilled s' /\ message s' = Some UserAdded
              /\ newUserEmail s' = "" /\ isSubmitting s' = false)
  /\ fst (AdminHelpers.isUserAllowed env (Some u) (snd r)) = Fulfilled true.
Proof.
  intros Hadm Hvalid Hfind Hreach Hu Hcase r. subst r.
  rewrite (addUser_run s w Hadm Hvalid Hfind). simpl. rewrite Hreach. simpl.
  split; [eauto|].
  assert (Hne : e <> "").
  { intros ->. symmetry in Hcase. simpl in Hcase.
    by apply toLowerCase_empty, emailRegex_nonempty in Hcase. }
  destruct (decide (e ∈ AdminHelpers.ADMIN_EMAILS env)) as [Hin|Hout].
  - unfold AdminHelpers.isUserAllowed.
    rewrite (emailOf_Some u e Hu Hne), (isAdmin_true env u e Hu Hne Hin). done.
  - apply (isUserAllowed_listed env u e _ Hu Hne Hout); [done|].
    left. unfold listedByKey. simpl. rewrite Hcase, lookup_insert_eq. eauto.
Qed.

(** X5. An address that the list already shows is not added again. When
    the store holds a document that the panel shows under the typed address
    (its field [email], or its id when the field is missing or empty, equal
    to the typed address up to case and surrounding blanks) and the panel's
    list is the snapshot of the store, [addUser] answers that the user is
    already allowed and sends nothing. *)
Theorem addUser_refuses_shown_address (s : State) (now : Z) (k : string)
        (d : AllowedUserDoc) (w : World) :
  bool_decide (is_Some (user s)) && isAdmin env (user s) = true ->
  JsString.emailRegex_test (JsString.trim (newUserEmail s)) = true ->
  AdminPanel.allowedUsers s
    = onAllowedUsersSnapshot now (map_to_list (Firestore.allowedUsers w)) ->
  Firestore.allowedUsers w !! k = Some d ->
  JsString.toLowerCase (JsString.orElse (au_email d) k)
    = JsString.toLowerCase (JsString.trim (newUserEmail s)) ->
  addUser env s w = (Fulfilled (setMessage (Some AlreadyAllowed) s), w).
Proof.
  intros Hadm Hvalid Hlist Hk Hshown. unfold addUser. rewrite Hadm. simpl.
  assert (Hne : JsString.trim (newUserEmail s) <> "") by by apply emailRegex_nonempty.
  apply String.eqb_neq in Hne. rewrite Hne, Hvalid. simpl.
  set (f := fun u : AllowedUser => _).
  destruct (find_is_Some f (AdminPanel.allowedUsers s)
              (mkAllowedUser k (JsString.orElse (au_email d) k)
                             (JsString.orElse (au_displayName d) "")
                             (default now (au_addedAt d))
                             (JsString.orElse (au_addedBy d) "")))
    as [row Hrow].
  - rewrite Hlist. unfold onAllowedUsersSnapshot.
    apply (elem_of_Permutation_proper _ _ _ (sort_Permutation _ _)).
    apply list_elem_of_fmap. exists (k, d). split; [done|].
    by apply elem_of_map_to_list.
  - unfold f. simpl. by apply String.eqb_eq.
  - by rewrite Hrow.
Qed.

(** X6. Nothing leaves the panel unless an admin is signed in, and nothing
    is removed unless the dialog was confirmed: otherwise [addUser],
    [removeUser] and [clearUserData] return the state they were given and
    send no request. *)
Theorem panel_actions_are_guarded (confirmed : bool) (userEmail userId userName : string)
        (s : State) (w : World) :
  (isAdmin env (user s) = false ->
     addUser env s w = (Fulfilled s, w)
     /\ removeUser env confirmed userEmail s w = (Fulfilled s, w)
     /\ clearUserData env confirmed userId userName s w = (Fulfilled s, w))
  /\ (confirmed = false ->
     removeUser env confirmed userEmail s w = (Fulfilled s, w)
     /\ clearUserData env confirmed userId userName s w = (Fulfilled s, w)).
Proof.
  split.
  - intros Hadm. unfold addUser, removeUser, clearUserData.
    by rewrite Hadm, andb_false_r.
  - intros ->. unfold removeUser, clearUserData.
    by destruct (bool_decide _ && _).
Qed.

(** X7. What [removeUser] removes, for an admin who confirmed and a store
    that answers: the documents whose field [email] is the address in lower
    case, all of them, found by one query and deleted one request each; a
    document whose field differs stays, whatever its id. When there is no
    such document the message says so and the query is the only request. *)
Theorem removeUser_deletes_every_match (s : State) (userEmail : string) (w : World) :
  bool_decide (is_Some (user s)) && isAdmin env (user s) = true ->
  reachable w ->
  let key := JsString.toLowerCase userEmail in
  let matches := filter (fun kd : string * AllowedUserDoc => au_email (snd kd) = Some key)
                        (Firestore.allowedUsers w) in
  let r := removeUser env true userEmail s w in
  Firestore.eggEntries (snd r) = Firestore.eggEntries w
  /\ Firestore.allowedUsers (snd r)
     = filter (fun kd : string * AllowedUserDoc => au_email (snd kd) <> Some key)
              (Firestore.allowedUsers w)
  /\ requests (snd r)
     = (requests w ++ GetDocs_allowedUsers_whereEmail key
                   :: map DeleteDoc_allowedUsers (map fst (map_to_list matches)))%list
  /\ fst r = Fulfilled (setIsSubmitting false
                          (setMessage (Some (if bool_decide (matches = ∅)
                                             then NotInDatabase else UserRemoved)) s)).
Proof.
  intros Hadm Hreach key matches r. subst r. unfold removeUser. rewrite Hadm. simpl.
  unfold bind, tryCatch, getDocs_allowedUsers_whereEmail, request, ret.
  rewrite Hreach. simpl. fold key. fold matches.
  set (w1 := logRequest _ w).
  assert (Hafter : foldr delete (Firestore.allowedUsers w)
                         (rev (map fst (map_to_list matches)))
                   = filter (fun kd : string * AllowedUserDoc => au_email (snd kd) <> Some key)
                            (Firestore.allowedUsers w)).
  { apply (foldr_delete_keys (fun kd : string * AllowedUserDoc => au_email (snd kd) = Some key)).
    intros k. rewrite elem_of_rev. apply keys_of_filter. }
  destruct (map_to_list matches) as [|hit hits] eqn:Hhits.
  - rewrite bool_decide_eq_true_2 by done. simpl.
    apply map_to_list_empty_iff in Hhits.
    rewrite bool_decide_eq_true_2 by done.
    split; [done|]. split; [|done].
    simpl in Hafter. done.
  - rewrite bool_decide_eq_false_2 by done.
    assert (Hne : matches <> ∅).
    { intros Hempty. apply map_to_list_empty_iff in Hempty. congruence. }
    rewrite (bool_decide_eq_false_2 _ Hne).
    destruct (deleteAll_reachable (map fst (hit :: hits)) w1)
      as (w' & Hrun & Hmap & Heggs & _); [done|].
    pose proof (deleteAll_requests (map fst (hit :: hits)) w1) as Hreq.
    rewrite Hrun in *. simpl in Hreq |- *.
    split; [done|]. split; [by rewrite Hmap|]. split; [|done].
    rewrite Hreq. by rewrite <- app_assoc.
Qed.

(** X8. Removing revokes access. On a list whose documents have the shape
    [addUser] gives them, once an admin has removed an address (dialog
    confirmed, store answering), an identity with that address, up to the
    case of its letters, that is not an admin is denied. *)
Theorem removeUser_revokes_access (s : State) (userEmail : string) (u : User)
        (e : string) (w : World) :
  bool_decide (is_Some (user s)) && isAdmin env (user s) = true ->
  reachable w ->
  keyedByEmail (Firestore.allowedUsers w) ->
  Auth.email u = Some e -> e ∉ AdminHelpers.ADMIN_EMAILS env ->
  JsString.toLowerCase e = JsString.toLowerCase userEmail ->
  fst (AdminHelpers.isUserAllowed env (Some u) (snd (removeUser env true userEmail s w)))
  = Fulfilled false.
Proof.
  intros Hadm Hreach Hshape Hu Hout Hcase.
  apply (isUserAllowed_not_listed env u e _ Hu Hout).
  set (w2 := snd (removeUser env true userEmail s w)).
  assert (Hmap : Firestore.allowedUsers w2
                 = filter (fun kd : string * AllowedUserDoc =>
                             au_email (snd kd) <> Some (JsString.toLowerCase e))
                          (Firestore.allowedUsers w)).
  { subst w2. rewrite (removeUser_reachable env s userEmail w Hreach), Hadm, Hcase.
    apply (foldr_delete_keys
             (fun kd : string * AllowedUserDoc =>
                au_email (snd kd) = Some (JsString.toLowerCase userEmail))).
    intros k. rewrite elem_of_rev. apply keys_of_filter. }
  intros [[d Hd]|(k & d & Hk & Hd)].
  - rewrite Hmap in Hd.
    apply map_lookup_filter_Some in Hd as [Hd Hfield]. simpl in Hfield.
    apply Hfield. by apply (Hshape _ d).
  - rewrite Hmap in Hk.
    apply map_lookup_filter_Some in Hk as [_ Hfield]. by apply Hfield.
Qed.

(** X9. The shape of the allow-list is an invariant of the panel: whatever
    the state of the panel, the arguments and the answers of the store,
    [addUser], [removeUser] and [clearUserData] take a list whose documents
    are stored under their lower-case address to a list of that kind. *)
Theorem panel_keeps_ids_in_shape (confirmed : bool) (userEmail userId userName : string)
        (s : State) (w : World) :
  keyedByEmail (Firestore.allowedUsers w) ->
  keyedByEmail (Firestore.allowedUsers (snd (addUser env s w)))
  /\ keyedByEmail (Firestore.allowedUsers (snd (removeUser env confirmed userEmail s w)))
  /\ keyedByEmail
       (Firestore.allowedUsers (snd (clearUserData env confirmed userId userName s w))).
Proof.
  intros Hshape. split; [|split].
  - unfold addUser.
    destruct (negb _); [done|].
    destruct (String.eqb _ ""); [done|].
    destruct (negb _); [done|].
    destruct (List.find _ _); [done|].
    unfold bind, tryCatch, setDoc_allowedUsers, request, ret.
    destruct (faults w (length (requests w))); [done|]. simpl.
    intros k d Hk. apply lookup_insert_Some in Hk as [[<- <-]|[_ Hk]]; [|by apply Hshape].
    simpl. split; [done|]. apply toLowerCase_idempotent.
  - unfold removeUser.
    destruct (negb _); [done|].
    destruct (negb confirmed); [done|].
    unfold bind, tryCatch, getDocs_allowedUsers_whereEmail, request, ret.
    destruct (faults w (length (requests w))) as [error|];
      [by destruct (JsString.includes _ _)|]. simpl.
    set (w1 := logRequest _ w).
    case_bool_decide; [done|].
    set (keys := map fst _).
    pose proof (deleteAll_subseteq keys w1) as [Hsub _].
    destruct (deleteAll keys w1) as [[[]|error] w2]; simpl in *;
      try destruct (JsString.includes _ _);
      by apply (keyedByEmail_subseteq _ _ Hsub).
  - unfold clearUserData.
    destruct (negb _); [done|].
    destruct (negb confirmed); [done|].
    unfold bind, tryCatch, getDocs_eggEntries, batchDelete_eggEntries, request, ret.
    destruct (faults w (length (requests w))); [done|]. simpl.
    case_bool_decide; [done|].
    by destruct (faults _ _).
Qed.

(** X10. [clearUserData] removes all or nothing. For an admin who
    confirmed, whatever the store answers: the action ends with the
    submitting flag down and never touches the allow-list; the entries are
    either as they were, or the owner's entries are all gone and the message
    tells their number. A rejected query or a rejected batch leaves every
    entry in place and is reported as a failure. *)
Theorem clearUserData_all_or_nothing (s : State) (owner name : string) (w : World) :
  bool_decide (is_Some (user s)) && isAdmin env (user s) = true ->
  let r := clearUserData env true owner name s w in
  let n := length (requests w) in
  exists s',
    fst r = Fulfilled s' /\ isSubmitting s' = false
    /\ Firestore.allowedUsers (snd r) = Firestore.allowedUsers w
    /\ (Firestore.eggEntries (snd r) = Firestore.eggEntries w
        \/ (Firestore.eggEntries (snd r) = notOwnedBy owner (Firestore.eggEntries w)
            /\ message s'
               = Some (DataCleared name (size (ownedBy owner (Firestore.eggEntries w))))))
    /\ (forall e, faults w n = Some e
                  \/ (faults w n = None /\ ownedBy owner (Firestore.eggEntries w) <> ∅
                      /\ faults w (S n) = Some e) ->
          message s' = Some (ClearFailed e)
          /\ Firestore.eggEntries (snd r) = Firestore.eggEntries w).
Proof.
  intros Hadm r n. subst r. unfold clearUserData. rewrite Hadm. simpl.
  unfold bind, tryCatch, getDocs_eggEntries, batchDelete_eggEntries, request, ret.
  fold n.
  set (q := mkEggQuery (Some owner) None None false).
  assert (Hhits : runEggQuery q (Firestore.eggEntries w)
                  = map_to_list (ownedBy owner (Firestore.eggEntries w))).
  { unfold runEggQuery, ownedBy. simpl. f_equal.
    apply map_filter_ext. intros k d _. simpl.
    unfold q. by rewrite matches_ownerQuery. }
  destruct (faults w n) as [e0|] eqn:Hf0.
  { eexists. split; [done|]. split; [done|]. split; [done|]. split; [by left|].
    intros e [He|[He _]]; [|done]. by inversion He. }
  simpl. fold q. rewrite Hhits.
  destruct (map_to_list (ownedBy owner (Firestore.eggEntries w))) as [|hit hits] eqn:Hl.
  { rewrite bool_decide_eq_true_2 by done.
    eexists. split; [done|]. split; [done|]. split; [done|]. split; [by left|].
    intros e [He|(_ & Hne & _)]; [done|].
    exfalso. apply Hne. by apply map_to_list_empty_iff. }
  rewrite bool_decide_eq_false_2 by done.
  cbn [faults requests logRequest].
  replace (length (requests w ++ [GetDocs_eggEntries q])) with (S n)
    by (rewrite length_app; simpl; lia).
  destruct (faults w (S n)) as [e1|] eqn:Hf1.
  { eexists. split; [done|]. split; [done|]. split; [done|]. split; [by left|].
    intros e [He|(_ & _ & He)]; [done|]. by inversion He. }
  eexists. split; [done|]. split; [done|]. split; [done|]. split.
  - right. split.
    + cbn [snd Firestore.eggEntries withEggEntries]. rewrite <- Hl.
      apply (foldr_delete_keys
               (fun kd : string * EggDoc => Firestore.userId (snd kd) = Some owner)).
      intros k. apply keys_of_filter.
    + rewrite <- Hl. unfold setIsSubmitting, setMessage. cbn [message].
      do 2 f_equal. apply length_map_to_list.
  - intros e [He|(_ & _ & He)]; done.
Qed.

End PanelMore.

(** ** More on the tracker form *)

Section TrackerMore.
Import Firestore Auth EggTracker Spec Shape.
Variable tza : Z.

Lemma matches_dayQuery_same (owner : string) (selected : Z) (d : EggDoc) :
  matchesEggQuery (dayQuery tza owner selected) d = true
  <-> sameOwnerAndDay tza owner selected d.
Proof.
  unfold dayQuery, sameOwnerAndDay. rewrite matches_dayQuery.
  split; intros [Ho (t & Ht & Hd)]; (split; [done|]); exists t; (split; [done|]);
    by apply sameDay_iff.
Qed.

(** A create on a store that answers. *)
Lemma saveEggEntry_create (now : Z) (s : State) (u : User) (selected : Z) (w : World) :
  user s = Some u -> editEntry s = None -> selectedDate s = Some selected ->
  1 <= eggCount s <= 100 ->
  JsDate.Day (JsDate.LocalTime tza selected) <= JsDate.Day (JsDate.LocalTime tza now) ->
  reachable w ->
  saveEggEntry tza now s w =
    let w1 := logRequest (GetDocs_eggEntries (dayQuery tza (uid u) selected)) w in
    match runEggQuery (dayQuery tza (uid u) selected) (Firestore.eggEntries w) with
    | _ :: _ => (Fulfilled (setIsSubmitting false (setErrorMessage (Some DuplicateEntry) s)), w1)
    | [] =>
        (Fulfilled (setIsSubmitting false
                      (setSuccessMessage (Some (Registered (eggCount s) selected))
                         (setErrorMessage None s))),
         withEggEntries
           (<[fresh (dom (Firestore.eggEntries w))
              := mkEggDoc (Some selected) (Some (eggCount s)) (Some (uid u))
                          (Some (JsString.orElse (displayName u) "Anonym användare"))
                          (Some (serverTime w)) None]> (Firestore.eggEntries w))
           (logRequest AddDoc_eggEntries w1))
    end.
Proof.
  intros Hu Hedit Hsel Hcount Hday Hreach.
  unfold saveEggEntry. rewrite Hu, Hsel, Hedit.
  destruct (Z.leb_spec (eggCount s) 0); [lia|].
  destruct (Z.gtb_spec (eggCount s) 100); [lia|].
  destruct (Z.gtb_spec (JsDate.setHours tza selected 0 0 0 0)
                       (JsDate.setHours tza now 0 0 0 0)) as [Hlater|_].
  { apply Z.lt_gt, laterDay_iff in Hlater. lia. }
  unfold bind, tryCatch, getDocs_eggEntries, addDoc_eggEntries, request, ret.
  fold (dayQuery tza (uid u) selected). rewrite Hreach. simpl.
  destruct (runEggQuery _ _) as [|hit hits]; simpl.
  - rewrite Hreach. done.
  - done.
Qed.


Lemma dayQuery_elem (owner : string) (selected : Z) (m : gmap string EggDoc) hit hits :
  runEggQuery (dayQuery tza owner selected) m = hit :: hits ->
  m !! fst hit = Some (snd hit) /\ sameOwnerAndDay tza owner selected (snd hit).
Proof.
  intros Hq. destruct hit as [k d].
  assert (Hin : (k, d) ∈ runEggQuery (dayQuery tza owner selected) m) by (rewrite Hq; left).
  apply (proj1 (runEggQuery_unordered_elem (dayQuery tza owner selected) _ _ _ eq_refl))
    in Hin as [Hk Hm].
  split; [done|]. by apply matches_dayQuery_same.
Qed.

(** X11. Saving never throws and never half-writes. Whatever the form
    holds and whatever the store answers, [saveEggEntry] settles normally,
    leaves the submitting flag down when it was down, sends at most two
    requests, leaves the allow-list alone, and either ends without an error
    message or leaves every entry of the store as it was. *)
Theorem saveEggEntry_reports_or_writes (now : Z) (s : State) (w : World) :
  let r := saveEggEntry tza now s w in
  exists s',
    fst r = Fulfilled s'
    /\ user s' = user s
    /\ (isSubmitting s = false -> isSubmitting s' = false)
    /\ Firestore.allowedUsers (snd r) = Firestore.allowedUsers w
    /\ (length (requests (snd r)) <= length (requests w) + 2)%nat
    /\ (errorMessage s' = None \/ Firestore.eggEntries (snd r) = Firestore.eggEntries w).
Proof.
  unfold saveEggEntry.
  destruct (user s) as [u|] eqn:Hu.
  2:{ exists s. simpl. repeat split; auto. lia. }
  destruct (eggCount s <=? 0).
  { eexists. simpl. repeat split; auto. lia. }
  destruct (eggCount s >? 100).
  { eexists. simpl. repeat split; auto. lia. }
  destruct (selectedDate s) as [selected|].
  2:{ eexists. simpl. repeat split; auto. lia. }
  destruct (_ >? _).
  { eexists. simpl. repeat split; auto. lia. }
  destruct (editEntry s) as [entry|].
  - unfold bind, tryCatch, updateDoc_eggEntries, request, ret. cbn [faults requests logRequest].
    destruct (faults w (length (requests w))).
    { eexists. simpl. repeat split; auto. rewrite length_app. simpl. lia. }
    cbn [Firestore.eggEntries logRequest].
    destruct (Firestore.eggEntries w !! id entry).
    + eexists. simpl. repeat split; auto. rewrite length_app. simpl. lia.
    + eexists. simpl. repeat split; auto. rewrite length_app. simpl. lia.
  - unfold bind, tryCatch, getDocs_eggEntries, addDoc_eggEntries, request, ret.
    destruct (faults w (length (requests w))).
    { eexists. simpl. repeat split; auto. rewrite length_app. simpl. lia. }
    cbn [Firestore.eggEntries logRequest].
    destruct (runEggQuery _ _) as [|hit hits].
    + rewrite bool_decide_eq_true_2 by done. cbn [negb faults requests logRequest].
      destruct (faults w _).
      * eexists. simpl. repeat split; auto. rewrite !length_app. simpl. lia.
      * eexists. simpl. repeat split; auto. rewrite !length_app. simpl. lia.
    + rewrite bool_decide_eq_false_2 by done.
      eexists. simpl. repeat split; auto. rewrite length_app. simpl. lia.
Qed.

(** X12. Saving an edit rewrites the edited document in place and asks
    nothing else. With input that passes the checks and a store that
    answers, the only request is the update of the document of the entry
    being edited; the document keeps its owner, the owner's name and its
    creation time, takes the count and the date of the form and the
    server's time as [updatedAt]; no other document changes, and no search
    for another entry of that day is made. When the document is gone, the
    update is refused, the form shows the error and the store is as before. *)
Theorem saveEggEntry_edit_updates_in_place (now : Z) (s : State) (u : User)
        (entry : EggEntry) (selected : Z) (w : World) :
  user s = Some u -> editEntry s = Some entry -> selectedDate s = Some selected ->
  1 <= eggCount s <= 100 ->
  JsDate.Day (JsDate.LocalTime tza selected) <= JsDate.Day (JsDate.LocalTime tza now) ->
  reachable w ->
  let r := saveEggEntry tza now s w in
  requests (snd r) = (requests w ++ [UpdateDoc_eggEntries (id entry)])%list
  /\ match Firestore.eggEntries w !! id entry with
     | Some d =>
         fst r = Fulfilled (setIsSubmitting false
                              (setEditEntry None
                                 (setSuccessMessage (Some (Updated selected))
                                    (setErrorMessage None s))))
         /\ Firestore.eggEntries (snd r)
            = <[id entry := mkEggDoc (Some selected) (Some (eggCount s))
                              (Firestore.userId d) (Firestore.userName d)
                              (Firestore.createdAt d) (Some (serverTime w))]>
                (Firestore.eggEntries w)
         /\ size (Firestore.eggEntries (snd r)) = size (Firestore.eggEntries w)
     | None =>
         fst r = Fulfilled (setIsSubmitting false
                              (setErrorMessage (Some (Unexpected not_found)) s))
         /\ Firestore.eggEntries (snd r) = Firestore.eggEntries w
     end.
Proof.
  intros Hu Hedit Hsel Hcount Hday Hreach r. subst r.
  unfold saveEggEntry. rewrite Hu, Hsel, Hedit.
  destruct (Z.leb_spec (eggCount s) 0); [lia|].
  destruct (Z.gtb_spec (eggCount s) 100); [lia|].
  destruct (Z.gtb_spec (JsDate.setHours tza selected 0 0 0 0)
                       (JsDate.setHours tza now 0 0 0 0)) as [Hlater|_].
  { apply Z.lt_gt, laterDay_iff in Hlater. lia. }
  unfold bind, tryCatch, updateDoc_eggEntries, request, ret.
  rewrite Hreach. cbn [Firestore.eggEntries logRequest].
  destruct (Firestore.eggEntries w !! id entry) as [d|] eqn:Hk.
  - simpl. split; [done|]. split; [done|]. split; [done|].
    apply map_size_insert_Some. eauto.
  - simpl. done.
Qed.


(** X14. What a delete does once it is let through (the entry is not in
    the list or not older than the limit, and the dialog was confirmed),
    whatever the store answers: one deletion request is sent and the
    handler settles with the submitting flag down. When the store accepts
    it, the document is gone, every other document is as before, the
    message is the one of success, and if the deleted entry was the one
    being edited the form is reset. When the store rejects it, the failure
    is shown and nothing is removed. *)
Theorem handleDelete_removes_or_reports (now : Z) (entryId : string) (s : State) (w : World) :
  match List.find (fun e => String.eqb (id e) entryId) (EggTracker.eggEntries s) with
  | Some e => getMaxAllowedDate tza now <= EggTracker.date e
  | None => True
  end ->
  let r := handleDelete tza now true entryId s w in
  exists s',
    fst r = Fulfilled s' /\ isSubmitting s' = false
    /\ requests (snd r) = (requests w ++ [DeleteDoc_eggEntries entryId])%list
    /\ match faults w (length (requests w)) with
       | Some e =>
           errorMessage s' = Some (DeleteFailed e)
           /\ Firestore.eggEntries (snd r) = Firestore.eggEntries w
       | None =>
           successMessage s' = Some Deleted
           /\ Firestore.eggEntries (snd r) = delete entryId (Firestore.eggEntries w)
           /\ (forall e, editEntry s = Some e -> id e = entryId ->
                 editEntry s' = None /\ eggCount s' = 0 /\ selectedDate s' = Some now)
           /\ (forall e, editEntry s = Some e -> id e <> entryId -> editEntry s' = Some e)
       end.
Proof.
  intros Hwindow r. subst r. unfold handleDelete.
  assert (Hgo : (match List.find (fun e => String.eqb (id e) entryId)
                                 (EggTracker.eggEntries s) with
                 | Some e => EggTracker.date e <? getMaxAllowedDate tza now
                 | None => false
                 end) = false).
  { destruct (List.find _ _) as [e|]; [|done]. by apply Z.ltb_ge. }
  rewrite Hgo. clear Hgo Hwindow. cbn [negb].
  unfold bind, tryCatch, deleteDoc_eggEntries, request, ret.
  destruct (faults w (length (requests w))).
  { eexists. simpl. done. }
  destruct (editEntry s) as [e'|] eqn:Hed;
    [destruct (String.eqb_spec (id e') entryId) as [Hid|Hid]|];
    (eexists; split; [reflexivity|]; split; [reflexivity|]; split; [reflexivity|];
     split; [reflexivity|]; split; [reflexivity|];
     split; intros e0 He0 Hid0; inversion He0; subst; done).
Qed.

End TrackerMore.

(** ** Reading the entries back *)

Section EntriesMore.
Import Firestore Auth Spec Shape.

Lemma runEggQuery_elem_of (q : EggQuery) (m : gmap string EggDoc) (k : string) (d : EggDoc) :
  (k, d) ∈ runEggQuery q m <-> m !! k = Some d /\ matchesEggQuery q d = true.
Proof.
  unfold runEggQuery.
  destruct (orderByDateDesc q); [unfold sortByDateDesc; rewrite sort_Permutation|];
    by rewrite elem_of_map_to_list, map_lookup_filter_Some.
Qed.

Lemma runEggQuery_length (q : EggQuery) (m : gmap string EggDoc) :
  length (runEggQuery q m)
  = size (filter (fun kd : string * EggDoc => matchesEggQuery q (snd kd) = true) m).
Proof.
  unfold runEggQuery.
  destruct (orderByDateDesc q); [unfold sortByDateDesc; rewrite sort_Permutation|];
    apply length_map_to_list.
Qed.

Lemma runEggQuery_NoDup_keys (q : EggQuery) (m : gmap string EggDoc) :
  NoDup (map fst (runEggQuery q m)).
Proof.
  unfold runEggQuery.
  destruct (orderByDateDesc q); [unfold sortByDateDesc; rewrite sort_Permutation|];
    apply NoDup_fst_map_to_list.
Qed.

Lemma matches_ownQuery (owner : string) (d : EggDoc) :
  matchesEggQuery (mkEggQuery (Some owner) None None true) d = true
  <-> Firestore.userId d = Some owner /\ is_Some (Firestore.date d).
Proof.
  unfold matchesEggQuery. simpl.
  by rewrite !andb_true_r, andb_true_iff, !bool_decide_eq_true.
Qed.

(** An ordered query delivers the later dates first. *)
Lemma runEggQuery_sorted (q : EggQuery) (m : gmap string EggDoc) :
  orderByDateDesc q = true ->
  StronglySorted (fun a b : string * EggDoc =>
                    default 0 (Firestore.date (snd a)) >= default 0 (Firestore.date (snd b)))
                 (runEggQuery q m).
Proof.
  intros Ho. unfold runEggQuery. rewrite Ho.
  apply (sort_descending (fun kd : string * EggDoc => default 0 (Firestore.date (snd kd)))).
Qed.

Lemma StronglySorted_map {A B} (R : A -> A -> Prop) (S : B -> B -> Prop) (f : A -> B)
      (l : list A) :
  (forall a b, a ∈ l -> b ∈ l -> R a b -> S (f a) (f b)) ->
  StronglySorted R l -> StronglySorted S (map f l).
Proof.
  intros Hf Hl. induction Hl as [|a l Hl IH Hall]; simpl; constructor.
  - apply IH. intros x y Hx Hy. apply Hf; by right.
  - apply Forall_forall. intros y Hy.
    apply list_elem_of_fmap in Hy as (b & -> & Hb).
    rewrite Forall_forall in Hall.
    apply Hf; [left|by right|by apply Hall].
Qed.

(** X15. [fetchUserEggEntries] returns the dated entries of the owner,
    each once, latest first, and nothing else; an entry without a date is
    left out by the ordering of the query. One request is sent; when the
    store rejects it, the rejection is passed on to the caller. *)
Theorem fetchUserEggEntries_latest_first (now : Z) (owner : string) (w : World) :
  let r := EntryHelpers.fetchUserEggEntries now owner w in
  snd r = logRequest (GetDocs_eggEntries (mkEggQuery (Some owner) None None true)) w
  /\ match faults w (length (requests w)) with
     | Some e => fst r = Rejected e
     | None =>
         exists l,
           fst r = Fulfilled l
           /\ StronglySorted (fun a b => EntryHelpers.date a >= EntryHelpers.date b) l
           /\ NoDup (map EntryHelpers.id l)
           /\ length l
              = size (filter (fun kd : string * EggDoc =>
                                Firestore.userId (snd kd) = Some owner
                                /\ is_Some (Firestore.date (snd kd)))
                             (Firestore.eggEntries w))
           /\ forall entry,
                entry ∈ l <->
                exists d t,
                  Firestore.eggEntries w !! EntryHelpers.id entry = Some d
                  /\ Firestore.userId d = Some owner /\ Firestore.date d = Some t
                  /\ entry = EntryHelpers.mkEggEntry (EntryHelpers.id entry) t
                               (default 0 (Firestore.count d)) (Some owner)
                               (JsString.orElse (Firestore.userName d) "Okänd användare")
                               (Firestore.createdAt d) (Firestore.updatedAt d)
     end.
Proof.
  unfold EntryHelpers.fetchUserEggEntries, tryCatch, bind, getDocs_eggEntries, request, ret.
  destruct (faults w (length (requests w))); [done|].
  cbn [fst snd Firestore.eggEntries logRequest]. split; [done|].
  set (q := mkEggQuery (Some owner) None None true).
  eexists. split; [reflexivity|]. split; [|split; [|split]].
  - eapply StronglySorted_map; [|apply (runEggQuery_sorted q _ eq_refl)].
    intros [ka da] [kb db] Ha Hb H.
    apply runEggQuery_elem_of in Ha as [_ Ha]. apply runEggQuery_elem_of in Hb as [_ Hb].
    apply matches_ownQuery in Ha as [_ [ta Hta]]. apply matches_ownQuery in Hb as [_ [tb Htb]].
    unfold EntryHelpers.toEggEntry, FirebaseConfig.toDate. simpl in *.
    by rewrite Hta, Htb in *.
  - rewrite map_map. simpl. apply runEggQuery_NoDup_keys.
  - rewrite length_map, runEggQuery_length. f_equal.
    apply map_filter_ext. intros k d _. simpl. apply matches_ownQuery.
  - intros entry. rewrite list_elem_of_fmap. split.
    + intros ([k d] & -> & Hin). apply runEggQuery_elem_of in Hin as [Hk Hm].
      apply matches_ownQuery in Hm as [Ho [t Ht]].
      exists d, t. unfold EntryHelpers.toEggEntry, FirebaseConfig.toDate. simpl.
      by rewrite Ht, Ho.
    + intros (d & t & Hk & Ho & Ht & Hentry).
      exists (EntryHelpers.id entry, d). split.
      * rewrite Hentry. unfold EntryHelpers.toEggEntry, FirebaseConfig.toDate. simpl.
        by rewrite Ht, Ho.
      * apply runEggQuery_elem_of. split; [done|]. apply matches_ownQuery. eauto.
Qed.

End EntriesMore.

Section CreateReadDelete.
Import Firestore Auth EggTracker Spec Shape.
Variable tza : Z.

Lemma orElse_nonempty (o : option string) (dflt : string) :
  dflt <> "" -> JsString.orElse (Some (JsString.orElse o dflt)) "Okänd användare"
                = JsString.orElse o dflt.
Proof.
  intros Hd. unfold JsString.orElse at 1.
  destruct (JsString.orElse o dflt) eqn:Ho; [|done].
  exfalso. unfold JsString.orElse in Ho.
  destruct o as [[|c r]|]; simpl in Ho; done.
Qed.

(** The store after a create that found no entry of that day. *)
Lemma saveEggEntry_created (now : Z) (s : State) (u : User) (selected : Z) (w : World) :
  user s = Some u -> editEntry s = None -> selectedDate s = Some selected ->
  1 <= eggCount s <= 100 ->
  JsDate.Day (JsDate.LocalTime tza selected) <= JsDate.Day (JsDate.LocalTime tza now) ->
  reachable w ->
  (forall k d, Firestore.eggEntries w !! k = Some d ->
               ~ sameOwnerAndDay tza (uid u) selected d) ->
  Firestore.eggEntries (snd (saveEggEntry tza now s w))
  = <[fresh (dom (Firestore.eggEntries w))
      := mkEggDoc (Some selected) (Some (eggCount s)) (Some (uid u))
                  (Some (JsString.orElse (displayName u) "Anonym användare"))
                  (Some (serverTime w)) None]> (Firestore.eggEntries w)
  /\ reachable (snd (saveEggEntry tza now s w)).
Proof.
  intros Hu Hedit Hsel Hcount Hday Hreach Hnone.
  rewrite (saveEggEntry_create tza now s u selected w Hu Hedit Hsel Hcount Hday Hreach).
  cbv zeta.
  destruct (runEggQuery _ _) as [|hit hits] eqn:Hq; [done|].
  exfalso. apply dayQuery_elem in Hq as [Hk Hd]. by apply (Hnone _ _ Hk).
Qed.

(** X16. A new entry shows up in its owner's list. After a create that
    went through (input that passes the checks, no entry of the owner on
    that day, store answering), the list that the listener of the component
    builds from the owner's entries holds the new entry with the date and
    the count of the form, the owner's id and the name the form stored. *)
Theorem created_entry_is_listed (now now' : Z) (s : State) (u : User)
        (selected : Z) (w : World) :
  user s = Some u -> editEntry s = None -> selectedDate s = Some selected ->
  1 <= eggCount s <= 100 ->
  JsDate.Day (JsDate.LocalTime tza selected) <= JsDate.Day (JsDate.LocalTime tza now) ->
  reachable w ->
  (forall k d, Firestore.eggEntries w !! k = Some d ->
               ~ sameOwnerAndDay tza (uid u) selected d) ->
  let w1 := snd (saveEggEntry tza now s w) in
  mkEggEntry (fresh (dom (Firestore.eggEntries w))) selected (eggCount s) (uid u)
             (JsString.orElse (displayName u) "Anonym användare")
  ∈ EggTrackerView.onEggEntriesSnapshot now'
      (runEggQuery (EggTrackerView.eggEntriesQuery u) (Firestore.eggEntries w1)).
Proof.
  intros Hu Hedit Hsel Hcount Hday Hreach Hnone w1.
  destruct (saveEggEntry_created now s u selected w Hu Hedit Hsel Hcount Hday Hreach Hnone)
    as [Hins _].
  subst w1. rewrite Hins. unfold EggTrackerView.onEggEntriesSnapshot.
  apply list_elem_of_fmap. eexists (_, _). split; last first.
  - apply runEggQuery_elem_of. split; [apply lookup_insert_eq|].
    apply matches_ownQuery. simpl. eauto.
  - unfold EggTrackerView.toEntry. simpl. f_equal.
    + by destruct (uid u).
    + symmetry. by apply orElse_nonempty.
Qed.

(** X17. Create, then delete, is a round trip. After a create that went
    through, a confirmed delete of the new entry, from a form whose list is
    the one the listener built and while the entry is not older than the
    limit, leaves the collection of entries exactly as it was before the
    create. *)
Theorem create_then_delete_restores (now now' : Z) (s s' : State) (u : User)
        (selected : Z) (w : World) :
  user s = Some u -> editEntry s = None -> selectedDate s = Some selected ->
  1 <= eggCount s <= 100 ->
  JsDate.Day (JsDate.LocalTime tza selected) <= JsDate.Day (JsDate.LocalTime tza now) ->
  reachable w ->
  (forall k d, Firestore.eggEntries w !! k = Some d ->
               ~ sameOwnerAndDay tza (uid u) selected d) ->
  let w1 := snd (saveEggEntry tza now s w) in
  EggTracker.eggEntries s'
    = EggTrackerView.onEggEntriesSnapshot now'
        (runEggQuery (EggTrackerView.eggEntriesQuery u) (Firestore.eggEntries w1)) ->
  getMaxAllowedDate tza now' <= selected ->
  Firestore.eggEntries
    (snd (handleDelete tza now' true (fresh (dom (Firestore.eggEntries w))) s' w1))
  = Firestore.eggEntries w.
Proof.
  intros Hu Hedit Hsel Hcount Hday Hreach Hnone w1 Hlist Hwindow.
  destruct (saveEggEntry_created now s u selected w Hu Hedit Hsel Hcount Hday Hreach Hnone)
    as [Hins Hreach1].
  fold w1 in Hins, Hreach1.
  set (key := fresh (dom (Firestore.eggEntries w))) in *.
  assert (Hfresh : Firestore.eggEntries w !! key = None)
    by apply not_elem_of_dom, is_fresh.
  unfold handleDelete.
  assert (Hgo : (match List.find (fun e => String.eqb (id e) key) (EggTracker.eggEntries s') with
                 | Some e => EggTracker.date e <? getMaxAllowedDate tza now'
                 | None => false
                 end) = false).
  { destruct (List.find _ _) as [e|] eqn:Hfind; [|done].
    apply find_some in Hfind as [Hin Hid].
    apply String.eqb_eq in Hid. apply list_elem_of_In in Hin.
    rewrite Hlist in Hin. unfold EggTrackerView.onEggEntriesSnapshot in Hin.
    apply list_elem_of_fmap in Hin as ([k d] & -> & Hin).
    apply runEggQuery_elem_of in Hin as [Hk _]. simpl in Hid. subst k.
    rewrite Hins, lookup_insert_eq in Hk. inversion Hk. subst d.
    unfold EggTrackerView.toEntry. simpl. by apply Z.ltb_ge. }
  rewrite Hgo. cbn [negb].
  unfold bind, tryCatch, deleteDoc_eggEntries, request, ret.
  rewrite Hreach1. simpl. rewrite Hins. by apply delete_insert_id.
Qed.

(** X18. The two day bounds of [firestoreUtils]. Of a missing date both
    are missing. Of a date they are the first and the last millisecond of
    its local day: the date lies between them, they are 86 399 999 ms apart,
    [startOfDay] is its own fixed point, and a moment lies between them
    exactly when it falls on the same local day. *)
Theorem firestoreUtils_day_bounds (date : Z) :
  FirebaseConfig.startOfDay tza None = None
  /\ FirebaseConfig.endOfDay tza None = None
  /\ exists lo hi,
       FirebaseConfig.startOfDay tza (Some date) = Some lo
       /\ FirebaseConfig.endOfDay tza (Some date) = Some hi
       /\ lo <= date <= hi
       /\ hi = lo + 86399999
       /\ FirebaseConfig.startOfDay tza (Some lo) = Some lo
       /\ FirebaseConfig.endOfDay tza (Some hi) = Some hi
       /\ forall t, lo <= t <= hi
                    <-> JsDate.Day (JsDate.LocalTime tza t)
                        = JsDate.Day (JsDate.LocalTime tza date).
Proof.
  split; [done|]. split; [done|].
  unfold FirebaseConfig.startOfDay, FirebaseConfig.endOfDay.
  eexists _, _. split; [reflexivity|]. split; [reflexivity|].
  rewrite !setHours_midnight, !setHours_endOfDay.
  unfold JsDate.LocalTime, JsDate.Day, JsDate.msPerDay.
  cbn [JsDate.LocalTZA JsDate.fixedOffset].
  split; [Z.div_mod_to_equations; lia|]. split; [Z.div_mod_to_equations; lia|].
  split; [f_equal; Z.div_mod_to_equations; lia|].
  split; [f_equal; Z.div_mod_to_equations; lia|].
  intros t. split; intros H; Z.div_mod_to_equations; lia.
Qed.


End CreateReadDelete.

(** ** The table of the user's entries: filter, pages, statistics *)

Section PagingFacts.
Context {A : Type}.

(** Cutting a list into pages of [n] and gluing the pages gives it back. *)
Lemma pages_concat (n k : nat) (l : list A) :
  (length l <= k * n)%nat ->
  concat (map (fun p => firstn n (skipn (p * n) l)) (seq 0 k)) = l.
Proof.
  revert l. induction k as [|k IH]; intros l Hlen.
  - destruct l; [done|]. simpl in Hlen. lia.
  - simpl seq. rewrite <- seq_shift. cbn [map concat]. rewrite map_map.
    etrans; [|apply (firstn_skipn n l)]. f_equal.
    etrans; [|apply (IH (skipn n l)); rewrite length_skipn; lia].
    f_equal. apply map_ext. intros p. f_equal. rewrite skipn_skipn. f_equal. lia.
Qed.

Lemma page_nonempty (n p : nat) (l : list A) :
  (0 < n)%nat -> firstn n (skipn (p * n) l) <> [] <-> (p * n < length l)%nat.
Proof.
  intros Hn. split.
  - intros Hne. destruct (Nat.lt_ge_cases (p * n) (length l)) as [|Hge]; [done|].
    exfalso. apply Hne. rewrite skipn_all2 by lia. apply firstn_nil.
  - intros Hlt Hnil. apply (f_equal (@length A)) in Hnil.
    rewrite length_firstn, length_skipn in Hnil. simpl in Hnil. lia.
Qed.

Lemma foldr_map {B C} (f : B -> C -> C) (g : A -> B) (c : C) (l : list A) :
  foldr f c (map g l) = foldr (fun a => f (g a)) c l.
Proof. induction l as [|a l IH]; simpl; [done|]. by rewrite IH. Qed.

End PagingFacts.

Section ViewFacts.
Import Firestore Auth Spec Shape EggTrackerView.
Variable user : option User.
Variables filterStartDate filterEndDate : option Z.

#[local] Abbreviation filtered := (getFilteredEntries user filterStartDate filterEndDate).
#[local] Abbreviation page := (getPaginatedEntries user filterStartDate filterEndDate).
#[local] Abbreviation totalPages := (getTotalPages user filterStartDate filterEndDate).

Lemma totalPages_spec (entries : list EggTracker.EggEntry) (p : nat) :
  (p < totalPages entries)%nat <-> (p * 7 < length (filtered entries))%nat.
Proof.
  unfold getTotalPages, itemsPerPage. cbn [Nat.sub].
  pose proof (Nat.div_mod_eq (length (filtered entries) + 6) 7).
  pose proof (Nat.mod_upper_bound (length (filtered entries) + 6) 7).
  lia.
Qed.

Lemma filtered_pages_concat (entries : list EggTracker.EggEntry) :
  concat (map (fun p => page p entries) (seq 0 (totalPages entries))) = filtered entries.
Proof.
  unfold getPaginatedEntries. apply pages_concat.
  destruct (Nat.le_gt_cases (length (filtered entries)) (totalPages entries * itemsPerPage))
    as [|Hlt]; [done|].
  exfalso. apply totalPages_spec in Hlt. lia.
Qed.

Lemma filtered_page_nonempty (p : nat) (entries : list EggTracker.EggEntry) :
  page p entries <> [] <-> (p < totalPages entries)%nat.
Proof.
  rewrite totalPages_spec. unfold getPaginatedEntries, itemsPerPage.
  apply page_nonempty. lia.
Qed.

(** X20. The pages cut the filtered list without loss or repetition:
    gluing page 0 up to the last page gives exactly the entries that pass
    the filter, in their order; no page holds more than seven entries; and a
    page holds something exactly when its number is below [getTotalPages].
    With nobody signed in there is nothing to show and no page. *)
Theorem pages_partition_filtered_entries (entries : list EggTracker.EggEntry) :
  concat (map (fun p => page p entries) (seq 0 (totalPages entries))) = filtered entries
  /\ (forall p, (length (page p entries) <= 7)%nat
                /\ (page p entries <> [] <-> (p < totalPages entries)%nat))
  /\ (user = None -> filtered entries = [] /\ totalPages entries = 0%nat).
Proof.
  split; [apply filtered_pages_concat|split].
  - intros p. split; [|apply filtered_page_nonempty].
    unfold getPaginatedEntries, itemsPerPage. rewrite length_firstn. lia.
  - intros Hu. unfold getTotalPages, getFilteredEntries. rewrite Hu. done.
Qed.

(** X21. The paging buttons tell the truth, and the page shown is kept
    valid. "Older" is offered exactly when the next page holds something,
    "newer" exactly when the page is not the first. When the entries change
    and at least one page remains, the effect moves a page number past the
    end to the last page and leaves a valid one alone, so the page shown is
    never empty; when no entry remains the page number stays as it is. *)
Theorem paging_stays_on_a_page (currentPage : nat) (entries : list EggTracker.EggEntry) :
  (hasOlderEntries user filterStartDate filterEndDate currentPage entries = true
   <-> page (S currentPage) entries <> [])
  /\ (hasNewerEntries currentPage = true <-> (0 < currentPage)%nat)
  /\ let next := keepPageValid user filterStartDate filterEndDate currentPage entries in
     ((currentPage < totalPages entries)%nat -> next = currentPage)
     /\ ((0 < totalPages entries <= currentPage)%nat ->
           next = (totalPages entries - 1)%nat)
     /\ ((0 < totalPages entries)%nat -> page next entries <> [])
     /\ (totalPages entries = 0%nat -> next = currentPage).
Proof.
  split; [|split].
  - unfold hasOlderEntries, getPaginatedEntries, itemsPerPage.
    rewrite Nat.ltb_lt, page_nonempty by lia. lia.
  - unfold hasNewerEntries. apply Nat.ltb_lt.
  - cbv zeta. unfold keepPageValid.
    destruct (Nat.leb_spec (totalPages entries) currentPage) as [Hle|Hgt];
      destruct (Nat.ltb_spec 0 (totalPages entries)) as [Hpos|Hzero]; cbn [andb];
      (split; [intros; try lia; done|]); (split; [intros; try lia; done|]);
      (split; [|intros; try lia; done]); intros Hsome;
      apply filtered_page_nonempty; lia.
Qed.

Lemma fold_left_counts (l : list EggTracker.EggEntry) (z : Z) :
  fold_left (fun sum entry => sum + EggTracker.count entry) l z = z + sumOfCounts l.
Proof.
  revert z. induction l as [|e l IH]; intros z; simpl; [lia|].
  rewrite IH. unfold sumOfCounts. lia.
Qed.

Lemma sumOfCounts_app (l1 l2 : list EggTracker.EggEntry) :
  sumOfCounts (l1 ++ l2) = sumOfCounts l1 + sumOfCounts l2.
Proof. induction l1 as [|e l1 IH]; simpl; [done|]. rewrite IH. lia. Qed.

Lemma sumOfCounts_concat (ls : list (list EggTracker.EggEntry)) :
  sumOfCounts (concat ls) = foldr (fun l acc => sumOfCounts l + acc) 0 ls.
Proof. induction ls as [|l ls IH]; simpl; [done|]. by rewrite sumOfCounts_app, IH. Qed.

(** X22. The statistics of the user count what the table shows. With a
    user signed in, [totalEggs] is the sum of the counts of the entries on
    all pages and [daysCount] the number of those entries, which are the
    user's own entries dated within the filter, bounds included; with nobody
    signed in there are no statistics. *)
Theorem calculateUserStats_counts_the_pages (entries : list EggTracker.EggEntry) :
  match calculateUserStats user filterStartDate filterEndDate entries with
  | None => user = None
  | Some stats =>
      exists u, user = Some u
        /\ totalEggs stats
           = foldr (fun p acc => sumOfCounts (page p entries) + acc) 0
                   (seq 0 (totalPages entries))
        /\ daysCount stats
           = foldr (fun p acc => (length (page p entries) + acc)%nat) 0%nat
                   (seq 0 (totalPages entries))
        /\ totalEggs stats = sumOfCounts (filtered entries)
        /\ forall entry,
             entry ∈ filtered entries
             <-> entry ∈ entries
                 /\ EggTracker.userId entry = uid u
                 /\ (forall start, filterStartDate = Some start ->
                                   start <= EggTracker.date entry)
                 /\ (forall e, filterEndDate = Some e -> EggTracker.date entry <= e)
  end.
Proof.
  unfold calculateUserStats.
  destruct user as [u|] eqn:Hu; [|done].
  exists u. split; [done|]. cbn [totalEggs daysCount].
  pose proof (filtered_pages_concat entries) as Hcat.
  rewrite Hu in Hcat.
  rewrite fold_left_counts, Z.add_0_l.
  split; [|split; [|split; [done|]]].
  - rewrite <- Hcat at 1. rewrite sumOfCounts_concat.
    apply (foldr_map (fun l acc => sumOfCounts l + acc)).
  - rewrite <- Hcat at 1. rewrite length_concat. unfold list_sum.
    rewrite map_map. apply (foldr_map Nat.add).
  - intros entry. unfold getFilteredEntries.
    rewrite list_elem_of_In, filter_In, <- list_elem_of_In.
    rewrite !andb_true_iff, String.eqb_eq.
    destruct filterStartDate as [start|], filterEndDate as [e|];
      rewrite ?Z.leb_le; split.
    all: try (intros (Hin & (Ho & Hs) & He); repeat split; try done;
              intros x [= <-]; done).
    all: intros (Hin & Ho & Hs & He); repeat split; try done; eauto.
Qed.

End ViewFacts.

(** ** Maps in insertion order *)

Section MapFacts.
Context {K V : Type} `{EqDecision K}.
Implicit Types (m : JsMap.t K V) (k : K) (v : V).

Lemma jsmap_get_set m k k' v :
  JsMap.get k' (JsMap.set k v m) = if decide (k = k') then Some v else JsMap.get k' m.
Proof.
  induction m as [|[k0 v0] m IH]; simpl.
  - by destruct (decide (k = k')).
  - destruct (decide (k0 = k)) as [->|Hne]; simpl.
    + by destruct (decide (k = k')).
    + rewrite IH. destruct (decide (k0 = k')) as [->|]; [|done].
      by destruct (decide (k = k')).
Qed.

Lemma jsmap_get_None m k : JsMap.get k m = None <-> k ∉ map fst m.
Proof.
  induction m as [|[k0 v0] m IH]; simpl.
  - split; [intros _; apply not_elem_of_nil|done].
  - rewrite not_elem_of_cons. destruct (decide (k0 = k)) as [->|Hne].
    + split; [done|]. by intros [? _].
    + rewrite IH. split; [intros; split; congruence|by intros [_ ?]].
Qed.

Lemma jsmap_keys_set m k v :
  map fst (JsMap.set k v m)
  = match JsMap.get k m with
    | Some _ => map fst m
    | None => (map fst m ++ [k])%list
    end.
Proof.
  induction m as [|[k0 v0] m IH]; [done|].
  cbn [JsMap.set JsMap.get map fst].
  destruct (decide (k0 = k)) as [->|Hne]; cbn [map fst]; [done|].
  rewrite IH. by destruct (JsMap.get k m).
Qed.

Lemma jsmap_NoDup_set m k v :
  NoDup (map fst m) -> NoDup (map fst (JsMap.set k v m)).
Proof.
  intros Hnd. rewrite jsmap_keys_set.
  destruct (JsMap.get k m) eqn:Hget; [done|].
  apply jsmap_get_None in Hget.
  apply NoDup_app. split; [done|]. split.
  - intros x Hx Hk. apply list_elem_of_singleton in Hk. by subst.
  - apply NoDup_singleton.
Qed.

Lemma jsmap_get_Some_elem m k v :
  NoDup (map fst m) -> JsMap.get k m = Some v <-> (k, v) ∈ m.
Proof.
  induction m as [|[k0 v0] m IH]; simpl; intros Hnd.
  - split; [done|]. intros H0. by apply elem_of_nil in H0.
  - apply NoDup_cons in Hnd as [Hk0 Hnd].
    rewrite elem_of_cons. destruct (decide (k0 = k)) as [->|Hne].
    + split.
      * intros [= ->]. by left.
      * intros [[= ->]|Hin]; [done|].
        exfalso. apply Hk0. apply list_elem_of_fmap. by exists (k, v).
    + rewrite IH by done. split; [by right|].
      intros [[= ? ?]|?]; [congruence|done].
Qed.

(** Setting a key changes the sum of a measure of the values by what the
    new value adds to what the old one, if any, gave. *)
Lemma jsmap_sum_set (f : V -> Z) m k v :
  foldr (fun x acc => f x + acc) 0 (JsMap.values (JsMap.set k v m))
  = foldr (fun x acc => f x + acc) 0 (JsMap.values m)
    - match JsMap.get k m with Some v0 => f v0 | None => 0 end
    + f v.
Proof.
  unfold JsMap.values.
  induction m as [|[k0 v0] m IH]; simpl; [lia|].
  destruct (decide (k0 = k)) as [->|Hne]; simpl; [lia|].
  rewrite IH. lia.
Qed.

End MapFacts.

(** ** The farm statistics of the tracker *)

Section FarmFacts.
Import Firestore Auth Spec Shape EggTrackerView.

Lemma entriesOwnedBy_snoc (owner : string) (l : list EggTracker.EggEntry)
      (e : EggTracker.EggEntry) :
  entriesOwnedBy owner (l ++ [e])
  = (entriesOwnedBy owner l
     ++ if String.eqb (EggTracker.userId e) owner then [e] else [])%list.
Proof.
  unfold entriesOwnedBy. rewrite List.filter_app. simpl. by destruct (String.eqb _ _).
Qed.

Lemma sumOfCounts_snoc (l : list EggTracker.EggEntry) (e : EggTracker.EggEntry) :
  sumOfCounts (l ++ [e]) = sumOfCounts l + EggTracker.count e.
Proof. induction l as [|x l IH]; simpl; [lia|]. rewrite IH. lia. Qed.

Lemma farmTallied_nil : farmTallied [] [].
Proof. split; [constructor|]. split; [done|]. by intros owner. Qed.

Lemma farmTallied_step seen m e :
  farmTallied seen m -> farmTallied (seen ++ [e]) (addEntry m e).
Proof.
  intros (Hnodup & Hsum & Hrows). unfold addEntry.
  pose proof (Hrows (EggTracker.userId e)) as Hown.
  destruct (JsMap.get (EggTracker.userId e) m) as [existing|] eqn:Hget.
  - destruct Hown as (Hid & Htotal & first & rest & Hfirst & Hname).
    split; [by apply jsmap_NoDup_set|]. split.
    + unfold sumOfTotals in *. rewrite (jsmap_sum_set App.totalCount), Hget, Hsum.
      rewrite sumOfCounts_snoc. simpl. lia.
    + intros owner. rewrite jsmap_get_set, entriesOwnedBy_snoc.
      destruct (decide (EggTracker.userId e = owner)) as [<-|Hne].
      * rewrite String.eqb_refl. simpl. split; [done|]. split.
        { rewrite sumOfCounts_snoc. lia. }
        exists first, (rest ++ [e])%list. by rewrite Hfirst.
      * apply String.eqb_neq in Hne. rewrite Hne, app_nil_r. apply Hrows.
  - split; [by apply jsmap_NoDup_set|]. split.
    + unfold sumOfTotals in *. rewrite (jsmap_sum_set App.totalCount), Hget, Hsum.
      rewrite sumOfCounts_snoc. simpl. lia.
    + intros owner. rewrite jsmap_get_set, entriesOwnedBy_snoc.
      destruct (decide (EggTracker.userId e = owner)) as [<-|Hne].
      * rewrite String.eqb_refl, Hown. simpl. split; [done|]. split; [lia|].
        by exists e, [].
      * apply String.eqb_neq in Hne. rewrite Hne, app_nil_r. apply Hrows.
Qed.

Lemma farmTallied_fold (entries : list EggTracker.EggEntry) :
  farmTallied entries (fold_left addEntry entries []).
Proof.
  induction entries as [|e entries IH] using rev_ind; [apply farmTallied_nil|].
  rewrite fold_left_app. simpl. by apply farmTallied_step.
Qed.

Lemma sumOfTotals_Permutation (l1 l2 : list App.UserTotal) :
  Permutation l1 l2 -> sumOfTotals l1 = sumOfTotals l2.
Proof.
  induction 1; unfold sumOfTotals in *; simpl; lia.
Qed.

(** The rows of the tracker's farm statistics, read off its loop. *)
Lemma farm_rows (now : Z) (docs : list (string * EggDoc)) :
  let entries := map (toEntry now) docs in
  let rows := onFarmStatsSnapshot now docs in
  NoDup (map App.userId rows)
  /\ sumOfTotals rows = sumOfCounts entries
  /\ forall row,
       row ∈ rows <->
       exists first rest,
         entriesOwnedBy (App.userId row) entries = first :: rest
         /\ row = App.mkUserTotal (App.userId row) (EggTracker.userName first)
                    (sumOfCounts (entriesOwnedBy (App.userId row) entries)).
Proof.
  intros entries rows.
  pose proof (farmTallied_fold entries) as (Hnodup & Hsum & Hrows).
  set (m := fold_left addEntry entries []) in *.
  assert (Hperm : Permutation rows (map snd m)).
  { subst rows. unfold onFarmStatsSnapshot. fold entries. fold m.
    by rewrite sort_Permutation. }
  assert (Hkey : forall k row, (k, row) ∈ m -> App.userId row = k).
  { intros k row Hin. apply jsmap_get_Some_elem in Hin; [|done].
    pose proof (Hrows k) as Hrow. rewrite Hin in Hrow. by destruct Hrow as (? & _). }
  split; [|split].
  - rewrite Hperm, map_map.
    rewrite (map_ext_in (fun x => App.userId (snd x)) fst); [done|].
    intros [k row] Hin. simpl. apply Hkey. by apply list_elem_of_In.
  - by rewrite (sumOfTotals_Permutation _ _ Hperm).
  - intros row. rewrite Hperm, list_elem_of_fmap. split.
    + intros ([k row'] & -> & Hin). simpl.
      pose proof (Hkey _ _ Hin) as Hk. subst k.
      apply jsmap_get_Some_elem in Hin; [|done].
      pose proof (Hrows (App.userId row')) as Hrow. rewrite Hin in Hrow.
      destruct Hrow as (_ & Htotal & first & rest & Hfirst & Hname).
      exists first, rest. split; [done|]. rewrite <- Htotal, <- Hname. by destruct row'.
    + intros (first & rest & Hfirst & Hrow).
      pose proof (Hrows (App.userId row)) as Hget.
      destruct (JsMap.get (App.userId row) m) as [row'|] eqn:Hm.
      * destruct Hget as (Hid & Htotal & first' & rest' & Hfirst' & Hname).
        exists (App.userId row, row'). split; [|by apply jsmap_get_Some_elem].
        simpl. rewrite Hrow. rewrite Hfirst in Hfirst'. inversion Hfirst'. subst.
        destruct row'. simpl in *. by subst.
      * by rewrite Hfirst in Hget.
Qed.


Lemma entriesOwnedBy_docs (now : Z) (owner : string) (docs : list (string * EggDoc)) :
  owner <> "" ->
  entriesOwnedBy owner (map (toEntry now) docs) = map (toEntry now) (entriesOf owner docs).
Proof.
  intros Hne. unfold entriesOwnedBy, entriesOf.
  induction docs as [|[k d] docs IH]; simpl; [done|].
  assert (Hsame : String.eqb (JsString.orElse (Firestore.userId d) "") owner
                  = bool_decide (Firestore.userId d = Some owner)).
  { assert (Ho : JsString.orElse (Firestore.userId d) "" = owner
                 <-> Firestore.userId d = Some owner).
    { unfold JsString.orElse, JsString.truthy.
      destruct (Firestore.userId d) as [[|c r]|]; split; intros; congruence. }
    destruct (String.eqb_spec (JsString.orElse (Firestore.userId d) "") owner);
      case_bool_decide; tauto. }
  rewrite Hsame. destruct (bool_decide _); simpl; by rewrite IH.
Qed.

Lemma sumOfCounts_docs (now : Z) (docs : list (string * EggDoc)) :
  sumOfCounts (map (toEntry now) docs) = sumCounts docs.
Proof. induction docs as [|doc docs IH]; simpl; [done|]. by rewrite IH. Qed.

(** X24. The two farm tables agree. From the same snapshot, the table of
    the start page and the table of the tracker give every owner with a
    non-empty id a row under the same condition (the owner has an entry in
    the snapshot) and with the same total. *)
Theorem farm_tables_agree (now : Z) (docs : list (string * EggDoc)) (owner : string)
        (total : Z) :
  owner <> "" ->
  (exists row, row ∈ snd (App.onSnapshot docs)
               /\ App.userId row = owner /\ App.totalCount row = total)
  <-> (exists row, row ∈ onFarmStatsSnapshot now docs
                   /\ App.userId row = owner /\ App.totalCount row = total).
Proof.
  intros Hne.
  destruct (farm_rows now docs) as (_ & _ & Hfarm). cbv zeta in Hfarm.
  assert (Happ : forall row, row ∈ snd (App.onSnapshot docs) ->
                   App.userId row <> "" ->
                   App.totalCount row = sumCounts (entriesOf (App.userId row) docs)
                   /\ entriesOf (App.userId row) docs <> []).
  { intros row. unfold App.onSnapshot. case_bool_decide as Hdocs.
    { intros Hin. by apply elem_of_nil in Hin. }
    pose proof (tallied_fold docs) as Hinv.
    destruct (fold_left App.addDocument docs (0, [])) as [tot totals].
    pose proof (rows_of_tallied docs tot totals Hinv) as [Hrow _].
    destruct Hinv as (_ & _ & Hrows). simpl in *.
    intros Hin _. apply Hrow in Hin. pose proof (Hrows (App.userId row)) as Ho.
    rewrite Hin in Ho. by destruct Ho as (_ & _ & ? & ?). }
  assert (Happ' : entriesOf owner docs <> [] ->
                  exists row, row ∈ snd (App.onSnapshot docs) /\ App.userId row = owner).
  { unfold App.onSnapshot. case_bool_decide as Hdocs; [by subst docs|].
    pose proof (tallied_fold docs) as Hinv.
    destruct (fold_left App.addDocument docs (0, [])) as [tot totals].
    pose proof (rows_of_tallied docs tot totals Hinv) as [Hrow _].
    destruct Hinv as (_ & _ & Hrows). simpl in *.
    intros Hsome. pose proof (Hrows owner) as Ho.
    destruct (JsObject.get owner totals) as [row|] eqn:Hget.
    - destruct Ho as (_ & Hid & _). exists row. split; [|done].
      apply Hrow. by rewrite Hid.
    - by specialize (Ho Hne). }
  split.
  - intros (row & Hin & Hid & Htotal). subst owner.
    destruct (Happ row Hin Hne) as [Hsum Hsome].
    destruct (entriesOwnedBy (App.userId row) (map (toEntry now) docs))
      as [|first rest] eqn:Hown.
    { rewrite entriesOwnedBy_docs in Hown by done.
      destruct (entriesOf _ docs); [done|discriminate]. }
    eexists (App.mkUserTotal _ _ _). split.
    + apply Hfarm. exists first, rest. simpl. split; [exact Hown|reflexivity].
    + simpl. split; [done|].
      rewrite entriesOwnedBy_docs, sumOfCounts_docs by done. congruence.
  - intros (row & Hin & Hid & Htotal). subst owner.
    apply Hfarm in Hin as (first & rest & Hown & Hrow).
    rewrite entriesOwnedBy_docs in Hown by done.
    destruct Happ' as (row' & Hin' & Hid').
    { intros Hnil. by rewrite Hnil in Hown. }
    exists row'. split; [done|]. split; [done|].
    rewrite <- Hid' in Hne.
    destruct (Happ row' Hin' Hne) as [Hsum _].
    rewrite Hsum, Hid', <- Htotal, Hrow. simpl.
    by rewrite entriesOwnedBy_docs, sumOfCounts_docs by (by rewrite <- Hid').
Qed.

End FarmFacts.

(** ** The overview of the admin panel *)

Section OverviewFacts.
Import Firestore Spec Shape AdminOverview.

Lemma docsOf_snoc (owner : option string) (l : list (string * EggDoc)) (doc : string * EggDoc) :
  docsOf owner (l ++ [doc])
  = (docsOf owner l
     ++ if bool_decide (Firestore.userId (snd doc) = owner) then [doc] else [])%list.
Proof. unfold docsOf. rewrite List.filter_app. simpl. by destruct (bool_decide _). Qed.

Lemma overviewTallied_nil (now : Z) : overviewTallied now [] [].
Proof. split; [constructor|]. by intros owner. Qed.

Lemma overviewTallied_step (now : Z) seen m doc :
  overviewTallied now seen m -> overviewTallied now (seen ++ [doc]) (addDocument now m doc).
Proof.
  intros (Hnodup & Hrows). unfold addDocument.
  pose proof (Hrows (Firestore.userId (snd doc))) as Hown.
  destruct (JsMap.get (Firestore.userId (snd doc)) m) as [existing|] eqn:Hget.
  - destruct Hown as (Hid & Htotal & Hcount & Hmax & last & Hlast & Hdate).
    split; [by apply jsmap_NoDup_set|].
    intros owner. rewrite jsmap_get_set, docsOf_snoc.
    destruct (decide (Firestore.userId (snd doc) = owner)) as [<-|Hne].
    + rewrite bool_decide_eq_true_2 by done. cbn [userId totalEggs entryCount lastEntry].
      split; [done|]. split.
      { rewrite sumCounts_app. simpl. unfold countOf. lia. }
      split.
      { rewrite length_app. simpl. lia. }
      fold (entryDateOf now doc).
      destruct (Z.ltb_spec (lastEntry existing) (entryDateOf now doc)) as [Hlt|Hge].
      * split.
        -- intros d Hd. apply elem_of_app in Hd as [Hd|Hd].
           ++ specialize (Hmax d Hd). lia.
           ++ apply list_elem_of_singleton in Hd. subst d. lia.
        -- exists doc. split; [|done]. apply elem_of_app. right. by left.
      * split.
        -- intros d Hd. apply elem_of_app in Hd as [Hd|Hd].
           ++ by apply Hmax.
           ++ apply list_elem_of_singleton in Hd. by subst d.
        -- exists last. split; [|done]. apply elem_of_app. by left.
    + rewrite bool_decide_eq_false_2 by done. rewrite app_nil_r. apply Hrows.
  - split; [by apply jsmap_NoDup_set|].
    intros owner. rewrite jsmap_get_set, docsOf_snoc.
    destruct (decide (Firestore.userId (snd doc) = owner)) as [<-|Hne].
    + rewrite bool_decide_eq_true_2 by done. rewrite Hown.
      cbn [userId totalEggs entryCount lastEntry app].
      split; [done|]. split; [simpl; unfold countOf; lia|]. split; [done|].
      fold (entryDateOf now doc). split.
      * intros d Hd. apply list_elem_of_singleton in Hd. by subst d.
      * exists doc. split; [by left|done].
    + rewrite bool_decide_eq_false_2 by done. rewrite app_nil_r. apply Hrows.
Qed.

Lemma overviewTallied_fold (now : Z) (docs : list (string * EggDoc)) :
  overviewTallied now docs (fold_left (addDocument now) docs []).
Proof.
  induction docs as [|doc docs IH] using rev_ind; [apply overviewTallied_nil|].
  rewrite fold_left_app. simpl. by apply overviewTallied_step.
Qed.

(** The rows of the overview, read off its loop. *)
Lemma overview_rows (now : Z) (docs : list (string * EggDoc)) :
  let rows := onEggEntriesSnapshot now docs in
  NoDup (map userId rows)
  /\ (forall row, row ∈ rows ->
        docsOf (userId row) docs <> []
        /\ totalEggs row = sumCounts (docsOf (userId row) docs)
        /\ entryCount row = Z.of_nat (length (docsOf (userId row) docs))
        /\ (forall doc, doc ∈ docsOf (userId row) docs -> entryDateOf now doc <= lastEntry row)
        /\ (exists doc, doc ∈ docsOf (userId row) docs /\ lastEntry row = entryDateOf now doc))
  /\ (forall owner, docsOf owner docs <> [] -> exists row, row ∈ rows /\ userId row = owner).
Proof.
  intros rows.
  pose proof (overviewTallied_fold now docs) as (Hnodup & Hrows).
  set (m := fold_left (addDocument now) docs []) in *.
  assert (Hperm : Permutation rows (map snd m)).
  { subst rows. unfold onEggEntriesSnapshot. fold m. by rewrite sort_Permutation. }
  assert (Hkey : forall k row, (k, row) ∈ m -> userId row = k).
  { intros k row Hin. apply jsmap_get_Some_elem in Hin; [|done].
    pose proof (Hrows k) as Hrow. rewrite Hin in Hrow. by destruct Hrow as (? & _). }
  split; [|split].
  - rewrite Hperm, map_map.
    rewrite (map_ext_in (fun x => userId (snd x)) fst); [done|].
    intros [k row] Hin. simpl. apply Hkey. by apply list_elem_of_In.
  - intros row. rewrite Hperm, list_elem_of_fmap.
    intros ([k row'] & -> & Hin). simpl.
    pose proof (Hkey _ _ Hin) as Hk. subst k.
    apply jsmap_get_Some_elem in Hin; [|done].
    pose proof (Hrows (userId row')) as Hrow. rewrite Hin in Hrow.
    destruct Hrow as (_ & Htotal & Hcount & Hmax & last & Hlast & Hdate).
    split; [|eauto 10]. intros Hnil. rewrite Hnil in Hlast. by apply elem_of_nil in Hlast.
  - intros owner Hsome. pose proof (Hrows owner) as Hrow.
    destruct (JsMap.get owner m) as [row|] eqn:Hget; [|done].
    destruct Hrow as (Hid & _). exists row. split; [|done].
    rewrite Hperm, list_elem_of_fmap. exists (owner, row). split; [done|].
    by apply jsmap_get_Some_elem.
Qed.

(** X25. The overview of the admin panel, for every snapshot of the
    entries: one row per value of the field [userId], documents without the
    field forming a row of their own, and a row for exactly the values that
    occur; each row gives the sum of the counts of those documents, their
    number, and as last entry the latest of their dates (a document without
    date counting as dated now); the rows come by decreasing number of
    eggs. *)
Theorem overview_rows_per_owner (now : Z) (docs : list (string * EggDoc)) :
  let rows := onEggEntriesSnapshot now docs in
  NoDup (map userId rows)
  /\ StronglySorted (fun a b => totalEggs a >= totalEggs b) rows
  /\ (forall owner, (exists row, row ∈ rows /\ userId row = owner)
                    <-> docsOf owner docs <> [])
  /\ (forall row, row ∈ rows ->
        totalEggs row = sumCounts (docsOf (userId row) docs)
        /\ entryCount row = Z.of_nat (length (docsOf (userId row) docs))
        /\ (forall doc, doc ∈ docsOf (userId row) docs -> entryDateOf now doc <= lastEntry row)
        /\ (exists doc, doc ∈ docsOf (userId row) docs /\ lastEntry row = entryDateOf now doc)).
Proof.
  intros rows. destruct (overview_rows now docs) as (Hnodup & Hrow & Hsome).
  fold rows in Hnodup, Hrow, Hsome.
  split; [done|]. split; [apply sort_descending|]. split.
  - intros owner. split; [|apply Hsome].
    intros (row & Hin & <-). by apply Hrow.
  - intros row Hin. by apply Hrow.
Qed.

(** The documents of another owner are the same before and after the
    entries of [owner] are taken away. *)
Lemma docsOf_notOwnedBy (owner : string) (other : option string) (m : gmap string EggDoc) :
  other <> Some owner ->
  Permutation (docsOf other (map_to_list (notOwnedBy owner m)))
              (docsOf other (map_to_list m)).
Proof.
  intros Hne. unfold docsOf, notOwnedBy.
  rewrite (filter_Permutation _ _ _ (map_to_list_filter_Permutation _ m)).
  induction (map_to_list m) as [|[k d] l IH]; simpl; [done|].
  case_bool_decide as Hown; simpl.
  - case_bool_decide; by rewrite IH.
  - rewrite bool_decide_eq_false_2; [done|]. simpl in Hown.
    destruct (decide (Firestore.userId d = Some owner)); [congruence|tauto].
Qed.

Lemma docsOf_owner_gone (owner : string) (m : gmap string EggDoc) :
  docsOf (Some owner) (map_to_list (notOwnedBy owner m)) = [].
Proof.
  unfold docsOf, notOwnedBy.
  destruct (List.filter _ _) as [|[k d] l] eqn:Hf; [done|].
  assert (Hin : In (k, d) (List.filter
             (fun doc : string * EggDoc => bool_decide (Firestore.userId (snd doc) = Some owner))
             (map_to_list (filter (fun kd : string * EggDoc =>
                                     Firestore.userId (snd kd) <> Some owner) m))))
    by (rewrite Hf; left; done).
  apply filter_In in Hin as [Hin Ho]. apply bool_decide_eq_true in Ho.
  apply list_elem_of_In, elem_of_map_to_list, map_lookup_filter_Some in Hin as [_ Hno].
  done.
Qed.

(** X26. Clearing a user's data clears the user's row and no other.
    When an admin has cleared the data of an owner who had entries (dialog
    confirmed, store answering), the overview built from the entries that
    remain has no row for that owner, and every other owner has a row after
    exactly when there was one before, with the same number of eggs and of
    entries. *)
Theorem clearUserData_clears_one_row (env : option string) (s : AdminPanel.State)
        (owner name : string) (now : Z) (w : World) :
  bool_decide (is_Some (AdminPanel.user s)) && AdminPanel.isAdmin env (AdminPanel.user s)
  = true ->
  reachable w ->
  ownedBy owner (Firestore.eggEntries w) <> ∅ ->
  let w' := snd (AdminPanel.clearUserData env true owner name s w) in
  let before := onEggEntriesSnapshot now (map_to_list (Firestore.eggEntries w)) in
  let after := onEggEntriesSnapshot now (map_to_list (Firestore.eggEntries w')) in
  (exists row, row ∈ before /\ userId row = Some owner)
  /\ (forall row, row ∈ after -> userId row <> Some owner)
  /\ (forall other eggs entries, other <> Some owner ->
        (exists row, row ∈ after /\ userId row = other
                     /\ totalEggs row = eggs /\ entryCount row = entries)
        <-> (exists row, row ∈ before /\ userId row = other
                         /\ totalEggs row = eggs /\ entryCount row = entries)).
Proof.
  intros Hadm Hreach Hsome w' before after.
  assert (Hw' : Firestore.eggEntries w' = notOwnedBy owner (Firestore.eggEntries w)).
  { subst w'. unfold AdminPanel.clearUserData. rewrite Hadm. simpl.
    unfold bind, tryCatch, getDocs_eggEntries, batchDelete_eggEntries, request, ret.
    rewrite Hreach. cbn [Firestore.eggEntries logRequest].
    set (q := mkEggQuery (Some owner) None None false).
    assert (Hhits : runEggQuery q (Firestore.eggEntries w)
                    = map_to_list (ownedBy owner (Firestore.eggEntries w))).
    { unfold runEggQuery, ownedBy. simpl. f_equal.
      apply map_filter_ext. intros k d _. simpl.
      unfold q. by rewrite matches_ownerQuery. }
    rewrite Hhits.
    assert (Hne : map_to_list (ownedBy owner (Firestore.eggEntries w)) <> [])
      by (by rewrite map_to_list_empty_iff).
    rewrite bool_decide_eq_false_2 by done.
    cbn [faults requests logRequest]. rewrite Hreach.
    cbn [snd Firestore.eggEntries withEggEntries].
    apply (foldr_delete_keys
             (fun kd : string * EggDoc => Firestore.userId (snd kd) = Some owner)).
    intros k. apply keys_of_filter. }
  destruct (overview_rows now (map_to_list (Firestore.eggEntries w)))
    as (_ & Hrow & Hex).
  destruct (overview_rows now (map_to_list (Firestore.eggEntries w')))
    as (_ & Hrow' & Hex').
  fold before in Hrow, Hex. fold after in Hrow', Hex'. rewrite Hw' in Hrow', Hex'.
  split; [|split].
  - apply Hex. intros Hnil. apply Hsome.
    apply map_to_list_empty_iff.
    pose proof (map_to_list_filter_Permutation
                  (fun kd : string * EggDoc => Firestore.userId (snd kd) = Some owner)
                  (Firestore.eggEntries w)) as Hperm.
    unfold docsOf in Hnil. unfold ownedBy. cbv beta in Hperm.
    rewrite Hnil in Hperm. by apply Permutation_nil_r in Hperm.
  - intros row Hin Ho. apply Hrow' in Hin as [Hne _].
    rewrite Ho in Hne. apply Hne, docsOf_owner_gone.
  - intros other eggs entries Hne.
    pose proof (docsOf_notOwnedBy owner other (Firestore.eggEntries w) Hne) as Hperm.
    split.
    + intros (row & Hin & Hid & Heggs & Hentries).
      apply Hrow' in Hin as (Hdocs & Htotal & Hcount & _). rewrite Hid in *.
      destruct (Hex other) as (row0 & Hin0 & Hid0).
      { intros Hnil. rewrite Hnil in Hperm. by apply Permutation_nil_r in Hperm. }
      exists row0. split; [done|]. split; [done|].
      apply Hrow in Hin0 as (_ & Htotal0 & Hcount0 & _). rewrite Hid0 in *.
      rewrite Htotal0, Hcount0, <- Heggs, <- Hentries, Htotal, Hcount.
      by rewrite (sumCounts_Permutation _ _ Hperm), (Permutation_length Hperm).
    + intros (row & Hin & Hid & Heggs & Hentries).
      apply Hrow in Hin as (Hdocs & Htotal & Hcount & _). rewrite Hid in *.
      destruct (Hex' other) as (row0 & Hin0 & Hid0).
      { intros Hnil. rewrite Hnil in Hperm. symmetry in Hperm.
        by apply Permutation_nil_r in Hperm. }
      exists row0. split; [done|]. split; [done|].
      apply Hrow' in Hin0 as (_ & Htotal0 & Hcount0 & _). rewrite Hid0 in *.
      rewrite Htotal0, Hcount0, <- Heggs, <- Hentries, Htotal, Hcount.
      by rewrite (sumCounts_Permutation _ _ Hperm), (Permutation_length Hperm).
Qed.

End OverviewFacts.

(** ** The chart of the year *)

Section KeyFacts.
Import Chart.

Lemma append_eqb (p a b : string) :
  String.eqb (String.append p a) (String.append p b) = String.eqb a b.
Proof.
  induction p as [|c p IH]; simpl; [done|]. by rewrite Ascii.eqb_refl.
Qed.

(** Properties whose keys share a prefix behave as those without it. *)
Lemma get_prefixed {V} (p k : string) (obj : JsObject.t V) :
  JsObject.get (String.append p k)
               (map (fun kv => (String.append p (fst kv), snd kv)) obj)
  = JsObject.get k obj.
Proof.
  induction obj as [|[k0 v0] obj IH]; simpl; [done|].
  rewrite append_eqb. by destruct (String.eqb k0 k).
Qed.

Lemma set_prefixed {V} (p k : string) (v : V) (obj : JsObject.t V) :
  JsObject.set (String.append p k) v
               (map (fun kv => (String.append p (fst kv), snd kv)) obj)
  = map (fun kv => (String.append p (fst kv), snd kv)) (JsObject.set k v obj).
Proof.
  induction obj as [|[k0 v0] obj IH]; simpl; [done|].
  rewrite append_eqb. destruct (String.eqb k0 k); simpl; [done|]. by rewrite IH.
Qed.

(** The digits of a number hold no hyphen: cutting at hyphens leaves them
    in one piece, and a key that continues after them with a hyphen is not
    an array index. *)
Lemma split_digits (d : Decimal.uint) (r : string) :
  JsString.split "-" (String.append (DecimalString.NilEmpty.string_of_uint d) (String "-" r))
  = DecimalString.NilEmpty.string_of_uint d :: JsString.split "-" r.
Proof. induction d; simpl; try rewrite IHd; done. Qed.

Lemma parseDigits_digits (d : Decimal.uint) (r : string) (acc : Z) :
  JsObject.parseDigits acc
    (String.append (DecimalString.NilEmpty.string_of_uint d) (String "-" r)) = None.
Proof. revert acc. induction d; intros acc; simpl; try apply IHd; done. Qed.

Lemma toString_nonneg (n : Z) :
  0 <= n ->
  exists d, toString n = DecimalString.NilEmpty.string_of_uint d.
Proof.
  intros Hn. unfold toString. destruct n as [|p|p]; [by exists (Decimal.D0 Decimal.Nil)| |lia].
  simpl. destruct (Pos.to_uint p) eqn:Hd; eauto.
  by exists (Decimal.D0 Decimal.Nil).
Qed.

Lemma split_monthKey (year : Z) (suffix : string) :
  0 <= year ->
  JsString.split "-" (String.append (toString year) (String "-" suffix))
  = toString year :: JsString.split "-" suffix.
Proof.
  intros Hy. destruct (toString_nonneg year Hy) as [d ->]. apply split_digits.
Qed.

Lemma isIndexKey_monthKey {V} (year : Z) (suffix : string) (v : V) :
  0 <= year ->
  JsObject.isIndexKey (String.append (toString year) (String "-" suffix), v) = false.
Proof.
  intros Hy. destruct (toString_nonneg year Hy) as [d ->].
  unfold JsObject.isIndexKey, JsObject.arrayIndex. cbn [fst].
  destruct (String.append _ _) as [|c r] eqn:Hkey; [done|].
  destruct (_ && _); [done|]. by rewrite <- Hkey, parseDigits_digits.
Qed.

Lemma ownProperties_no_index {V} (obj : JsObject.t V) :
  Forall (fun kv => JsObject.isIndexKey kv = false) obj ->
  JsObject.ownProperties obj = obj.
Proof.
  intros Hall. unfold JsObject.ownProperties.
  assert (Hnone : List.filter JsObject.isIndexKey obj = []).
  { induction Hall as [|kv obj Hkv _ IH]; simpl; [done|]. by rewrite Hkv. }
  assert (Hsame : List.filter (fun kv => negb (JsObject.isIndexKey kv)) obj = obj).
  { induction Hall as [|kv obj Hkv _ IH]; simpl; [done|].
    simpl in Hnone. rewrite Hkv in *. simpl. by rewrite IH. }
  by rewrite Hnone, Hsame.
Qed.

(** A list that the comparison already finds in order is left as it is. *)
Lemma sort_sorted {A} (cmp : A -> A -> Z) (l : list A) :
  StronglySorted (fun a b => cmp a b <= 0) l -> JsArray.sort cmp l = l.
Proof.
  unfold JsArray.sort.
  induction 1 as [|x l _ IH Hall]; simpl; [done|].
  rewrite IH. destruct Hall as [|y l' Hxy _]; simpl; [done|].
  destruct (Z.gtb_spec (cmp x y) 0); [lia|done].
Qed.

Lemma StronglySorted_by {A B} (R : B -> B -> Prop) (g : A -> B) (l : list A) :
  StronglySorted R (map g l) -> StronglySorted (fun a b => R (g a) (g b)) l.
Proof.
  induction l as [|a l IH]; simpl; intros Hs; [constructor|].
  apply StronglySorted_inv in Hs as [Hs Hall]. constructor; [by apply IH|].
  apply Forall_forall. intros b Hb. rewrite Forall_forall in Hall.
  apply Hall, list_elem_of_fmap. by exists b.
Qed.

End KeyFacts.

Section YearFacts.
Import JsDate.
Variable tza : Z.

(** The second bound of the chart is the first instant of 31 December. *)
Lemma lastDayOfYear_eq (y : Z) :
  ~ (0 <= y <= 99) ->
  newDate tza y 11 31 0 0 0 = (DayFromYear (y + 1) - 1) * msPerDay - tza.
Proof.
  intros Hy. rewrite newDate_year by done. rewrite DayFromYear_succ.
  unfold UTC, MakeDate, MakeDay, MakeTime. cbn [LocalTZA fixedOffset].
  change (11 / 12) with 0. change (11 mod 12) with 11.
  change (monthStart (DaysInYear (y + 0) - 365) 11) with (334 + (DaysInYear (y + 0) - 365)).
  replace (y + 0) with y by lia.
  unfold msPerDay, msPerHour, msPerMinute, msPerSecond. lia.
Qed.

(** A date between the two bounds of the chart falls in the year. *)
Lemma year_of_chart_entry (y t : Z) :
  ~ (0 <= y <= 99) ->
  newDate tza y 0 1 0 0 0 <= t <= newDate tza y 11 31 0 0 0 ->
  getFullYear tza t = y.
Proof.
  intros Hy. rewrite startOfYear_eq, lastDayOfYear_eq by done. intros Ht.
  apply YearFromTime_unique. unfold LocalTime, Day, msPerDay in *.
  cbn [LocalTZA fixedOffset] in *.
  split; Z.div_mod_to_equations; lia.
Qed.

End YearFacts.

Section ChartFacts.
Import Auth Chart Shape.
Variables tza now : Z.
Variable localeCompare : string -> string -> Z.

Lemma monthlyDataOf_ext (year : Z) (f g : Z -> Z) :
  (forall m, 0 <= m <= 11 -> f m = g m) -> monthlyDataOf year f = monthlyDataOf year g.
Proof.
  intros Hfg. unfold monthlyDataOf. f_equal. apply map_ext_in. intros m Hin.
  rewrite Hfg; [done|]. unfold monthsOfYear in Hin. simpl in Hin.
  repeat (destruct Hin as [<-|Hin]; [lia|]). done.
Qed.

Lemma initialMonthlyData_eq (year : Z) :
  initialMonthlyData year = monthlyDataOf year (fun _ => 0).
Proof.
  unfold initialMonthlyData, monthKey. cbn [fold_left].
  change (@nil (string * Z))
    with (map (fun kv : string * Z => (String.append (toString year) (fst kv), snd kv)) []).
  rewrite !set_prefixed. reflexivity.
Qed.

(** An entry of the year adds its count to the month it falls in. *)
Lemma addToMonth_eq (year : Z) (f : Z -> Z) (entry : EggTracker.EggEntry) :
  JsDate.getFullYear tza (EggTracker.date entry) = year ->
  addToMonth tza (monthlyDataOf year f) entry
  = monthlyDataOf year
      (fun m => if JsDate.getMonth tza (EggTracker.date entry) =? m
                then f m + EggTracker.count entry else f m).
Proof.
  intros Hyear. unfold addToMonth. rewrite Hyear.
  pose proof (MonthFromTime_range (JsDate.LocalTime tza (EggTracker.date entry))) as Hm.
  fold (JsDate.getMonth tza (EggTracker.date entry)) in Hm.
  set (m0 := JsDate.getMonth tza (EggTracker.date entry)) in *.
  unfold monthKey, monthlyDataOf. rewrite get_prefixed.
  assert (Hcases : m0 = 0 \/ m0 = 1 \/ m0 = 2 \/ m0 = 3 \/ m0 = 4 \/ m0 = 5 \/ m0 = 6
                   \/ m0 = 7 \/ m0 = 8 \/ m0 = 9 \/ m0 = 10 \/ m0 = 11) by lia.
  clearbody m0.
  assert (Hstep : forall m, m = m0 ->
            JsObject.get (String "-" (padStart 2 "0" (toString (m + 1))))
                         (map (fun m => (monthSuffix m, f m)) monthsOfYear) = Some (f m)
            /\ JsObject.set (String "-" (padStart 2 "0" (toString (m + 1))))
                            (f m + EggTracker.count entry)
                            (map (fun m => (monthSuffix m, f m)) monthsOfYear)
               = map (fun m' => (monthSuffix m',
                                 if m =? m' then f m' + EggTracker.count entry else f m'))
                     monthsOfYear).
  { intros m ->.
    repeat (destruct Hcases as [->|Hcases]; [split; reflexivity|]).
    subst m0. split; reflexivity. }
  destruct (Hstep m0 eq_refl) as [Hget Hset].
  by rewrite Hget, set_prefixed, Hset.
Qed.

Lemma fold_addToMonth (year : Z) (l : list EggTracker.EggEntry) (f : Z -> Z) :
  Forall (fun entry => JsDate.getFullYear tza (EggTracker.date entry) = year) l ->
  fold_left (addToMonth tza) l (monthlyDataOf year f)
  = monthlyDataOf year (fun m => f m + eggsIn tza m l).
Proof.
  intros Hall. revert f. induction Hall as [|entry l Hyear _ IH]; intros f.
  - simpl. apply monthlyDataOf_ext. intros m _. unfold eggsIn. simpl. lia.
  - cbn [fold_left]. rewrite (addToMonth_eq year f entry Hyear), IH.
    apply monthlyDataOf_ext. intros m _. unfold eggsIn. cbn [List.filter].
    destruct (_ =? m); simpl; lia.
Qed.

Lemma filter_filter {A} (f g : A -> bool) (l : list A) :
  List.filter f (List.filter g l) = List.filter (fun x => g x && f x) l.
Proof.
  induction l as [|x l IH]; simpl; [done|].
  destruct (g x); simpl; [|done]. destruct (f x); by rewrite IH.
Qed.

(** From the object of the months to the points of the chart. *)
Lemma chartData_eq (year : Z) (f : Z -> Z) :
  0 <= year -> ordersMonthKeys localeCompare year ->
  map (fun point : option string * Z * string =>
         mkChartPoint (fst (fst point)) (snd (fst point)))
      (JsArray.sort
         (fun a b : option string * Z * string => localeCompare (snd a) (snd b))
         (map (fun kv : string * Z =>
                 let month := nth_error (JsString.split "-" (fst kv)) 1 in
                 let monthIndex := option_map (fun n => n - 1) (parseInt month) in
                 (monthName monthIndex, snd kv, fst kv))
              (JsObject.ownProperties (monthlyDataOf year f))))
  = map (fun m => mkChartPoint (nth_error monthNames (Z.to_nat m)) (f m)) monthsOfYear.
Proof.
  intros Hyear Horder.
  rewrite ownProperties_no_index.
  2:{ unfold monthlyDataOf. rewrite map_map. apply Forall_forall. intros kv Hin.
      apply list_elem_of_fmap in Hin as (m & -> & _). cbn [fst snd].
      by apply isIndexKey_monthKey. }
  assert (Htriples :
    map (fun kv : string * Z =>
           let month := nth_error (JsString.split "-" (fst kv)) 1 in
           let monthIndex := option_map (fun n => n - 1) (parseInt month) in
           (monthName monthIndex, snd kv, fst kv))
        (monthlyDataOf year f)
    = map (fun m => (nth_error monthNames (Z.to_nat m), f m, monthKey year (m + 1)))
          monthsOfYear).
  { unfold monthlyDataOf. rewrite !map_map. apply map_ext_in. intros m Hin.
    cbn [fst snd]. unfold monthSuffix at 1. rewrite split_monthKey by done.
    unfold monthsOfYear in Hin. simpl in Hin.
    repeat (destruct Hin as [<-|Hin]; [reflexivity|]). done. }
  rewrite Htriples, sort_sorted.
  - by rewrite map_map.
  - apply (StronglySorted_by (fun a b => localeCompare a b <= 0) snd).
    rewrite map_map. cbn [snd map monthsOfYear]. unfold ordersMonthKeys in Horder.
    repeat (apply SSorted_cons;
            [|repeat (apply List.Forall_cons; [apply Horder; lia|]); apply List.Forall_nil]).
    apply SSorted_nil.
Qed.

(** X27. The chart of the year. With a user signed in, in a year from 100
    on, and a host whose comparison puts the keys of the twelve months in
    their order, [prepareChartData] gives twelve points, Jan to Dec in this
    order, and the point of a month carries the eggs of the user's entries
    that fall in that month and are dated from 1 January, 0:00, up to 31
    December, 0:00, of the current year: an entry made later on 31 December
    is not in the chart. Other filters play no role, and with nobody signed
    in there is no chart. *)
Theorem prepareChartData_by_month (u : User) (entries : list EggTracker.EggEntry) :
  100 <= JsDate.getFullYear tza now ->
  ordersMonthKeys localeCompare (JsDate.getFullYear tza now) ->
  prepareChartData tza now localeCompare (Some u) entries
  = Some (map (fun m => mkChartPoint (nth_error monthNames (Z.to_nat m))
                                     (eggsOfMonth tza now (uid u) m entries))
              monthsOfYear)
  /\ prepareChartData tza now localeCompare None entries = None
  /\ forall m,
       eggsOfMonth tza now (uid u) m entries
       = sumOfCounts
           (List.filter
              (fun entry =>
                 String.eqb (EggTracker.userId entry) (uid u)
                 && (JsDate.getFullYear tza (EggTracker.date entry)
                     =? JsDate.getFullYear tza now)
                 && (EggTracker.date entry
                     <=? JsDate.newDate tza (JsDate.getFullYear tza now) 11 31 0 0 0)
                 && (JsDate.getMonth tza (EggTracker.date entry) =? m))
              entries).
Proof.
  intros Hyear Horder. set (year := JsDate.getFullYear tza now) in *.
  assert (Hy : ~ (0 <= year <= 99)) by lia.
  split; [|split; [done|]].
  - unfold prepareChartData. fold year. f_equal.
    set (yearEntries := List.filter _ entries).
    assert (Hall : Forall (fun entry => JsDate.getFullYear tza (EggTracker.date entry) = year)
                          yearEntries).
    { apply Forall_forall. intros entry Hin. subst yearEntries.
      apply list_elem_of_In, filter_In in Hin as [_ Hin].
      apply andb_true_iff in Hin as [Hin Hhi]. apply andb_true_iff in Hin as [_ Hlo].
      apply (year_of_chart_entry tza year _ Hy). lia. }
    rewrite initialMonthlyData_eq, (fold_addToMonth year yearEntries _ Hall).
    rewrite chartData_eq by (done || lia).
    apply map_ext. intros m. f_equal. unfold eggsOfMonth, eggsIn. fold year.
    subst yearEntries. by rewrite filter_filter.
  - intros m. unfold eggsOfMonth. fold year. apply (f_equal sumOfCounts).
    apply List.filter_ext. intros entry.
    destruct (String.eqb _ _); [|done]. cbn [andb].
    destruct (Z.leb_spec (EggTracker.date entry) (JsDate.newDate tza year 11 31 0 0 0))
      as [Hhi|Hhi]; [|by rewrite !andb_false_r].
    rewrite !andb_true_r. f_equal.
    destruct (Z.leb_spec (JsDate.newDate tza year 0 1 0 0 0) (EggTracker.date entry))
      as [Hlo|Hlo].
    + symmetry. apply Z.eqb_eq. by apply (year_of_chart_entry tza year _ Hy).
    + symmetry. apply Z.eqb_neq. intros Heq.
      rewrite startOfYear_eq in Hlo by done.
      pose proof (YearFromTime_spec (JsDate.LocalTime tza (EggTracker.date entry))) as Hspec.
      unfold JsDate.getFullYear in Heq. rewrite Heq in Hspec.
      unfold JsDate.LocalTime, JsDate.Day, JsDate.msPerDay in *.
      cbn [JsDate.LocalTZA JsDate.fixedOffset] in *.
      destruct Hspec as [Hspec _]. Z.div_mod_to_equations. lia.
Qed.

End ChartFacts.

(** ** Concrete runs of the further properties *)

Section MoreExamples.
Import Firestore Auth Spec Shape Scenario MoreScenarios.

Lemma online_reachable allowed eggs t : reachable (online allowed eggs t).
Proof. intros n. reflexivity. Qed.

Lemma bobAdded_reachable : reachable bobAdded.
Proof. intros n. reflexivity. Qed.

Lemma fiveEggs_reachable : reachable fiveEggs.
Proof. intros n. reflexivity. Qed.

Lemma panel_admin typed :
  bool_decide (is_Some (AdminPanel.user (panel typed)))
  && AdminPanel.isAdmin adminEnv (AdminPanel.user (panel typed)) = true.
Proof. vm_compute. reflexivity. Qed.

Lemma bobAdded_keyedByEmail : keyedByEmail (Firestore.allowedUsers bobAdded).
Proof.
  intros k d Hk. rewrite bobAdded_allowedUsers in Hk.
  apply lookup_singleton_Some in Hk as [<- <-]. split; reflexivity.
Qed.

Lemma addUser_grants_access_witness :
  fst (AdminHelpers.isUserAllowed adminEnv (Some upperBob)
         (snd (AdminPanel.addUser adminEnv (panel " Bob@Example.com ") (online ∅ ∅ 0))))
  = Fulfilled true.
Proof.
  refine (proj2 (addUser_grants_access adminEnv (panel " Bob@Example.com ") upperBob
                   "BOB@example.COM" (online ∅ ∅ 0) _ _ _ _ _ _)).
  - apply panel_admin.
  - vm_compute. reflexivity.
  - reflexivity.
  - apply online_reachable.
  - reflexivity.
  - vm_compute. reflexivity.
Defined.

Lemma addUser_refuses_shown_address_witness :
  AdminPanel.addUser adminEnv (refreshedPanel " BOB@example.com") bobAdded
  = (Fulfilled (AdminPanel.setMessage (Some AdminPanel.AlreadyAllowed)
                  (refreshedPanel " BOB@example.com")), bobAdded).
Proof.
  apply (addUser_refuses_shown_address adminEnv (refreshedPanel " BOB@example.com") 0
           "bob@example.com" bobDoc bobAdded).
  - vm_compute. reflexivity.
  - vm_compute. reflexivity.
  - reflexivity.
  - rewrite bobAdded_allowedUsers. apply lookup_singleton_eq.
  - vm_compute. reflexivity.
Defined.

Lemma removeUser_deletes_every_match_witness :
  Firestore.allowedUsers
    (snd (AdminPanel.removeUser adminEnv true "Bob@Example.com" (panel "") twice))
  = filter (fun kd : string * AllowedUserDoc => au_email (snd kd) <> Some "bob@example.com")
           (Firestore.allowedUsers twice)
  /\ fst (AdminPanel.removeUser adminEnv true "Bob@Example.com" (panel "") twice)
     = Fulfilled (AdminPanel.setIsSubmitting false
                    (AdminPanel.setMessage (Some AdminPanel.UserRemoved) (panel ""))).
Proof.
  destruct (removeUser_deletes_every_match adminEnv (panel "") "Bob@Example.com" twice
              (panel_admin "") (online_reachable _ _ _))
    as (_ & Hleft & _ & Hmessage).
  split; [exact Hleft|]. rewrite Hmessage.
  rewrite bool_decide_eq_false_2; [reflexivity|].
  intros Hempty.
  assert (Hin : filter (fun kd : string * AllowedUserDoc =>
                          au_email (snd kd) = Some (JsString.toLowerCase "Bob@Example.com"))
                       (Firestore.allowedUsers twice) !! "legacy-17" = None)
    by (by rewrite Hempty).
  vm_compute in Hin. discriminate Hin.
Defined.

Lemma removeUser_revokes_access_witness :
  fst (AdminHelpers.isUserAllowed adminEnv (Some bob)
         (snd (AdminPanel.removeUser adminEnv true "bob@example.com" (panel "") bobAdded)))
  = Fulfilled false.
Proof.
  apply (removeUser_revokes_access adminEnv (panel "") "bob@example.com" bob
           "Bob@Example.com" bobAdded).
  - apply panel_admin.
  - apply bobAdded_reachable.
  - apply bobAdded_keyedByEmail.
  - reflexivity.
  - by_compute.
  - reflexivity.
Defined.

Lemma panel_keeps_ids_in_shape_witness :
  keyedByEmail
    (Firestore.allowedUsers (snd (AdminPanel.addUser adminEnv (panel "Anna@Example.com")
                                    bobAdded)))
  /\ keyedByEmail
       (Firestore.allowedUsers
          (snd (AdminPanel.removeUser adminEnv true "bob@example.com" (panel "") bobAdded))).
Proof.
  destruct (panel_keeps_ids_in_shape adminEnv true "bob@example.com" "uid-1" "Bob"
              (panel "Anna@Example.com") bobAdded bobAdded_keyedByEmail) as (Hadd & _ & _).
  destruct (panel_keeps_ids_in_shape adminEnv true "bob@example.com" "uid-1" "Bob"
              (panel "") bobAdded bobAdded_keyedByEmail) as (_ & Hremove & _).
  split; [exact Hadd | exact Hremove].
Defined.

Lemma clearUserData_all_or_nothing_witness :
  exists s',
    fst (AdminPanel.clearUserData adminEnv true "uid-1" "Bob" (panel "") secondRejected)
    = Fulfilled s'
    /\ AdminPanel.message s' = Some (AdminPanel.ClearFailed unavailable)
    /\ Firestore.eggEntries
         (snd (AdminPanel.clearUserData adminEnv true "uid-1" "Bob" (panel "") secondRejected))
       = Firestore.eggEntries secondRejected.
Proof.
  destruct (clearUserData_all_or_nothing adminEnv (panel "") "uid-1" "Bob" secondRejected
              (panel_admin ""))
    as (s' & Hrun & _ & _ & _ & Hfail).
  exists s'. split; [exact Hrun|].
  apply Hfail. right. split; [reflexivity|]. split; [|reflexivity].
  intros Hempty.
  assert (Hin : ownedBy "uid-1" (Firestore.eggEntries secondRejected) !! "e1" = None)
    by (by rewrite Hempty).
  vm_compute in Hin. discriminate Hin.
Defined.

Lemma saveEggEntry_edit_updates_in_place_witness :
  Firestore.eggEntries (snd (EggTracker.saveEggEntry zone noon15March editing fiveEggs))
  = <["0" := mkEggDoc (Some noon15March) (Some 9) (Some "uid-1") (Some "Bob")
                      (Some 0) (Some 0)]> (Firestore.eggEntries fiveEggs)
  /\ requests (snd (EggTracker.saveEggEntry zone noon15March editing fiveEggs))
     = (requests fiveEggs ++ [UpdateDoc_eggEntries "0"])%list.
Proof.
  assert (Hcount : 1 <= 9 <= 100) by lia.
  assert (Hday : JsDate.Day (JsDate.LocalTime zone noon15March)
                 <= JsDate.Day (JsDate.LocalTime zone noon15March)) by lia.
  pose proof (saveEggEntry_edit_updates_in_place zone noon15March editing bob
                (EggTracker.mkEggEntry "0" noon15March 5 "uid-1" "Bob") noon15March fiveEggs
                eq_refl eq_refl eq_refl Hcount Hday fiveEggs_reachable) as [Hreq Hdoc].
  split; [|exact Hreq].
  cbn [EggTracker.id] in Hdoc. rewrite fiveEggs_eggEntries, lookup_singleton_eq in Hdoc.
  destruct Hdoc as (_ & Hmap & _). rewrite Hmap, fiveEggs_eggEntries. reflexivity.
Defined.


Lemma handleDelete_removes_or_reports_witness :
  exists s',
    fst (EggTracker.handleDelete zone noon15March true "0" listed fiveEggs) = Fulfilled s'
    /\ EggTracker.successMessage s' = Some EggTracker.Deleted
    /\ Firestore.eggEntries
         (snd (EggTracker.handleDelete zone noon15March true "0" listed fiveEggs))
       = delete "0" (Firestore.eggEntries fiveEggs).
Proof.
  destruct (handleDelete_removes_or_reports zone noon15March "0" listed fiveEggs)
    as (s' & Hrun & _ & _ & Hdone).
  - by_compare.
  - exists s'. split; [exact Hrun|].
    change (faults fiveEggs (length (requests fiveEggs))) with (@None FirestoreError) in Hdone.
    destruct Hdone as (Hmessage & Hmap & _). split; [exact Hmessage | exact Hmap].
Defined.

Lemma created_entry_is_listed_witness :
  EggTracker.mkEggEntry "0" noon15March 5 "uid-1" "Bob"
  ∈ EggTrackerView.onEggEntriesSnapshot noon15March
      (runEggQuery (EggTrackerView.eggEntriesQuery bob) (Firestore.eggEntries fiveEggs)).
Proof.
  assert (Hcount : 1 <= 5 <= 100) by lia.
  assert (Hday : JsDate.Day (JsDate.LocalTime zone noon15March)
                 <= JsDate.Day (JsDate.LocalTime zone noon15March)) by lia.
  assert (Hnone : forall k d, Firestore.eggEntries (online ∅ ∅ 0) !! k = Some d ->
                    ~ sameOwnerAndDay zone (uid bob) noon15March d).
  { intros k d Hk. simpl in Hk. by rewrite lookup_empty in Hk. }
  exact (created_entry_is_listed zone noon15March noon15March (form 5 (Some noon15March))
           bob noon15March (online ∅ ∅ 0)
           eq_refl eq_refl eq_refl Hcount Hday (online_reachable _ _ _) Hnone).
Defined.

Lemma create_then_delete_restores_witness :
  Firestore.eggEntries
    (snd (EggTracker.handleDelete zone noon15March true "0" listed fiveEggs))
  = ∅.
Proof.
  assert (Hcount : 1 <= 5 <= 100) by lia.
  assert (Hday : JsDate.Day (JsDate.LocalTime zone noon15March)
                 <= JsDate.Day (JsDate.LocalTime zone noon15March)) by lia.
  assert (Hnone : forall k d, Firestore.eggEntries (online ∅ ∅ 0) !! k = Some d ->
                    ~ sameOwnerAndDay zone (uid bob) noon15March d).
  { intros k d Hk. simpl in Hk. by rewrite lookup_empty in Hk. }
  assert (Hwindow : EggTracker.getMaxAllowedDate zone noon15March <= noon15March)
    by by_compare.
  exact (create_then_delete_restores zone noon15March noon15March
           (form 5 (Some noon15March)) listed bob noon15March (online ∅ ∅ 0)
           eq_refl eq_refl eq_refl Hcount Hday (online_reachable _ _ _) Hnone
           eq_refl Hwindow).
Defined.


Lemma farm_tables_agree_witness :
  (exists row, row ∈ snd (App.onSnapshot threeOwners)
               /\ App.userId row = "uid-b" /\ App.totalCount row = 5)
  <-> (exists row, row ∈ EggTrackerView.onFarmStatsSnapshot 0 threeOwners
                   /\ App.userId row = "uid-b" /\ App.totalCount row = 5).
Proof.
  apply (farm_tables_agree 0 threeOwners "uid-b" 5). discriminate.
Defined.

Lemma clearUserData_clears_one_row_witness :
  (exists row,
     row ∈ AdminOverview.onEggEntriesSnapshot 0 (map_to_list (Firestore.eggEntries twoOwners))
     /\ AdminOverview.userId row = Some "uid-1")
  /\ ((exists row,
         row ∈ AdminOverview.onEggEntriesSnapshot 0
                 (map_to_list
                    (Firestore.eggEntries
                       (snd (AdminPanel.clearUserData adminEnv true "uid-1" "Bob" (panel "")
                               twoOwners))))
         /\ AdminOverview.userId row = Some "uid-2"
         /\ AdminOverview.totalEggs row = 5 /\ AdminOverview.entryCount row = 1)
       <-> (exists row,
              row ∈ AdminOverview.onEggEntriesSnapshot 0
                      (map_to_list (Firestore.eggEntries twoOwners))
              /\ AdminOverview.userId row = Some "uid-2"
              /\ AdminOverview.totalEggs row = 5 /\ AdminOverview.entryCount row = 1)).
Proof.
  destruct (clearUserData_clears_one_row adminEnv (panel "") "uid-1" "Bob" 0 twoOwners
              (panel_admin "") (online_reachable _ _ _))
    as (Hbefore & _ & Hothers).
  - intros Hempty.
    assert (Hin : ownedBy "uid-1" (Firestore.eggEntries twoOwners) !! "e1" = None)
      by (by rewrite Hempty).
    vm_compute in Hin. discriminate Hin.
  - split; [exact Hbefore|]. apply Hothers. discriminate.
Defined.

Lemma byteCompare_ordersMonthKeys :
  ordersMonthKeys byteCompare (JsDate.getFullYear zone noon15March).
Proof.
  intros i j Hi Hij Hj.
  assert (Hcases : forall k, 1 <= k <= 12 ->
            k = 1 \/ k = 2 \/ k = 3 \/ k = 4 \/ k = 5 \/ k = 6 \/ k = 7 \/ k = 8
            \/ k = 9 \/ k = 10 \/ k = 11 \/ k = 12) by (intros; lia).
  destruct (Hcases i ltac:(lia)) as [->|[->|[->|[->|[->|[->|[->|[->|[->|[->|[->| ->]]]]]]]]]]];
    destruct (Hcases j ltac:(lia)) as [->|[->|[->|[->|[->|[->|[->|[->|[->|[->|[->| ->]]]]]]]]]]];
    try lia; vm_compute; discriminate.
Qed.

Lemma prepareChartData_by_month_witness :
  Chart.prepareChartData zone noon15March byteCompare (Some bob) yearOfBob
  = Some [ Chart.mkChartPoint (Some "Jan") 0; Chart.mkChartPoint (Some "Feb") 0;
           Chart.mkChartPoint (Some "Mar") 7; Chart.mkChartPoint (Some "Apr") 0;
           Chart.mkChartPoint (Some "Maj") 0; Chart.mkChartPoint (Some "Jun") 0;
           Chart.mkChartPoint (Some "Jul") 0; Chart.mkChartPoint (Some "Aug") 0;
           Chart.mkChartPoint (Some "Sep") 0; Chart.mkChartPoint (Some "Okt") 0;
           Chart.mkChartPoint (Some "Nov") 0; Chart.mkChartPoint (Some "Dec") 0 ].
Proof.
  assert (Hyear : 100 <= JsDate.getFullYear zone noon15March) by by_compare.
  rewrite (proj1 (prepareChartData_by_month zone noon15March byteCompare bob yearOfBob
                    Hyear byteCompare_ordersMonthKeys)).
  vm_compute. reflexivity.
Defined.

End MoreExamples.
